(** * Manufactured home registrations: the registration aggregate

    A shallow embedding of [mhr_api/models/mhr_registration.py] (the
    [MhrRegistration] model: chain queries, transition builders, owner
    group and note lifecycle, projections) and of the pay-and-save
    orchestration of [mhr_api/resources/registration_utils.py], with the
    properties the specification states about them (Part VII) and
    further properties read off the code (Part VIII).

    Conventions of the embedding.
    - A Python object mutated in place is a record, and a mutating
      method returns the updated record.  The base registration owns its
      [change_registrations] list; no registration object is shared
      between two lists, so no aliasing has to be tracked.
    - A timestamp is a [Z] (microseconds since the epoch, the resolution
      of a Python [datetime]); [model_utils.now_ts()] is the explicit
      argument [now].
    - A nullable column is an [option]; where the code only tests
      truthiness of an integer, [None] and [0] are both written [0].
    - A Python [float] is an IEEE 754 binary64 value, [spec_float] with
      precision 53 and maximal exponent 1024.
    - Exceptions are the [Err] results of [result]. *)

From Stdlib Require Import ZArith Bool Lia.
From Stdlib Require Import Floats.SpecFloat.
From stdpp Require Import base option numbers list strings sorting.

Local Open Scope string_scope.
Local Open Scope list_scope.
Local Open Scope Z_scope.

(** * Part I. The data

    The tables, entities and payloads the model works on. *)

(** ** Type tables ([mhr_api/models/type_tables.py])

    The enumerations are declared in a module that is not embedded
    here; the constructors below are the members the model code and its
    tests name. *)

Module MhrDocumentTypes.
Inductive t :=
| REG_101 | REG_102 | REG_103 | REG_103E | AMEND_PERMIT | CANCEL_PERMIT
| CAU | CAUC | CAUE | EXNR | EXRS | EXRE
| DEAT | TRAN | AFFE | LETA | WILL
| NCAN | NRED | NCON | NPUB | TAXN | REST
| STAT | REGC | REGC_CLIENT | REGC_STAFF | PUBA.
#[global] Instance eq_dec : EqDecision t.
Proof. solve_decision. Defined.
End MhrDocumentTypes.

Module MhrNoteStatusTypes.
Inductive t := ACTIVE | CANCELLED | EXPIRED.
#[global] Instance eq_dec : EqDecision t.
Proof. solve_decision. Defined.
End MhrNoteStatusTypes.

Module MhrOwnerStatusTypes.
Inductive t := ACTIVE | PREVIOUS.
#[global] Instance eq_dec : EqDecision t.
Proof. solve_decision. Defined.
End MhrOwnerStatusTypes.

Module MhrRegistrationStatusTypes.
Inductive t := ACTIVE | EXEMPT | HISTORICAL.
#[global] Instance eq_dec : EqDecision t.
Proof. solve_decision. Defined.
End MhrRegistrationStatusTypes.

Module MhrRegistrationTypes.
Inductive t :=
| MHREG | MHREG_CONVERSION | DECAL_REPLACE
| TRANS | TRAND | TRANS_ADMIN | TRANS_AFFIDAVIT | TRANS_WILL
| EXEMPTION_NON_RES | EXEMPTION_RES
| PERMIT | PERMIT_EXTENSION | AMENDMENT
| REG_STAFF_ADMIN.
#[global] Instance eq_dec : EqDecision t.
Proof. solve_decision. Defined.

(** [MhrRegistrationTypes.REG_NOTE] is a second name of the value of
    [REG_STAFF_ADMIN], not a value of its own.  [REG_TO_DOC_TYPE] has no
    key written [REG_NOTE], yet [create_note_from_json] sets
    [registrationType] to it and [create_change_from_json] then indexes
    the table without a [KeyError] ([test_create_note_from_json] builds
    such a registration).  The key it finds is the one of
    [REG_STAFF_ADMIN]: its entry is the caution, a unit note;
    [create_note_from_json] hands a cancellation note to
    [create_admin_from_json]; and the tests look for the caution among
    the registrations whose type is [REG_NOTE]. *)
Definition REG_NOTE : t := REG_STAFF_ADMIN.
End MhrRegistrationTypes.

Module MhrTenancyTypes.
Inductive t := SOLE | JOINT | COMMON | NA.
#[global] Instance eq_dec : EqDecision t.
Proof. solve_decision. Defined.
End MhrTenancyTypes.

Module MhrPartyTypes.
Inductive t :=
| OWNER_IND | OWNER_BUS | EXECUTOR | ADMINISTRATOR
| SUBMITTING | CONTACT.
#[global] Instance eq_dec : EqDecision t.
Proof. solve_decision. Defined.
End MhrPartyTypes.

(** [x in (a, b, c)] on an enumeration. *)
Definition one_of `{EqDecision A} (x : A) (l : list A) : bool :=
  bool_decide (x ∈ l).

(** ** Python numbers

    [interest_numerator] starts as an [int] of the payload and becomes
    a [float] once [adjust_group_interest] has divided. *)

Abbreviation float64 := spec_float.

Definition f64_of_Z (z : Z) : float64 := binary_normalize 53 1024 z 0 false.
Definition f64_div : float64 -> float64 -> float64 := SFdiv 53 1024.
Definition f64_mul : float64 -> float64 -> float64 := SFmul 53 1024.

Inductive pynum :=
| PInt (z : Z)
| PFloat (f : float64).

Definition py_float (n : pynum) : float64 :=
  match n with PInt z => f64_of_Z z | PFloat f => f end.

(** [a / b] on two [int]s, the divisor not zero: the correctly rounded
    quotient, which for operands below [2^53] is the IEEE quotient of the
    two converted operands. *)
Definition py_truediv (a b : Z) : float64 := f64_div (f64_of_Z a) (f64_of_Z b).

(** [f * n] with a [float] on the left. *)
Definition py_fmul (f : float64) (n : pynum) : float64 := f64_mul f (py_float n).

(** [n > 0], and truthiness of a number. *)
Definition py_gt0 (n : pynum) : bool :=
  match n with
  | PInt z => 0 <? z
  | PFloat f => SFltb (f64_of_Z 0) f
  end.

Definition py_truthy (n : pynum) : bool :=
  match n with
  | PInt z => negb (z =? 0)
  | PFloat f => negb (SFeqb f (f64_of_Z 0))
  end.

(** [float.is_integer()]: the value is finite and has no fractional
    part. *)
Definition f64_is_integer (f : float64) : bool :=
  match f with
  | S754_zero _ => true
  | S754_finite _ m e =>
      if 0 <=? e then true else (Z.pos m mod 2 ^ (- e) =? 0)
  | _ => false
  end.

Definition py_is_integer (n : pynum) : bool :=
  match n with PInt _ => true | PFloat f => f64_is_integer f end.

(** Truthiness of a nullable string. *)
Definition truthy_str (s : option string) : bool :=
  match s with
  | Some s => negb (String.eqb s "")
  | None => false
  end.

(** ** Exceptions *)

Inductive exn :=
| KeyError (key : string)
| IndexError
| TypeError
| NotFound (mhr_number : string)        (* BusinessException, HTTP 404 *)
| Unauthorized (account_id mhr_number : string)  (* BusinessException, HTTP 401 *)
| StoreFailure (msg : string)           (* an error raised by the session *)
| MultipleResultsFound                  (* raised by [one_or_none] *)
| SBCPaymentException (msg : string)
| DatabaseException (cause : exn).

Inductive result (A : Type) :=
| Ok (a : A)
| Err (e : exn).
Arguments Ok {A} a.
Arguments Err {A} e.

Definition rbind {A B} (m : result A) (k : A -> result B) : result B :=
  match m with Ok a => k a | Err e => Err e end.

Declare Scope result_scope.
Delimit Scope result_scope with result.
Notation "'let?' x ':=' m 'in' k" := (rbind m (fun x => k))
  (at level 10, x name, m at level 100, k at level 200) : result_scope.
Notation "'let?' ' pat ':=' m 'in' k" :=
  (rbind m (fun x => match x with pat => k end))
  (at level 10, pat pattern, m at level 100, k at level 200) : result_scope.
Local Open Scope result_scope.

(** ** Entities *)

Record MhrNote := mkNote {
  note_registration_id : Z;
  note_document_id : Z;
  note_document_type : MhrDocumentTypes.t;
  note_destroyed : string;
  note_status_type : MhrNoteStatusTypes.t;
  note_remarks : string;
  note_change_registration_id : Z;
  note_expiry_date : option Z;
}.

Record MhrParty := mkParty {
  party_registration_id : Z;
  party_change_registration_id : Z;
  party_type : MhrPartyTypes.t;
  party_status_type : MhrOwnerStatusTypes.t;
  party_individual_name : option string;
  party_business_name : option string;
  party_death_cert_number : option string;
  party_death_ts : option Z;
}.

Record MhrOwnerGroup := mkGroup {
  group_id : Z;
  group_sequence_number : option Z;
  group_registration_id : Z;
  group_change_registration_id : Z;
  group_tenancy_type : MhrTenancyTypes.t;
  group_status_type : MhrOwnerStatusTypes.t;
  group_interest : string;
  group_interest_numerator : pynum;
  group_interest_denominator : Z;
  group_modified : bool;
  group_owners : list MhrParty;
}.

Record MhrDocument := mkDocument {
  doc_pk : Z;                      (* [id] *)
  doc_document_id : string;
  doc_document_type : MhrDocumentTypes.t;
  doc_document_registration_number : string;
  doc_registration_id : Z;
}.

(** Locations, descriptions and sections are carried, never inspected,
    by the code embedded here. *)
Record MhrLocation := mkLocation {
  location_registration_id : Z;
  location_json : option string;
}.

Record MhrDescription := mkDescription {
  description_registration_id : Z;
  description_json : option string;
}.

Record MhrSection := mkSection {
  section_registration_id : Z;
  section_json : string;
}.

(** The attribute [doc_id] holds the document id of the registration, a
    string, when a builder assigns it, and the primary key of the first
    document, an integer, when a lookup assigns it. *)
Inductive doc_ref :=
| DocumentId (document_id : string)
| DocumentPk (pk : Z).

#[warnings="-register-all"]
Inductive MhrRegistration := mkRegistration {
  id : Z;
  registration_ts : Z;
  mhr_number : string;
  account_id : option string;
  client_reference_id : option string;
  pay_invoice_id : option Z;
  pay_path : option string;
  user_id : option string;
  draft_id : Z;
  registration_type : MhrRegistrationTypes.t;
  status_type : MhrRegistrationStatusTypes.t;
  parties : list MhrParty;
  locations : list MhrLocation;
  documents : list MhrDocument;
  notes : list MhrNote;
  owner_groups : list MhrOwnerGroup;
  descriptions : list MhrDescription;
  sections : list MhrSection;
  doc_reg_number : string;
  doc_pkey : Z;
  doc_id : doc_ref;
  current_view : bool;
  staff : bool;
  report_view : bool;
  change_registrations : list MhrRegistration;
}.

(** *** Attribute assignment *)

Definition set_note_closed (n : MhrNote) (st : MhrNoteStatusTypes.t) (by_id : Z) : MhrNote :=
  {| note_registration_id := note_registration_id n;
     note_document_id := note_document_id n;
     note_document_type := note_document_type n;
     note_destroyed := note_destroyed n;
     note_status_type := st;
     note_remarks := note_remarks n;
     note_change_registration_id := by_id;
     note_expiry_date := note_expiry_date n |}.

Definition set_note_expiry_date (n : MhrNote) (e : option Z) : MhrNote :=
  {| note_registration_id := note_registration_id n;
     note_document_id := note_document_id n;
     note_document_type := note_document_type n;
     note_destroyed := note_destroyed n;
     note_status_type := note_status_type n;
     note_remarks := note_remarks n;
     note_change_registration_id := note_change_registration_id n;
     note_expiry_date := e |}.

Definition set_note_remarks (n : MhrNote) (r : string) : MhrNote :=
  {| note_registration_id := note_registration_id n;
     note_document_id := note_document_id n;
     note_document_type := note_document_type n;
     note_destroyed := note_destroyed n;
     note_status_type := note_status_type n;
     note_remarks := r;
     note_change_registration_id := note_change_registration_id n;
     note_expiry_date := note_expiry_date n |}.

Definition set_status_type (r : MhrRegistration) (v : MhrRegistrationStatusTypes.t) : MhrRegistration :=
  let 'mkRegistration a1 a2 a3 a4 a5 a6 a7 a8 a9 a10 _ a12 a13 a14 a15 a16 a17 a18 a19 a20 a21 a22 a23 a24 a25 := r in
  mkRegistration a1 a2 a3 a4 a5 a6 a7 a8 a9 a10 v a12 a13 a14 a15 a16 a17 a18 a19 a20 a21 a22 a23 a24 a25.

Definition set_registration_type (r : MhrRegistration) (v : MhrRegistrationTypes.t) : MhrRegistration :=
  let 'mkRegistration a1 a2 a3 a4 a5 a6 a7 a8 a9 _ a11 a12 a13 a14 a15 a16 a17 a18 a19 a20 a21 a22 a23 a24 a25 := r in
  mkRegistration a1 a2 a3 a4 a5 a6 a7 a8 a9 v a11 a12 a13 a14 a15 a16 a17 a18 a19 a20 a21 a22 a23 a24 a25.

Definition set_payment (r : MhrRegistration) (invoice : option Z) (path : option string) : MhrRegistration :=
  let 'mkRegistration a1 a2 a3 a4 a5 _ _ a8 a9 a10 a11 a12 a13 a14 a15 a16 a17 a18 a19 a20 a21 a22 a23 a24 a25 := r in
  mkRegistration a1 a2 a3 a4 a5 invoice path a8 a9 a10 a11 a12 a13 a14 a15 a16 a17 a18 a19 a20 a21 a22 a23 a24 a25.

Definition set_parties (r : MhrRegistration) (v : list MhrParty) : MhrRegistration :=
  let 'mkRegistration a1 a2 a3 a4 a5 a6 a7 a8 a9 a10 a11 _ a13 a14 a15 a16 a17 a18 a19 a20 a21 a22 a23 a24 a25 := r in
  mkRegistration a1 a2 a3 a4 a5 a6 a7 a8 a9 a10 a11 v a13 a14 a15 a16 a17 a18 a19 a20 a21 a22 a23 a24 a25.

Definition set_locations (r : MhrRegistration) (v : list MhrLocation) : MhrRegistration :=
  let 'mkRegistration a1 a2 a3 a4 a5 a6 a7 a8 a9 a10 a11 a12 _ a14 a15 a16 a17 a18 a19 a20 a21 a22 a23 a24 a25 := r in
  mkRegistration a1 a2 a3 a4 a5 a6 a7 a8 a9 a10 a11 a12 v a14 a15 a16 a17 a18 a19 a20 a21 a22 a23 a24 a25.

Definition set_documents (r : MhrRegistration) (v : list MhrDocument) : MhrRegistration :=
  let 'mkRegistration a1 a2 a3 a4 a5 a6 a7 a8 a9 a10 a11 a12 a13 _ a15 a16 a17 a18 a19 a20 a21 a22 a23 a24 a25 := r in
  mkRegistration a1 a2 a3 a4 a5 a6 a7 a8 a9 a10 a11 a12 a13 v a15 a16 a17 a18 a19 a20 a21 a22 a23 a24 a25.

Definition set_notes (r : MhrRegistration) (v : list MhrNote) : MhrRegistration :=
  let 'mkRegistration a1 a2 a3 a4 a5 a6 a7 a8 a9 a10 a11 a12 a13 a14 _ a16 a17 a18 a19 a20 a21 a22 a23 a24 a25 := r in
  mkRegistration a1 a2 a3 a4 a5 a6 a7 a8 a9 a10 a11 a12 a13 a14 v a16 a17 a18 a19 a20 a21 a22 a23 a24 a25.

Definition set_owner_groups (r : MhrRegistration) (v : list MhrOwnerGroup) : MhrRegistration :=
  let 'mkRegistration a1 a2 a3 a4 a5 a6 a7 a8 a9 a10 a11 a12 a13 a14 a15 _ a17 a18 a19 a20 a21 a22 a23 a24 a25 := r in
  mkRegistration a1 a2 a3 a4 a5 a6 a7 a8 a9 a10 a11 a12 a13 a14 a15 v a17 a18 a19 a20 a21 a22 a23 a24 a25.

Definition set_description (r : MhrRegistration) (v : list MhrDescription) (w : list MhrSection) : MhrRegistration :=
  let 'mkRegistration a1 a2 a3 a4 a5 a6 a7 a8 a9 a10 a11 a12 a13 a14 a15 a16 _ _ a19 a20 a21 a22 a23 a24 a25 := r in
  mkRegistration a1 a2 a3 a4 a5 a6 a7 a8 a9 a10 a11 a12 a13 a14 a15 a16 v w a19 a20 a21 a22 a23 a24 a25.

Definition set_doc_id (r : MhrRegistration) (v : doc_ref) : MhrRegistration :=
  let 'mkRegistration a1 a2 a3 a4 a5 a6 a7 a8 a9 a10 a11 a12 a13 a14 a15 a16 a17 a18 a19 a20 _ a22 a23 a24 a25 := r in
  mkRegistration a1 a2 a3 a4 a5 a6 a7 a8 a9 a10 a11 a12 a13 a14 a15 a16 a17 a18 a19 a20 v a22 a23 a24 a25.

Definition set_change_registrations (r : MhrRegistration) (v : list MhrRegistration) : MhrRegistration :=
  let 'mkRegistration a1 a2 a3 a4 a5 a6 a7 a8 a9 a10 a11 a12 a13 a14 a15 a16 a17 a18 a19 a20 a21 a22 a23 a24 _ := r in
  mkRegistration a1 a2 a3 a4 a5 a6 a7 a8 a9 a10 a11 a12 a13 a14 a15 a16 a17 a18 a19 a20 a21 a22 a23 a24 v.

Definition set_doc_type (d : MhrDocument) (v : MhrDocumentTypes.t) : MhrDocument :=
  {| doc_pk := doc_pk d; doc_document_id := doc_document_id d;
     doc_document_type := v;
     doc_document_registration_number := doc_document_registration_number d;
     doc_registration_id := doc_registration_id d |}.

Definition set_doc_registration_id (d : MhrDocument) (v : Z) : MhrDocument :=
  {| doc_pk := doc_pk d; doc_document_id := doc_document_id d;
     doc_document_type := doc_document_type d;
     doc_document_registration_number := doc_document_registration_number d;
     doc_registration_id := v |}.

Definition set_group_ids (g : MhrOwnerGroup) (new_id : Z) (seq_num : option Z) : MhrOwnerGroup :=
  let 'mkGroup _ _ c1 c2 c3 c4 c5 c6 c7 c8 c9 := g in
  mkGroup new_id seq_num c1 c2 c3 c4 c5 c6 c7 c8 c9.

Definition set_group_sequence_number (g : MhrOwnerGroup) (seq_num : option Z) : MhrOwnerGroup :=
  let 'mkGroup c0 _ c1 c2 c3 c4 c5 c6 c7 c8 c9 := g in
  mkGroup c0 seq_num c1 c2 c3 c4 c5 c6 c7 c8 c9.

Definition set_group_owners (g : MhrOwnerGroup) (v : list MhrParty) : MhrOwnerGroup :=
  let 'mkGroup c0 c00 c1 c2 c3 c4 c5 c6 c7 c8 _ := g in
  mkGroup c0 c00 c1 c2 c3 c4 c5 c6 c7 c8 v.

Definition set_group_interest (g : MhrOwnerGroup) (num : pynum) (den : Z) : MhrOwnerGroup :=
  let 'mkGroup c0 c00 c1 c2 c3 c4 c5 _ _ c8 c9 := g in
  mkGroup c0 c00 c1 c2 c3 c4 c5 num den c8 c9.

(** [status_type], [change_registration_id] and [modified] as
    [remove_group] assigns them, with the owners it has updated. *)
Definition set_group_removed (g : MhrOwnerGroup) (new_reg_id : Z) (v : list MhrParty) : MhrOwnerGroup :=
  let 'mkGroup c0 c00 c1 _ c3 _ c5 c6 c7 _ _ := g in
  mkGroup c0 c00 c1 new_reg_id c3 MhrOwnerStatusTypes.PREVIOUS c5 c6 c7 true v.

Definition set_party_removed (p : MhrParty) (new_reg_id : Z) : MhrParty :=
  let 'mkParty d0 _ d2 _ d4 d5 d6 d7 := p in
  mkParty d0 new_reg_id d2 MhrOwnerStatusTypes.PREVIOUS d4 d5 d6 d7.

Definition set_party_death (p : MhrParty) (cert : option string) (ts : option Z) : MhrParty :=
  let 'mkParty d0 d1 d2 d3 d4 d5 _ _ := p in
  mkParty d0 d1 d2 d3 d4 d5 cert ts.

(** ** Command payloads

    [json_data] is a dictionary checked against the request schema before
    a builder sees it; it is typed here by the keys the builders read.
    A key read with [.get] is an [option] ([None]: the key is absent);
    enumerated strings are members of their type table.  An owner group
    carries its list of owners and a note its document type: a group
    without the key [owners], on which the loops over
    [group_json.get("owners")] raise a [TypeError], is not a payload of
    this model. *)

Record OwnerJson := mkOwnerJson {
  partyType : option MhrPartyTypes.t;
  individualName : option string;
  organizationName : option string;
  deathCertificateNumber : option string;
  deathDateTime : option Z;
}.

Record GroupJson := mkGroupJson {
  groupId : option Z;
  owners : list OwnerJson;
  type : MhrTenancyTypes.t;
  interest : option string;
  interestNumerator : option Z;
  interestDenominator : option Z;
}.

Record NoteJson := mkNoteJson {
  note_documentType : MhrDocumentTypes.t;
  remarks : option string;
}.

Record DescriptionJson := mkDescriptionJson {
  description_body : string;
  description_sections : option (list string);
}.

Record RegistrationJson := mkRegistrationJson {
  registrationType : option MhrRegistrationTypes.t;
  documentId : option string;
  documentType : option MhrDocumentTypes.t;
  transferDocumentType : option MhrDocumentTypes.t;
  clientReferenceId : option string;
  submittingParty : option string;
  ownerGroups : option (list GroupJson);
  addOwnerGroups : option (list GroupJson);
  deleteOwnerGroups : option (list GroupJson);
  location : option string;
  newLocation : option string;
  description : option DescriptionJson;
  note : option NoteJson;
  amendment : bool;
  extension : bool;
  nonResidential : bool;
}.

(** [json_data["registrationType"] = v] and [json_data["documentId"] = v]. *)
Definition set_registrationType (j : RegistrationJson) (v : MhrRegistrationTypes.t) : RegistrationJson :=
  let 'mkRegistrationJson _ b1 b2 b3 b4 b5 b6 b7 b8 b9 b10 b11 b12 b13 b14 b15 := j in
  mkRegistrationJson (Some v) b1 b2 b3 b4 b5 b6 b7 b8 b9 b10 b11 b12 b13 b14 b15.

Definition set_documentId (j : RegistrationJson) (v : string) : RegistrationJson :=
  let 'mkRegistrationJson b0 _ b2 b3 b4 b5 b6 b7 b8 b9 b10 b11 b12 b13 b14 b15 := j in
  mkRegistrationJson b0 (Some v) b2 b3 b4 b5 b6 b7 b8 b9 b10 b11 b12 b13 b14 b15.

(** Truthiness of [json_data.get(key)] for a list value. *)
Definition truthy_list {A} (l : option (list A)) : bool :=
  match l with Some (_ :: _) => true | _ => false end.

(** [for x in json_data.get(key)]: iterating [None] raises [TypeError]. *)
Definition iterable {A} (l : option (list A)) : result (list A) :=
  match l with Some l => Ok l | None => Err TypeError end.

(** ** Values drawn from the database sequences

    [reg_utils.get_change_generated_values] asks the store for the new
    primary keys and numbers; what it returns is an input of a builder,
    as is the draft the registration is filed from. *)

Record GeneratedValues := mkGeneratedValues {
  gen_id : Z;
  gen_doc_reg_number : string;
  gen_doc_pkey : Z;
  gen_doc_id : string;
  gen_draft_number : string;
  gen_draft_id : Z;
}.

Record MhrDraft := mkDraft {
  draft_pk : Z;                    (* [id] *)
  draft_mhr_number : string;
}.

(** ** The store *)

(** The store: the rows of [mhr_registrations] as the session loads
    them, and the extra-registration grants. *)
Record Store := mkStore {
  mhr_registrations : list MhrRegistration;
  extra_registrations : list (string * string);   (* MHR number, account *)
}.

(** * Part II. Code of the repository that is not embedded

    The model class calls its sibling classes and helper modules.  What
    the properties below depend on is modelled from the specification;
    the rest is an interface. *)

(** ** Entity constructors of the sibling model classes *)

(** Modelled from the spec: [MhrOwnerGroup.create_from_json] is defined
    in [mhr_owner_group.py], which is not embedded.  The new group is
    ACTIVE, belongs to the registration that creates it, and takes its
    tenancy and interest from the payload as they are given; a group
    created by the current transition counts as modified. *)
Definition MhrOwnerGroup_create_from_json (group_json : GroupJson) (registration_id : Z) : MhrOwnerGroup :=
  {| group_id := default 0 (groupId group_json);
     group_sequence_number := None;
     group_registration_id := registration_id;
     group_change_registration_id := registration_id;
     group_tenancy_type := type group_json;
     group_status_type := MhrOwnerStatusTypes.ACTIVE;
     group_interest := default "" (interest group_json);
     group_interest_numerator := PInt (default 0 (interestNumerator group_json));
     group_interest_denominator := default 0 (interestDenominator group_json);
     group_modified := true;
     group_owners := [] |}.

(** Modelled from the spec: [MhrOwnerGroup.create_from_change_json]
    ([mhr_owner_group.py]), the same for a group added by a change
    registration, with the [group_id] the caller assigns. *)
Definition MhrOwnerGroup_create_from_change_json
    (new_json : GroupJson) (registration_id change_registration_id new_group_id : Z) : MhrOwnerGroup :=
  {| group_id := new_group_id;
     group_sequence_number := None;
     group_registration_id := registration_id;
     group_change_registration_id := change_registration_id;
     group_tenancy_type := type new_json;
     group_status_type := MhrOwnerStatusTypes.ACTIVE;
     group_interest := default "" (interest new_json);
     group_interest_numerator := PInt (default 0 (interestNumerator new_json));
     group_interest_denominator := default 0 (interestDenominator new_json);
     group_modified := true;
     group_owners := [] |}.

(** Modelled from the spec: [MhrParty.create_from_json] ([mhr_party.py]):
    an ACTIVE party of the given type with the names of the payload and
    no death metadata. *)
Definition MhrParty_create_from_json
    (owner_json : OwnerJson) (party_type : MhrPartyTypes.t) (registration_id : Z) : MhrParty :=
  {| party_registration_id := registration_id;
     party_change_registration_id := registration_id;
     party_type := party_type;
     party_status_type := MhrOwnerStatusTypes.ACTIVE;
     party_individual_name := individualName owner_json;
     party_business_name := organizationName owner_json;
     party_death_cert_number := None;
     party_death_ts := None |}.

(** Modelled from the spec: [MhrParty.create_from_registration_json]
    ([mhr_party.py]) attaches the submitting party of the payload. *)
Definition MhrParty_create_from_registration_json
    (json_data : RegistrationJson) (registration_id : Z) : list MhrParty :=
  match submittingParty json_data with
  | Some name =>
      [ {| party_registration_id := registration_id;
           party_change_registration_id := registration_id;
           party_type := MhrPartyTypes.SUBMITTING;
           party_status_type := MhrOwnerStatusTypes.ACTIVE;
           party_individual_name := None;
           party_business_name := Some name;
           party_death_cert_number := None;
           party_death_ts := None |} ]
  | None => []
  end.

(** Modelled from the spec: [MhrDocument.create_from_json]
    ([mhr_document.py]): the one document of a registration, of the
    document type the builder has resolved, keyed by the generated
    values the registration carries. *)
Definition MhrDocument_create_from_json
    (registration : MhrRegistration) (doc_type : MhrDocumentTypes.t) : MhrDocument :=
  {| doc_pk := doc_pkey registration;
     doc_document_id := match doc_id registration with
                        | DocumentId document_id => document_id
                        | DocumentPk _ => ""
                        end;
     doc_document_type := doc_type;
     doc_document_registration_number := doc_reg_number registration;
     doc_registration_id := id registration |}.

(** Modelled from the spec: [MhrLocation.create_from_json],
    [MhrDescription.create_from_json] and [MhrSection.create_from_json]
    ([mhr_location.py], [mhr_description.py], [mhr_section.py]) keep the
    payload they are given for the registration that creates them. *)
Definition MhrLocation_create_from_json (location_json : option string)
    (registration_id : Z) : MhrLocation :=
  mkLocation registration_id location_json.

Definition MhrDescription_create_from_json (description_json : option string)
    (registration_id : Z) : MhrDescription :=
  mkDescription registration_id description_json.

Definition MhrSection_create_from_json (section_json : string)
    (registration_id : Z) : MhrSection :=
  mkSection registration_id section_json.

(** ** Helpers of [models/registration_utils.py] *)

(** Modelled from the spec: [reg_utils.is_transfer_due_to_death]
    ([models/registration_utils.py] is not embedded).  The death-transfer
    variants are the transfers to a surviving joint tenant, under a
    will, by affidavit and to an administrator. *)
Definition is_transfer_due_to_death (reg_type : option MhrRegistrationTypes.t) : bool :=
  match reg_type with
  | Some t =>
      one_of t [MhrRegistrationTypes.TRAND; MhrRegistrationTypes.TRANS_ADMIN;
                MhrRegistrationTypes.TRANS_AFFIDAVIT; MhrRegistrationTypes.TRANS_WILL]
  | None => false
  end.

(** An owner of the payload names an owner of the record. *)
Definition owner_json_matches (owner : MhrParty) (owner_json : OwnerJson) : bool :=
  (truthy_str (organizationName owner_json)
   && bool_decide (organizationName owner_json = party_business_name owner))
  || (truthy_str (individualName owner_json)
      && bool_decide (individualName owner_json = party_individual_name owner)).

(** Modelled from the spec: [reg_utils.update_deceased]
    ([models/registration_utils.py]) stamps the death metadata of the
    payload onto the owner it names: the death certificate number and
    the death timestamp of the first payload owner with the same name,
    each when the payload gives it. *)
Definition update_deceased (owners_json : list OwnerJson) (owner : MhrParty) : MhrParty :=
  match List.find (owner_json_matches owner) owners_json with
  | Some match_json =>
      set_party_death owner
        (match deathCertificateNumber match_json with
         | Some c => Some c
         | None => party_death_cert_number owner
         end)
        (match deathDateTime match_json with
         | Some t => Some t
         | None => party_death_ts owner
         end)
  | None => owner
  end.

(** ** Extra registrations *)

(** Modelled from the spec: [MhrExtraRegistration.find_by_mhr_number]
    ([mhr_extra_registration.py] is not embedded) finds the grant of an
    account on a business key, if there is one. *)
Definition MhrExtraRegistration_find_by_mhr_number (db : Store)
    (mhr_num account : string) : option (string * string) :=
  List.find (fun grant => String.eqb (fst grant) mhr_num && String.eqb (snd grant) account)
    (extra_registrations db).

(** ** Collaborators outside the model class

    Functions and constants of modules that are not embedded
    ([models/utils.py], [models/registration_utils.py],
    [models/registration_change_utils.py], [services/authz.py]): they
    are the fields of an interface, and everything below is stated for
    any implementation of it. *)

Class Collaborators := {
  (** [STAFF_ROLE] of [services/authz.py] *)
  STAFF_ROLE : string;
  (** [model_utils.compute_permit_expiry()], from the clock reading *)
  compute_permit_expiry : Z -> Z;
  (** [change_utils.setup_permit_extension_location(base_reg,
      registration, new_location)]: the registration it leaves *)
  setup_permit_extension_location :
    MhrRegistration -> MhrRegistration -> option string -> MhrRegistration;
  (** [model_utils.format_mhr_number] *)
  format_mhr_number : string -> string;
  (** [reg_utils.get_owner_group_count(base_reg)], the count
      [create_transfer_from_json] hands to [add_new_groups] *)
  get_owner_group_count : MhrRegistration -> Z;
}.

(** * Part III. The registration model ([models/mhr_registration.py]) *)

(** ** Document type by registration type *)

Definition REG_TO_DOC_TYPE (t : MhrRegistrationTypes.t) : option MhrDocumentTypes.t :=
  match t with
  | MhrRegistrationTypes.DECAL_REPLACE => Some MhrDocumentTypes.REG_102
  | MhrRegistrationTypes.EXEMPTION_NON_RES => Some MhrDocumentTypes.EXNR
  | MhrRegistrationTypes.EXEMPTION_RES => Some MhrDocumentTypes.EXRS
  | MhrRegistrationTypes.MHREG => Some MhrDocumentTypes.REG_101
  | MhrRegistrationTypes.PERMIT => Some MhrDocumentTypes.REG_103
  | MhrRegistrationTypes.PERMIT_EXTENSION => Some MhrDocumentTypes.REG_103E
  | MhrRegistrationTypes.TRAND => Some MhrDocumentTypes.DEAT
  | MhrRegistrationTypes.TRANS => Some MhrDocumentTypes.TRAN
  | MhrRegistrationTypes.TRANS_AFFIDAVIT => Some MhrDocumentTypes.AFFE
  | MhrRegistrationTypes.TRANS_ADMIN => Some MhrDocumentTypes.LETA
  | MhrRegistrationTypes.TRANS_WILL => Some MhrDocumentTypes.WILL
  | MhrRegistrationTypes.REG_STAFF_ADMIN => Some MhrDocumentTypes.CAU
  | MhrRegistrationTypes.MHREG_CONVERSION | MhrRegistrationTypes.AMENDMENT => None
  end.

Definition REG_TYPE := MhrRegistrationTypes.MHREG.
Definition CONV_TYPE := MhrRegistrationTypes.MHREG_CONVERSION.

(** [REG_TO_DOC_TYPE[key]]. *)
Definition reg_to_doc_type (t : option MhrRegistrationTypes.t) : result MhrDocumentTypes.t :=
  match t ≫= REG_TO_DOC_TYPE with
  | Some d => Ok d
  | None => Err (KeyError "registrationType")
  end.

(** ** Chain queries *)

Definition is_caution (t : MhrDocumentTypes.t) : bool :=
  one_of t [MhrDocumentTypes.CAU; MhrDocumentTypes.CAUC; MhrDocumentTypes.CAUE].

Definition is_permit_note (t : MhrDocumentTypes.t) : bool :=
  one_of t [MhrDocumentTypes.REG_103; MhrDocumentTypes.REG_103E; MhrDocumentTypes.AMEND_PERMIT].

(** The guard of the loop of [set_caution]: [reg.notes] is not empty and
    its first note is an ACTIVE caution. *)
Definition active_caution_head (reg : MhrRegistration) : option MhrNote :=
  match notes reg with
  | n :: _ =>
      if is_caution (note_document_type n)
         && bool_decide (note_status_type n = MhrNoteStatusTypes.ACTIVE)
      then Some n else None
  | [] => None
  end.

(** The [for reg in self.change_registrations] loop of [set_caution],
    [has_caution] being the loop variable; the [Some] branch is the one
    that ends in [break]. *)
Fixpoint set_caution_loop (regs : list MhrRegistration) (now : Z) (has_caution : bool) : bool :=
  match regs with
  | [] => has_caution
  | reg :: rest =>
      match active_caution_head reg with
      | Some n =>
          match note_expiry_date n with
          | None =>
              if bool_decide (note_document_type n = MhrDocumentTypes.CAUC)
              then set_caution_loop rest now true
              else set_caution_loop rest now has_caution
          | Some expiry => bool_decide (now < expiry)
          end
      | None => set_caution_loop rest now has_caution
      end
  end.

Definition set_caution (self : MhrRegistration) (now : Z) : bool :=
  set_caution_loop (change_registrations self) now false.

(** ** Exemption: [save_exemption]

    The in-memory effect of the method; the closing
    [db.session.commit()] writes it out. *)

(** The body of the loop: close the first note of [reg] when it is an
    ACTIVE transport permit note. *)
Definition close_permit_note (new_reg_id : Z) (reg : MhrRegistration) : MhrRegistration :=
  match notes reg with
  | note :: others =>
      if is_permit_note (note_document_type note)
         && bool_decide (note_status_type note = MhrNoteStatusTypes.ACTIVE)
      then set_notes reg
             (set_note_closed note MhrNoteStatusTypes.CANCELLED new_reg_id :: others)
      else reg
  | [] => reg
  end.

Definition save_exemption (self : MhrRegistration) (new_reg_id : Z) : MhrRegistration :=
  let self := set_status_type self MhrRegistrationStatusTypes.EXEMPT in
  set_change_registrations self
    (close_permit_note new_reg_id <$> change_registrations self).

(** ** Lookup by MHR number *)

(** [query.one_or_none()]. *)
Definition one_or_none {A} (rows : list A) : result (option A) :=
  match rows with
  | [] => Ok None
  | [row] => Ok (Some row)
  | _ => Err MultipleResultsFound
  end.

(** [try: ... except Exception as db_exception: raise
    DatabaseException(db_exception)]. *)
Definition db_try {A} (m : result A) : result A :=
  match m with
  | Ok a => Ok a
  | Err e => Err (DatabaseException e)
  end.

(** The rows a lookup for [registration_type] selects. *)
Definition selects (formatted_mhr : string) (wanted_type : MhrRegistrationTypes.t)
    (row : MhrRegistration) : bool :=
  String.eqb (mhr_number row) formatted_mhr
  && (if bool_decide (wanted_type = MhrRegistrationTypes.MHREG)
      then one_of (registration_type row) [wanted_type; CONV_TYPE]
      else bool_decide (registration_type row = wanted_type)).

(** The rows of the change registrations of a business key. *)
Definition is_change_of (formatted_mhr : string) (row : MhrRegistration) : bool :=
  String.eqb (mhr_number row) formatted_mhr
  && negb (one_of (registration_type row) [REG_TYPE; CONV_TYPE]).

(** [order_by(MhrRegistration.registration_ts)]. *)
Definition not_later (a b : MhrRegistration) : Prop :=
  registration_ts a <= registration_ts b.

#[global] Instance not_later_dec a b : Decision (not_later a b).
Proof. unfold not_later. apply _. Defined.

Definition order_by_registration_ts (rows : list MhrRegistration) : list MhrRegistration :=
  merge_sort not_later rows.

(** [if registration.documents: registration.doc_id =
    registration.documents[0].id]. *)
Definition with_doc_id (registration : MhrRegistration) : MhrRegistration :=
  match documents registration with
  | doc :: _ => set_doc_id registration (DocumentPk (doc_pk doc))
  | [] => registration
  end.

Section Lookup.
Context `{Collaborators}.
Variable db : Store.

Definition find_by_mhr_number (mhr_num : string) (account : option string)
    (staff : bool) (reg_type : option MhrRegistrationTypes.t) : result MhrRegistration :=
  let formatted_mhr := format_mhr_number mhr_num in
  let wanted_type := default REG_TYPE reg_type in
  let? registration :=
    if negb (String.eqb formatted_mhr "")
    then db_try (one_or_none
                   (List.filter (selects formatted_mhr wanted_type)
                      (mhr_registrations db)))
    else Ok None in
  match registration with
  | None => Err (NotFound formatted_mhr)
  | Some registration =>
      let? _ :=
        if negb staff && truthy_str account
           && bool_decide (account_id registration <> account)
        then
          match MhrExtraRegistration_find_by_mhr_number db formatted_mhr
                  (default "" account) with
          | Some _ => Ok tt
          | None => Err (Unauthorized (default "" account) formatted_mhr)
          end
        else Ok tt in
      Ok (with_doc_id registration)
  end.

Definition find_all_by_mhr_number (mhr_num : string) (account : option string)
    (staff : bool) : result MhrRegistration :=
  let? base_reg := find_by_mhr_number mhr_num account staff None in
  let formatted_mhr := format_mhr_number mhr_num in
  Ok (set_change_registrations base_reg
        (order_by_registration_ts
           (List.filter (is_change_of formatted_mhr) (mhr_registrations db)))).

End Lookup.

(** ** Owner groups *)

(** *** [create_new_groups] *)

(** The party type of an owner of a new registration. *)
Definition new_owner_party_type (owner_json : OwnerJson) : MhrPartyTypes.t :=
  let party_type := partyType owner_json in
  if negb (bool_decide (is_Some party_type)) && truthy_str (individualName owner_json)
  then MhrPartyTypes.OWNER_IND
  else if bool_decide (party_type = Some MhrPartyTypes.OWNER_BUS)
          && truthy_str (individualName owner_json)
  then MhrPartyTypes.OWNER_IND
  else if bool_decide (party_type = Some MhrPartyTypes.OWNER_IND)
          && truthy_str (organizationName owner_json)
  then MhrPartyTypes.OWNER_BUS
  else default MhrPartyTypes.OWNER_BUS party_type.

Definition new_owner (self_id : Z) (owner_json : OwnerJson) : MhrParty :=
  MhrParty_create_from_json owner_json (new_owner_party_type owner_json) self_id.

(** The loop over [json_data.get("ownerGroups")]; [sequence] is the
    counter before the group at the head is handled. *)
Fixpoint create_new_groups_loop (self_id : Z) (groups : list GroupJson) (sequence : Z)
    : list MhrOwnerGroup :=
  match groups with
  | [] => []
  | group_json :: rest =>
      let sequence := sequence + 1 in
      let group := MhrOwnerGroup_create_from_json group_json self_id in
      let group := set_group_ids group sequence (Some sequence) in
      let group :=
        set_group_owners group
          (group_owners group ++ (new_owner self_id <$> owners group_json)) in
      group :: create_new_groups_loop self_id rest sequence
  end.

(** The common denominator is not computed here: the call of
    [adjust_group_interest(True)] that closes the method in the source
    is commented out. *)
Definition create_new_groups (self : MhrRegistration) (json_data : RegistrationJson)
    : result MhrRegistration :=
  let? groups := iterable (ownerGroups json_data) in
  Ok (set_owner_groups self (create_new_groups_loop (id self) groups 0)).

(** *** [adjust_group_interest] *)

Definition is_active_common (group : MhrOwnerGroup) : bool :=
  bool_decide (group_tenancy_type group = MhrTenancyTypes.COMMON)
  && bool_decide (group_status_type group = MhrOwnerStatusTypes.ACTIVE).

(** First loop: [(tc_count, common_denominator)]. *)
Definition common_denominator_step (acc : Z * Z) (group : MhrOwnerGroup) : Z * Z :=
  let '(tc_count, common_denominator) := acc in
  if is_active_common group then
    (tc_count + 1,
     if common_denominator =? 0 then group_interest_denominator group
     else if common_denominator <? group_interest_denominator group
          then group_interest_denominator group
          else common_denominator)
  else acc.

(** Second loop, one group. *)
Definition adjust_group (new : bool) (common_denominator : Z) (group : MhrOwnerGroup) : MhrOwnerGroup :=
  if new || (group_modified group
             && bool_decide (group_status_type group = MhrOwnerStatusTypes.ACTIVE))
  then
    let num := group_interest_numerator group in
    let den := group_interest_denominator group in
    if py_gt0 num && (0 <? den) then
      if negb (den =? common_denominator) then
        set_group_interest group
          (PFloat (py_fmul (py_truediv common_denominator den) num))
          common_denominator
      else group
    else group
  else group.

Definition adjust_group_interest (self : MhrRegistration) (new : bool) : MhrRegistration :=
  let '(tc_count, common_denominator) :=
    foldl common_denominator_step (0, 0) (owner_groups self) in
  if 0 <? tc_count
  then set_owner_groups self (adjust_group new common_denominator <$> owner_groups self)
  else self.

(** *** [add_new_groups] *)

(** The party type of an owner added by a change registration. *)
Definition added_owner_party_type (owner_json : OwnerJson) : MhrPartyTypes.t :=
  match partyType owner_json with
  | Some party_type => party_type
  | None =>
      if truthy_str (individualName owner_json)
      then MhrPartyTypes.OWNER_IND else MhrPartyTypes.OWNER_BUS
  end.

Definition added_owner (self_id : Z) (owner_json : OwnerJson) : MhrParty :=
  MhrParty_create_from_json owner_json (added_owner_party_type owner_json) self_id.

(** The loop over [json_data.get("addOwnerGroups")]; [next_group_id] is
    the variable [group_id] before the group at the head is handled. *)
Fixpoint add_new_groups_loop (self_id : Z) (groups : list GroupJson) (next_group_id : Z)
    : list MhrOwnerGroup :=
  match groups with
  | [] => []
  | new_json :: rest =>
      let new_group :=
        MhrOwnerGroup_create_from_change_json new_json self_id self_id next_group_id in
      let new_group :=
        if String.eqb (group_interest new_group) ""
           || negb (py_truthy (group_interest_numerator new_group))
           || negb (py_truthy (group_interest_numerator new_group))  (* [== 0] *)
        then set_group_sequence_number new_group (Some 1)
        else set_group_sequence_number new_group (groupId new_json) in
      let new_group :=
        set_group_owners new_group
          (group_owners new_group ++ (added_owner self_id <$> owners new_json)) in
      new_group :: add_new_groups_loop self_id rest (next_group_id + 1)
  end.

Definition add_new_groups (self : MhrRegistration) (json_data : RegistrationJson)
    (existing_count : Z) : MhrRegistration :=
  let group_id := existing_count + 1 in
  if truthy_list (addOwnerGroups json_data)
  then set_owner_groups self
         (add_new_groups_loop (id self) (default [] (addOwnerGroups json_data)) group_id)
  else set_owner_groups self [].

(** *** [remove_group], [remove_groups] and [save_transfer] *)

(** The body of the loop over [existing.owners]. *)
Definition remove_owner (delete_json : GroupJson) (new_reg_id : Z)
    (reg_type : option MhrRegistrationTypes.t) (owner : MhrParty) : MhrParty :=
  let owner := set_party_removed owner new_reg_id in
  if is_transfer_due_to_death reg_type
  then update_deceased (owners delete_json) owner
  else owner.

Definition remove_group (delete_json : GroupJson) (existing : MhrOwnerGroup)
    (new_reg_id : Z) (reg_type : option MhrRegistrationTypes.t) : MhrOwnerGroup :=
  if bool_decide (Some (group_id existing) = groupId delete_json)
  then set_group_removed existing new_reg_id
         (remove_owner delete_json new_reg_id reg_type <$> group_owners existing)
  else existing.

(** One delete instruction applied to the groups of one registration. *)
Definition remove_from (group : GroupJson) (new_reg_id : Z)
    (reg_type : option MhrRegistrationTypes.t) (reg : MhrRegistration) : MhrRegistration :=
  set_owner_groups reg
    ((fun existing => remove_group group existing new_reg_id reg_type) <$> owner_groups reg).

(** The body of the outer loop of [remove_groups]: the groups of the
    base registration, then those of every change registration. *)
Definition remove_groups_step (new_reg_id : Z) (reg_type : option MhrRegistrationTypes.t)
    (self : MhrRegistration) (group : GroupJson) : MhrRegistration :=
  let self := remove_from group new_reg_id reg_type self in
  set_change_registrations self
    (remove_from group new_reg_id reg_type <$> change_registrations self).

Definition remove_groups (self : MhrRegistration) (json_data : RegistrationJson)
    (new_reg_id : Z) : result MhrRegistration :=
  let? groups := iterable (deleteOwnerGroups json_data) in
  Ok (foldl (remove_groups_step new_reg_id (registrationType json_data)) self groups).

(** [save_transfer], up to the commit that writes the change out. *)
Definition save_transfer (self : MhrRegistration) (json_data : RegistrationJson)
    (new_reg_id : Z) : result MhrRegistration :=
  remove_groups self json_data new_reg_id.

(** ** Transition builders *)

Section Builders.
Context `{Collaborators}.

(** The values a builder takes from the store and the clock:
    the generated keys and [model_utils.now_ts()]. *)
Variable reg_vals : GeneratedValues.
Variable now : Z.

(** [doc_id]: the document id of the payload, else the generated one. *)
Definition resolve_doc_id (json_data : RegistrationJson) : string :=
  if truthy_str (documentId json_data)
  then default "" (documentId json_data)
  else gen_doc_id reg_vals.

Definition get_sections (json_data : RegistrationJson) (registration_id : Z) : list MhrSection :=
  match description json_data with
  | Some d =>
      match description_sections d with
      | Some l => (fun section => MhrSection_create_from_json section registration_id) <$> l
      | None => []
      end
  | None => []
  end.

(** [json_data["location"]]. *)
Definition location_item (json_data : RegistrationJson) : result string :=
  match location json_data with
  | Some l => Ok l
  | None => Err (KeyError "location")
  end.

Definition create_new_from_json (json_data : RegistrationJson) (draft : MhrDraft)
    (account user : option string) : result (MhrRegistration * RegistrationJson) :=
  let registration :=
    {| id := gen_id reg_vals;
       registration_ts := now;
       mhr_number := draft_mhr_number draft;
       account_id := account;
       client_reference_id := clientReferenceId json_data;
       pay_invoice_id := None; pay_path := None;
       user_id := user;
       draft_id := draft_pk draft;
       registration_type := MhrRegistrationTypes.MHREG;
       status_type := MhrRegistrationStatusTypes.ACTIVE;
       parties := []; locations := []; documents := []; notes := [];
       owner_groups := []; descriptions := []; sections := [];
       doc_reg_number := gen_doc_reg_number reg_vals;
       doc_pkey := gen_doc_pkey reg_vals;
       doc_id := DocumentId (resolve_doc_id json_data);
       current_view := false; staff := false; report_view := false;
       change_registrations := [] |} in
  let json_data := set_documentId json_data (resolve_doc_id json_data) in
  let? registration := create_new_groups registration json_data in
  let registration :=
    set_parties registration
      (MhrParty_create_from_registration_json json_data (id registration)) in
  let? location_json := location_item json_data in
  let registration :=
    set_locations registration
      [MhrLocation_create_from_json (Some location_json) (id registration)] in
  let? doc_type := reg_to_doc_type (Some (registration_type registration)) in
  let doc := MhrDocument_create_from_json registration doc_type in
  let doc := set_doc_registration_id doc (id registration) in
  let registration := set_documents registration [doc] in
  let registration :=
    set_description registration
      [MhrDescription_create_from_json (description_body <$> description json_data)
         (id registration)]
      (get_sections json_data (id registration)) in
  Ok (registration, json_data).

(** [draft] is the result of [MhrDraft.find_draft(json_data)]. *)
Definition create_change_from_json (draft : option MhrDraft)
    (base_reg : MhrRegistration) (json_data : RegistrationJson)
    (account user : option string) : result (MhrRegistration * RegistrationJson) :=
  match registrationType json_data with
  | None => Err (KeyError "registrationType")
  | Some reg_type =>
      let registration :=
        {| id := gen_id reg_vals;
           registration_ts := now;
           mhr_number := mhr_number base_reg;
           account_id := account;
           client_reference_id := clientReferenceId json_data;
           pay_invoice_id := None; pay_path := None;
           user_id := user;
           draft_id := match draft with
                       | Some d => draft_pk d
                       | None => gen_draft_id reg_vals
                       end;
           registration_type := reg_type;
           status_type := MhrRegistrationStatusTypes.ACTIVE;
           parties := MhrParty_create_from_registration_json json_data (gen_id reg_vals);
           locations := []; documents := []; notes := [];
           owner_groups := []; descriptions := []; sections := [];
           doc_reg_number := gen_doc_reg_number reg_vals;
           doc_pkey := gen_doc_pkey reg_vals;
           doc_id := DocumentId (resolve_doc_id json_data);
           current_view := false; staff := false; report_view := false;
           change_registrations := [] |} in
      let json_data := set_documentId json_data (resolve_doc_id json_data) in
      let? doc_type := reg_to_doc_type (Some reg_type) in
      let doc := MhrDocument_create_from_json registration doc_type in
      let doc :=
        if bool_decide (reg_type = MhrRegistrationTypes.REG_STAFF_ADMIN)
           && bool_decide (is_Some (documentType json_data))
        then set_doc_type doc (default doc_type (documentType json_data))
        else if bool_decide (reg_type = MhrRegistrationTypes.REG_NOTE)
                && bool_decide (is_Some (note json_data))
        then set_doc_type doc (default doc_type (note_documentType <$> note json_data))
        else if bool_decide (reg_type = MhrRegistrationTypes.TRANS)
                && bool_decide (is_Some (transferDocumentType json_data))
        then set_doc_type doc (default doc_type (transferDocumentType json_data))
        else doc in
      let doc := set_doc_registration_id doc (id base_reg) in
      Ok (set_documents registration [doc], json_data)
  end.

Definition create_transfer_from_json (draft : option MhrDraft)
    (base_reg : MhrRegistration) (json_data : RegistrationJson)
    (account user : option string) : result (MhrRegistration * RegistrationJson) :=
  let json_data :=
    match registrationType json_data with
    | Some _ => json_data
    | None => set_registrationType json_data MhrRegistrationTypes.TRANS
    end in
  let? '(registration, json_data) :=
    create_change_from_json draft base_reg json_data account user in
  match owner_groups base_reg with
  | _ :: _ =>
      Ok (add_new_groups registration json_data (get_owner_group_count base_reg), json_data)
  | [] => Ok (registration, json_data)
  end.

(** The guard of the loop that looks for the expiry an amendment
    reuses: the first note of [reg] is ACTIVE, has an expiry date and is
    a permit, extension or amendment note. *)
Definition reusable_expiry (reg : MhrRegistration) : option Z :=
  match notes reg with
  | n :: _ =>
      if bool_decide (note_status_type n = MhrNoteStatusTypes.ACTIVE)
         && bool_decide (is_Some (note_expiry_date n))
         && is_permit_note (note_document_type n)
      then note_expiry_date n else None
  | [] => None
  end.

(** The loop over [base_reg.change_registrations]: every hit assigns
    [note.expiry_date], the last one stays. *)
Definition amendment_expiry (chain : list MhrRegistration) (computed : option Z) : option Z :=
  foldl (fun expiry reg =>
           match reusable_expiry reg with
           | Some e => Some e
           | None => expiry
           end) computed chain.

Definition create_permit_from_json (draft : option MhrDraft)
    (base_reg : MhrRegistration) (json_data : RegistrationJson)
    (account user : option string) : result (MhrRegistration * RegistrationJson) :=
  let json_data := set_registrationType json_data MhrRegistrationTypes.PERMIT in
  let? '(registration, json_data) :=
    create_change_from_json draft base_reg json_data account user in
  match documents registration with
  | [] => Err IndexError
  | doc :: other_docs =>
      let '(json_data, doc, registration) :=
        if amendment json_data then
          (set_registrationType json_data MhrRegistrationTypes.AMENDMENT,
           set_doc_type doc MhrDocumentTypes.AMEND_PERMIT,
           set_registration_type registration MhrRegistrationTypes.AMENDMENT)
        else if extension json_data then
          (json_data,
           set_doc_type doc MhrDocumentTypes.REG_103E,
           set_registration_type registration MhrRegistrationTypes.PERMIT_EXTENSION)
        else (json_data, doc, registration) in
      let registration := set_documents registration (doc :: other_docs) in
      let permit_note :=
        {| note_registration_id := id base_reg;
           note_document_id := doc_pk doc;
           note_document_type := doc_document_type doc;
           note_destroyed := "N";
           note_status_type := MhrNoteStatusTypes.ACTIVE;
           note_remarks := "";
           note_change_registration_id := id registration;
           note_expiry_date := Some (compute_permit_expiry now) |} in
      let permit_note :=
        if amendment json_data
        then set_note_expiry_date permit_note
               (amendment_expiry (change_registrations base_reg)
                  (note_expiry_date permit_note))
        else permit_note in
      let '(registration, permit_note) :=
        if bool_decide (doc_document_type doc = MhrDocumentTypes.REG_103E) then
          (setup_permit_extension_location base_reg registration (newLocation json_data),
           match note json_data with
           | Some n =>
               if bool_decide (account = Some STAFF_ROLE) && truthy_str (remarks n)
               then set_note_remarks permit_note (default "" (remarks n))
               else permit_note
           | None => permit_note
           end)
        else
          (set_locations registration
             (locations registration
              ++ [MhrLocation_create_from_json (newLocation json_data)
                    (id registration)]),
           permit_note) in
      Ok (set_notes registration [permit_note], json_data)
  end.

End Builders.

(** ** Projections *)

(** A JSON value; the members of the type tables are stored as they
    are. *)
#[warnings="-register-all"]
Inductive jvalue :=
| JNull
| JBool (b : bool)
| JInt (z : Z)
| JStr (s : string)
| JRegistrationType (t : MhrRegistrationTypes.t)
| JRegistrationStatus (t : MhrRegistrationStatusTypes.t)
| JDocumentType (t : MhrDocumentTypes.t)
| JList (items : list jvalue)
| JObject (fields : list (string * jvalue)).

(** A Python [dict] with string keys, in insertion order. *)
Abbreviation dict := (list (string * jvalue)).

(** [d.get(key)] and [d.get(key, fallback)]. *)
Fixpoint dict_get (d : dict) (key : string) : option jvalue :=
  match d with
  | [] => None
  | (k, v) :: rest => if String.eqb k key then Some v else dict_get rest key
  end.


(** [d[key] = v]: a key that is present keeps its place. *)
Fixpoint dict_set (d : dict) (key : string) (v : jvalue) : dict :=
  match d with
  | [] => [(key, v)]
  | (k, w) :: rest =>
      if String.eqb k key then (k, v) :: rest else (k, w) :: dict_set rest key v
  end.

Definition jstr_or_empty (s : option string) : jvalue :=
  if truthy_str s then JStr (default "" s) else JStr "".

(** The helpers of [registration_json_utils.py], [utils.py] and
    [registration_utils.py] the projections call, and the [json]
    property of the document.  None of these modules is embedded, so
    nothing is known of what a helper reads: each is a function of the
    clock reading at the time of the call, its first argument, of the
    registration and of the dictionary built so far. *)
Class JsonHelpers := {
  document_json : Z -> MhrDocument -> dict;
  format_ts : Z -> Z -> string;
  get_document_description : Z -> option jvalue -> jvalue;
  STATUS_FROZEN : string;
  set_submitting_json : Z -> MhrRegistration -> dict -> dict;
  set_location_json : Z -> MhrRegistration -> dict -> bool -> dict;
  set_description_json : Z -> MhrRegistration -> dict -> bool -> dict;
  set_group_json : Z -> MhrRegistration -> dict -> bool -> dict;
  get_notes_json : Z -> MhrRegistration -> bool -> bool -> jvalue;
  get_non_staff_notes_json : Z -> MhrRegistration -> bool -> jvalue;
  update_reg_status : Z -> dict -> bool -> dict;
  set_current_misc_json : Z -> MhrRegistration -> dict -> bool -> dict;
  set_payment_json : Z -> MhrRegistration -> dict -> dict;
  (** the [json] property for a registration with a positive id *)
  saved_json : Z -> MhrRegistration -> dict;
}.

Section Projections.
Context `{JsonHelpers}.






End Projections.

(** ** Other methods of the model class *)

(** [is_transfer]. *)
Definition is_transfer (self : MhrRegistration) : bool :=
  one_of (registration_type self)
    [MhrRegistrationTypes.TRANS; MhrRegistrationTypes.TRAND;
     MhrRegistrationTypes.TRANS_ADMIN; MhrRegistrationTypes.TRANS_AFFIDAVIT;
     MhrRegistrationTypes.TRANS_WILL].

Section OriginalLookup.
Context `{Collaborators}.
Variable db : Store.

(** [find_original_by_mhr_number]: the query for the base registration
    is written out with the two base types. *)
Definition find_original_by_mhr_number (mhr_num : string) (account : option string)
    (staff : bool) : result MhrRegistration :=
  let formatted_mhr := format_mhr_number mhr_num in
  let? registration :=
    if negb (String.eqb formatted_mhr "")
    then db_try (one_or_none
                   (List.filter
                      (fun row =>
                         String.eqb (mhr_number row) formatted_mhr
                         && one_of (registration_type row) [REG_TYPE; CONV_TYPE])
                      (mhr_registrations db)))
    else Ok None in
  match registration with
  | None => Err (NotFound formatted_mhr)
  | Some registration =>
      let? _ :=
        if negb staff && truthy_str account
           && bool_decide (account_id registration <> account)
        then
          match MhrExtraRegistration_find_by_mhr_number db formatted_mhr
                  (default "" account) with
          | Some _ => Ok tt
          | None => Err (Unauthorized (default "" account) formatted_mhr)
          end
        else Ok tt in
      Ok (with_doc_id registration)
  end.

End OriginalLookup.

(** * Part IV. Paying and saving ([resources/registration_utils.py]) *)

(** ** Programs over the services

    The functions of the resource layer call the payment service and the
    database session.  A program is a function from the events that
    have happened so far to the events after it and its result; what
    the services answer is given by an interface, so that every
    statement holds for every behaviour of the services. *)

Inductive event :=
| DraftSaved (mhr_num : string)                 (* [draft.save()] *)
| PaymentRequested (as_staff : bool) (trans_type trans_id : string)
| SessionAdd (registration_id : Z)              (* [db.session.add] *)
| SessionCommit                                 (* [db.session.commit] *)
| PaymentCancelled (invoice_id : Z)             (* [payment.cancel_payment] *)
| CcDraftSaved.                                 (* [cc_payment_utils.save_*_cc_draft] is called *)

(** The payment reference, [pay_ref]. *)
Record PayRef := mkPayRef {
  ccPayment : bool;
  invoiceId : option Z;
  receipt : string;
}.

(** The payload of a draft that waits for a credit card payment: the
    request with the keys [setup_cc_draft] adds. *)
Record CcDraftJson := mkCcDraftJson {
  cc_request : RegistrationJson;
  cc_payment : PayRef;
  cc_accountId : option string;
  cc_username : string;
  cc_usergroup : string;
}.

Definition setup_cc_draft (json_data : RegistrationJson) (pay_ref : PayRef)
    (account_id username usergroup : option string) : CcDraftJson :=
  {| cc_request := json_data;
     cc_payment := pay_ref;
     cc_accountId := account_id;
     cc_username := if truthy_str username then default "" username else "";
     cc_usergroup := if truthy_str usergroup then default "" usergroup else "" |}.

Class Services := {
  (** [MhrDraft.create_from_mhreg_json(...)] followed by [draft.save()] *)
  create_draft : result MhrDraft;
  (** [MhrDraft.find_draft(json_data)] *)
  find_draft : option MhrDraft;
  (** the answer of the payment service to a payment request *)
  create_payment : bool -> result PayRef;
  (** [payment.cancel_payment(invoice_id)]: the exception it raises *)
  cancel_payment : Z -> option exn;
  (** the exception the [n]-th commit of the request raises *)
  commit_outcome : nat -> option exn;
  (** [is_reg_staff_account] of [services/authz.py] *)
  is_reg_staff_account : option string -> bool;
  (** [MhrRegistration.is_exre_transfer], which the resource layer calls
      and this version of the model class does not define *)
  is_exre_transfer : MhrRegistration -> RegistrationJson -> bool;
  (** the generated keys and the clock reading of the request *)
  next_values : GeneratedValues;
  clock : Z;
  (** [cc_payment_utils.save_new_cc_draft(request_json, draft)]: the
      exception it raises ([cc_payment_utils.py] is not embedded) *)
  save_new_cc_draft : CcDraftJson -> MhrDraft -> option exn;
  (** [cc_payment_utils.save_change_cc_draft(current_reg, request_json)]:
      the current registration as it leaves it, or the exception it
      raises *)
  save_change_cc_draft : MhrRegistration -> CcDraftJson -> result MhrRegistration;
}.

Definition Prog (A : Type) : Type := list event -> list event * result A.

Definition ret {A} (a : A) : Prog A := fun trace => (trace, Ok a).

Definition bind {A B} (m : Prog A) (k : A -> Prog B) : Prog B :=
  fun trace =>
    match m trace with
    | (trace, Ok a) => k a trace
    | (trace, Err e) => (trace, Err e)
    end.

Definition raise {A} (e : exn) : Prog A := fun trace => (trace, Err e).

Definition lift {A} (r : result A) : Prog A := fun trace => (trace, r).

Definition emit (ev : event) : Prog unit := fun trace => (trace ++ [ev], Ok tt).

(** [try: body except Exception as e: handler(e)]. *)
Definition try_except {A} (body : Prog A) (handler : exn -> Prog A) : Prog A :=
  fun trace =>
    match body trace with
    | (trace, Ok a) => (trace, Ok a)
    | (trace, Err e) => handler e trace
    end.

Declare Scope prog_scope.
Delimit Scope prog_scope with prog.
Notation "x <- m ;; k" := (bind m (fun x => k))
  (at level 100, m at next level, right associativity) : prog_scope.
Notation "m ;; k" := (bind m (fun _ => k))
  (at level 100, right associativity) : prog_scope.

(** ** The name that affirms a registration: [get_affirmby] *)

(** The user token as the function reads it: a claim is a string or
    null. *)
Abbreviation token := (list (string * option string)).

(** [token.get(key, fallback)]: the fallback stands for an absent key
    only; a key that is present with the value null gives [None]. *)
Fixpoint token_get (t : token) (key : string) (fallback : option string) : option string :=
  match t with
  | [] => fallback
  | (k, v) :: rest => if String.eqb k key then v else token_get rest key fallback
  end.

(** [a + b] on operands that are strings or [None]. *)
Definition str_add (a b : option string) : result string :=
  match a, b with
  | Some a, Some b => Ok (a +:+ b)
  | _, _ => Err TypeError
  end.

Definition get_affirmby (t : token) : result string :=
  let firstname := token_get t "given_name" None in
  let firstname :=
    if negb (truthy_str firstname) then token_get t "firstname" (Some "") else firstname in
  let lastname := token_get t "family_name" None in
  let lastname :=
    if negb (truthy_str lastname) then token_get t "lastname" (Some "") else lastname in
  let? first_and_blank := str_add firstname (Some " ") in
  str_add (Some first_and_blank) lastname.

(** ** Paying and saving

    [pay_and_save_registration] and [pay_and_save_transfer]. *)

(** What a pay-and-save function returns: the saved registration, or the
    draft kept while a credit card payment is pending. *)
Inductive saved :=
| Registered (registration : MhrRegistration)
| CcPending.

Section PayAndSave.
Context `{Collaborators} `{Services}.
Local Open Scope prog_scope.

Definition commits_so_far (trace : list event) : nat :=
  length (List.filter (fun ev => match ev with SessionCommit => true | _ => false end) trace).

Definition session_commit : Prog unit :=
  fun trace =>
    match commit_outcome (commits_so_far trace) with
    | None => (trace ++ [SessionCommit], Ok tt)
    | Some e => (trace ++ [SessionCommit], Err e)
    end.

(** [MhrRegistration.save]: the registration goes to the session and
    the session is committed. *)
Definition save (self : MhrRegistration) : Prog unit :=
  emit (SessionAdd (id self)) ;; session_commit.

(** [save_transfer] with its commit. *)
Definition save_transfer_commit (self : MhrRegistration) (json_data : RegistrationJson)
    (new_reg_id : Z) : Prog MhrRegistration :=
  self <- lift (save_transfer self json_data new_reg_id) ;;
  session_commit ;;
  ret self.

(** [pay]: the request goes to the payment service, on the staff route
    for a staff account; the transaction details it sends do not
    matter here. *)
Definition pay (account : option string) (trans_type trans_id : string) : Prog PayRef :=
  let as_staff := is_reg_staff_account account in
  emit (PaymentRequested as_staff trans_type trans_id) ;;
  lift (create_payment as_staff).

(** [payment.cancel_payment(invoice_id)]. *)
Definition cancel (invoice_id : Z) : Prog unit :=
  emit (PaymentCancelled invoice_id) ;;
  match cancel_payment invoice_id with
  | None => ret tt
  | Some e => raise e
  end.

(** [int(invoice_id)]. *)
Definition int (invoice_id : option Z) : result Z :=
  match invoice_id with
  | Some invoice => Ok invoice
  | None => Err TypeError
  end.

(** The [except Exception as db_exception] clause the pay-and-save
    functions share: the payment is refunded when there is an account
    and an invoice, a failure of the refund is logged only if it is an
    [SBCPaymentException], and the error is raised again as a
    [DatabaseException]. *)
Definition refund_and_raise {A} (account : option string) (invoice_id : option Z)
    (db_exception : exn) : Prog A :=
  (if truthy_str account && bool_decide (is_Some invoice_id)
   then try_except (cancel (default 0 invoice_id))
          (fun cancel_exception =>
             match cancel_exception with
             | SBCPaymentException _ => ret tt
             | _ => raise cancel_exception
             end)
   else ret tt) ;;
  raise (DatabaseException db_exception).

(** [token_info] is [g.jwt_oidc_token_info].  The name [get_affirmby]
    returns goes into the payload under [affirmByName], a key no builder
    of the model reads; the call comes first and is outside the [try]. *)
Definition pay_and_save_registration (token_info : token)
    (request_json : RegistrationJson) (account user_group : option string)
    (trans_type : string) : Prog saved :=
  _ <- lift (get_affirmby token_info) ;;
  let request_json := set_registrationType request_json MhrRegistrationTypes.MHREG in
  draft <- lift create_draft ;;
  emit (DraftSaved (draft_mhr_number draft)) ;;
  pay_ref <- pay account trans_type (draft_mhr_number draft) ;;
  if ccPayment pay_ref then
    let cc_json :=
      setup_cc_draft request_json pay_ref account
        (token_get token_info "username" None) user_group in
    emit CcDraftSaved ;;
    match save_new_cc_draft cc_json draft with
    | None => ret CcPending
    | Some e => raise e
    end
  else
    let invoice_id := invoiceId pay_ref in
    try_except
      (built <-
         lift (create_new_from_json next_values clock request_json draft account
                 (token_get token_info "username" None)) ;;
       let registration := fst built in
       invoice <- lift (int invoice_id) ;;
       let registration :=
         set_payment registration (Some invoice) (Some (receipt pay_ref)) in
       save registration ;;
       ret (Registered registration))
      (refund_and_raise account invoice_id).

(** The second component is [current_reg] as the function leaves it. *)
Definition pay_and_save_transfer (token_info : token) (current_reg : MhrRegistration)
    (request_json : RegistrationJson) (account user_group : option string)
    (trans_type : string) : Prog (saved * MhrRegistration) :=
  _ <- lift (get_affirmby token_info) ;;
  let request_json :=
    match registrationType request_json with
    | Some _ => request_json
    | None => set_registrationType request_json MhrRegistrationTypes.TRANS
    end in
  pay_ref <- pay account trans_type (mhr_number current_reg) ;;
  if ccPayment pay_ref then
    let cc_json :=
      setup_cc_draft request_json pay_ref account
        (token_get token_info "username" None) user_group in
    emit CcDraftSaved ;;
    current_reg <- lift (save_change_cc_draft current_reg cc_json) ;;
    ret (CcPending, current_reg)
  else
    let invoice_id := invoiceId pay_ref in
    try_except
      (built <-
         lift (create_transfer_from_json next_values clock find_draft
                 current_reg request_json account
                 (token_get token_info "username" None)) ;;
       let registration := fst built in
       let request_json := snd built in
       invoice <- lift (int invoice_id) ;;
       let registration :=
         set_payment registration (Some invoice) (Some (receipt pay_ref)) in
       save registration ;;
       current_reg <-
         (if (0 <? id current_reg) && bool_decide (owner_groups current_reg <> [])
          then save_transfer_commit current_reg request_json (id registration)
          else if is_exre_transfer current_reg request_json
          then save_transfer_commit current_reg request_json (id registration)
          else ret current_reg) ;;
       ret (Registered registration, current_reg))
      (refund_and_raise account invoice_id).

End PayAndSave.

(** ** Staff payments: [build_staff_payment] *)

(** The value of a query parameter: a string, or a boolean, which the
    function also provides for. *)
Inductive arg :=
| ArgStr (s : string)
| ArgBool (b : bool).

(** [str(value)]. *)
Definition str (v : arg) : string :=
  match v with
  | ArgStr s => s
  | ArgBool true => "True"
  | ArgBool false => "False"
  end.

(** The request, by its query parameters [req.args]. *)
Record Request := mkRequest {
  args : list (string * arg);
}.

(** [req.args.get(key)]. *)
Fixpoint args_get (l : list (string * arg)) (key : string) : option arg :=
  match l with
  | [] => None
  | (k, v) :: rest => if String.eqb k key then Some v else args_get rest key
  end.

(** What [resources/utils.py], which is not embedded, provides: the
    account ids it reads from the request, the names of the query
    parameters, and [str.lower]. *)
Class RequestHelpers := {
  get_staff_account_id : Request -> option string;
  get_account_id : Request -> option string;
  CERTIFIED_PARAM : string;
  ROUTING_SLIP_PARAM : string;
  BCOL_NUMBER_PARAM : string;
  DAT_NUMBER_PARAM : string;
  PRIORITY_PARAM : string;
  lower : string -> string;
}.

Definition jstr_or_null (s : option string) : jvalue :=
  match s with
  | Some s => JStr s
  | None => JNull
  end.

(** [key in d]. *)
Definition dict_has (d : dict) (key : string) : bool :=
  match dict_get d key with
  | Some _ => true
  | None => false
  end.

Section StaffPayment.
Context `{Collaborators} `{RequestHelpers}.

(** The test the function applies to [certified] and [priority]: the
    boolean true, or a string that reads true, 1, y or yes in lower
    case. *)
Definition flag_set (v : option arg) : bool :=
  match v with
  | Some (ArgBool b) => b
  | Some (ArgStr s) => bool_decide (lower s ∈ ["true"; "1"; "y"; "yes"])
  | None => false
  end.

Definition build_staff_payment (req : Request) (trans_type : string) (quantity : Z)
    (transaction_id : option string) : dict :=
  let payment_info :=
    [ ("transactionType", JStr trans_type);
      ("quantity", JInt quantity);
      ("waiveFees", JBool true);
      ("accountId", jstr_or_null (get_staff_account_id req)) ] in
  let payment_info :=
    if truthy_str transaction_id
    then dict_set payment_info "transactionId" (JStr (default "" transaction_id))
    else payment_info in
  let account_id := get_account_id req in
  let payment_info :=
    if truthy_str account_id && negb (bool_decide (account_id = Some STAFF_ROLE))
    then dict_set (dict_set payment_info "waiveFees" (JBool false))
           "accountId" (JStr (default "" account_id))
    else payment_info in
  let certified := args_get (args req) CERTIFIED_PARAM in
  let routing_slip := args_get (args req) ROUTING_SLIP_PARAM in
  let bcol_number := args_get (args req) BCOL_NUMBER_PARAM in
  let dat_number := args_get (args req) DAT_NUMBER_PARAM in
  let priority := args_get (args req) PRIORITY_PARAM in
  let payment_info :=
    if flag_set certified
    then dict_set payment_info CERTIFIED_PARAM (JBool true) else payment_info in
  let payment_info :=
    match routing_slip with
    | Some v => dict_set payment_info ROUTING_SLIP_PARAM (JStr (str v))
    | None => payment_info
    end in
  let payment_info :=
    match bcol_number with
    | Some v => dict_set payment_info BCOL_NUMBER_PARAM (JStr (str v))
    | None => payment_info
    end in
  let payment_info :=
    match dat_number with
    | Some v => dict_set payment_info DAT_NUMBER_PARAM (JStr (str v))
    | None => payment_info
    end in
  let payment_info :=
    if flag_set priority
    then dict_set payment_info PRIORITY_PARAM (JBool true) else payment_info in
  if dict_has payment_info ROUTING_SLIP_PARAM || dict_has payment_info BCOL_NUMBER_PARAM
  then dict_set payment_info "waiveFees" (JBool false)
  else payment_info.

End StaffPayment.

(** * Part V. The vocabulary of the statements *)

(** The expiry that makes the loop of [set_caution] stop at [reg]. *)
Definition expiring_caution (reg : MhrRegistration) : option Z :=
  active_caution_head reg ≫= note_expiry_date.

(** A registration the loop passes without touching [has_caution]. *)
Definition no_caution (reg : MhrRegistration) : Prop :=
  active_caution_head reg = None.

(** The group built from the [k]-th entry of [ownerGroups]: numbered by
    its position, ACTIVE, with the tenancy and the interest of the
    payload. *)
Definition new_group_of (self_id : Z) (k : nat) (group_json : GroupJson) : MhrOwnerGroup :=
  {| group_id := Z.of_nat k + 1;
     group_sequence_number := Some (Z.of_nat k + 1);
     group_registration_id := self_id;
     group_change_registration_id := self_id;
     group_tenancy_type := type group_json;
     group_status_type := MhrOwnerStatusTypes.ACTIVE;
     group_interest := default "" (interest group_json);
     group_interest_numerator := PInt (default 0 (interestNumerator group_json));
     group_interest_denominator := default 0 (interestDenominator group_json);
     group_modified := true;
     group_owners := new_owner self_id <$> owners group_json |}.

(** The net effect of the delete instructions on one owner group: every
    instruction is offered to [remove_group] in payload order. *)
Definition removed_by (deletes : list GroupJson) (new_reg_id : Z)
    (reg_type : option MhrRegistrationTypes.t) (existing : MhrOwnerGroup) : MhrOwnerGroup :=
  foldl (fun existing d => remove_group d existing new_reg_id reg_type) existing deletes.

(** [owner'] is the same party as [owner]: the fields supersession never
    writes are equal. *)
Definition same_person (owner owner' : MhrParty) : Prop :=
  party_individual_name owner' = party_individual_name owner
  /\ party_business_name owner' = party_business_name owner
  /\ party_type owner' = party_type owner
  /\ party_registration_id owner' = party_registration_id owner.

(** [owner'] carries the death metadata the payload owner gives. *)
Definition stamped (owner_json : OwnerJson) (owner' : MhrParty) : Prop :=
  (forall c, deathCertificateNumber owner_json = Some c ->
             party_death_cert_number owner' = Some c)
  /\ (forall t, deathDateTime owner_json = Some t -> party_death_ts owner' = Some t).

(** An owner after the supersession of its group by the delete
    instruction [d]. *)
Definition owner_superseded (new_reg_id : Z) (reg_type : option MhrRegistrationTypes.t)
    (d : GroupJson) (owner owner' : MhrParty) : Prop :=
  same_person owner owner'
  /\ party_status_type owner' = MhrOwnerStatusTypes.PREVIOUS
  /\ party_change_registration_id owner' = new_reg_id
  /\ (is_transfer_due_to_death reg_type = true ->
      forall owner_json,
        List.find (owner_json_matches owner) (owners d) = Some owner_json ->
        stamped owner_json owner').

(** An owner group after its supersession by [d]. *)
Definition superseded (new_reg_id : Z) (reg_type : option MhrRegistrationTypes.t)
    (d : GroupJson) (existing existing' : MhrOwnerGroup) : Prop :=
  group_id existing' = group_id existing
  /\ group_status_type existing' = MhrOwnerStatusTypes.PREVIOUS
  /\ group_change_registration_id existing' = new_reg_id
  /\ Forall2 (owner_superseded new_reg_id reg_type d)
       (group_owners existing) (group_owners existing').

(** Every group numbered [g] of a registration is superseded. *)
Definition groups_superseded (g new_reg_id : Z) (reg_type : option MhrRegistrationTypes.t)
    (d : GroupJson) (reg reg' : MhrRegistration) : Prop :=
  Forall2 (fun existing existing' =>
             group_id existing = g -> superseded new_reg_id reg_type d existing existing')
    (owner_groups reg) (owner_groups reg').

(** What the instructions before [d] leave of a group: the same group
    number and the same owners. *)
Definition stands_for (existing existing1 : MhrOwnerGroup) : Prop :=
  group_id existing1 = group_id existing
  /\ Forall2 same_person (group_owners existing) (group_owners existing1).

(** What a transfer leaves of the aggregate: the registration part of
    [pay_and_save_transfer] ([create_transfer_from_json], then
    [save_transfer] on a base registration that has owner groups),
    followed by the next load of the chain, which has the new
    registration as its latest member. *)
Definition transfer_applied `{Collaborators} (reg_vals : GeneratedValues) (now : Z)
    (base_reg : MhrRegistration) (json_data : RegistrationJson)
    (account user : option string) : result MhrRegistration :=
  let? '(registration, json_data) :=
    create_transfer_from_json reg_vals now None base_reg json_data account user in
  let? base_reg :=
    if (0 <? id base_reg) && bool_decide (owner_groups base_reg <> [])
    then save_transfer base_reg json_data (id registration)
    else Ok base_reg in
  Ok (set_change_registrations base_reg
        (change_registrations base_reg ++ [registration])).


(** Two ways of counting the owner groups on record for the business
    key: all of them, and the ACTIVE ones (the count the specification
    calls the existing active group count). *)
Definition groups_on_record (base_reg : MhrRegistration) : list MhrOwnerGroup :=
  owner_groups base_reg ++ concat (owner_groups <$> change_registrations base_reg).

Definition group_count_on_record (base_reg : MhrRegistration) : Z :=
  Z.of_nat (length (groups_on_record base_reg)).

Definition active_group_count_on_record (base_reg : MhrRegistration) : Z :=
  Z.of_nat (length (List.filter
                      (fun g => bool_decide (group_status_type g = MhrOwnerStatusTypes.ACTIVE))
                      (groups_on_record base_reg))).

(** The base registrations on record for a formatted MHR number. *)
Definition roots_of (db : Store) (formatted_mhr : string) : list MhrRegistration :=
  List.filter (selects formatted_mhr REG_TYPE) (mhr_registrations db).

(** The chain as [find_all_by_mhr_number] attaches it. *)
Definition chain_of (db : Store) (formatted_mhr : string) : list MhrRegistration :=
  order_by_registration_ts
    (List.filter (is_change_of formatted_mhr) (mhr_registrations db)).

(** A registration whose first note is an ACTIVE continued caution
    (CAUC) without expiry date: the branch of [set_caution] that sets
    [has_caution] and goes on. *)
Definition open_caution (reg : MhrRegistration) : bool :=
  match active_caution_head reg with
  | Some n =>
      bool_decide (note_expiry_date n = None)
      && bool_decide (note_document_type n = MhrDocumentTypes.CAUC)
  | None => false
  end.


(** [existing'] is the owner group [existing] up to supersession: the
    same number, registration, tenancy and interest and as many owners;
    its status is the same or PREVIOUS. *)
Definition kept (existing existing' : MhrOwnerGroup) : Prop :=
  group_id existing' = group_id existing
  /\ group_sequence_number existing' = group_sequence_number existing
  /\ group_registration_id existing' = group_registration_id existing
  /\ group_tenancy_type existing' = group_tenancy_type existing
  /\ group_interest existing' = group_interest existing
  /\ group_interest_numerator existing' = group_interest_numerator existing
  /\ group_interest_denominator existing' = group_interest_denominator existing
  /\ length (group_owners existing') = length (group_owners existing)
  /\ (group_status_type existing' = group_status_type existing
      \/ group_status_type existing' = MhrOwnerStatusTypes.PREVIOUS).

(** The first loop of [adjust_group_interest] on its second component:
    the common denominator after the groups [groups], started from
    [common_denominator]. *)
Definition common_denominator_from (common_denominator : Z) (groups : list MhrOwnerGroup) : Z :=
  foldl (fun common_denominator group =>
           if is_active_common group then
             if common_denominator =? 0 then group_interest_denominator group
             else if common_denominator <? group_interest_denominator group
                  then group_interest_denominator group
                  else common_denominator
           else common_denominator)
    common_denominator groups.

(** The groups the second loop of [adjust_group_interest] looks at and
    finds with a positive interest. *)
Definition rescalable (new : bool) (group : MhrOwnerGroup) : bool :=
  (new || (group_modified group
           && bool_decide (group_status_type group = MhrOwnerStatusTypes.ACTIVE)))
  && py_gt0 (group_interest_numerator group)
  && (0 <? group_interest_denominator group).


(** The keys [build_staff_payment] writes. *)
Definition payment_info_keys `{RequestHelpers} : list string :=
  ["transactionType"; "quantity"; "waiveFees"; "accountId"; "transactionId";
   CERTIFIED_PARAM; ROUTING_SLIP_PARAM; BCOL_NUMBER_PARAM; DAT_NUMBER_PARAM;
   PRIORITY_PARAM].

(** The request names an account of its own, which is not the staff
    role. *)
Definition own_account `{Collaborators} `{RequestHelpers} (req : Request) : bool :=
  truthy_str (get_account_id req)
  && negb (bool_decide (get_account_id req = Some STAFF_ROLE)).

(** * Part VI. Scenarios

    The records and payloads the examples, witnesses and counterexamples
    are stated on. *)

Module CautionExample.

Definition caution (expiry : Z) : MhrNote :=
  {| note_registration_id := 1; note_document_id := 0;
     note_document_type := MhrDocumentTypes.CAU; note_destroyed := "N";
     note_status_type := MhrNoteStatusTypes.ACTIVE; note_remarks := "";
     note_change_registration_id := 0; note_expiry_date := Some expiry |}.

Definition registration (reg_id ts : Z) (type : MhrRegistrationTypes.t)
    (ns : list MhrNote) (chain : list MhrRegistration) : MhrRegistration :=
  {| id := reg_id; registration_ts := ts; mhr_number := "000900";
     account_id := Some "PS12345"; client_reference_id := None;
     pay_invoice_id := None; pay_path := None; user_id := None;
     draft_id := 0; registration_type := type;
     status_type := MhrRegistrationStatusTypes.ACTIVE;
     parties := []; locations := []; documents := []; notes := ns;
     owner_groups := []; descriptions := []; sections := [];
     doc_reg_number := ""; doc_pkey := 0; doc_id := DocumentId "";
     current_view := false; staff := false; report_view := false;
     change_registrations := chain |}.

(** Two caution registrations in the order [find_all_by_mhr_number]
    loads them (by [registration_ts]): the first expires at 100, the
    second at 300. *)
Definition earlier : MhrRegistration :=
  registration 2 10 MhrRegistrationTypes.REG_NOTE [caution 100] [].
Definition later : MhrRegistration :=
  registration 3 20 MhrRegistrationTypes.REG_NOTE [caution 300] [].

Definition two_cautions : MhrRegistration :=
  registration 1 0 MhrRegistrationTypes.MHREG [] [earlier; later].
Definition expired_only : MhrRegistration :=
  registration 1 0 MhrRegistrationTypes.MHREG [] [earlier].

(** The earlier caution with the status a closed note has. *)
Definition earlier_closed : MhrRegistration :=
  registration 2 10 MhrRegistrationTypes.REG_NOTE
    [set_note_closed (caution 100) MhrNoteStatusTypes.EXPIRED 0] [].
Definition two_cautions_closed : MhrRegistration :=
  registration 1 0 MhrRegistrationTypes.MHREG [] [earlier_closed; later].

End CautionExample.

Module ExemptionExample.
Import CautionExample.

Definition permit (expiry : Z) : MhrNote :=
  {| note_registration_id := 1; note_document_id := 0;
     note_document_type := MhrDocumentTypes.REG_103; note_destroyed := "N";
     note_status_type := MhrNoteStatusTypes.ACTIVE; note_remarks := "";
     note_change_registration_id := 2; note_expiry_date := Some expiry |}.

Definition permit_reg : MhrRegistration :=
  registration 2 10 MhrRegistrationTypes.PERMIT [permit 500] [].

(** A base registration with an open transport permit and a caution. *)
Definition base : MhrRegistration :=
  registration 1 0 MhrRegistrationTypes.MHREG [] [permit_reg; later].

End ExemptionExample.

Module NewRegistrationExample.

Definition business (name : string) : OwnerJson :=
  {| partyType := Some MhrPartyTypes.OWNER_BUS; individualName := None;
     organizationName := Some name;
     deathCertificateNumber := None; deathDateTime := None |}.

Definition common_group (group_num numerator denominator : Z) (name : string) : GroupJson :=
  {| groupId := Some group_num; owners := [business name];
     type := MhrTenancyTypes.COMMON; interest := Some "UNDIVIDED";
     interestNumerator := Some numerator;
     interestDenominator := Some denominator |}.

Definition groups : list GroupJson :=
  [common_group 1 1 2 "TEST BUS."; common_group 2 5 10 "TEST BUS. 2"].

(** The payload of the scenario: two tenants in common holding 1/2 and
    5/10, one location, one description. *)
Definition payload : RegistrationJson :=
  {| registrationType := Some MhrRegistrationTypes.MHREG;
     documentId := None; documentType := None; transferDocumentType := None;
     clientReferenceId := Some "EX-MH001234";
     submittingParty := Some "BOB PATERSON HOMES INC.";
     ownerGroups := Some groups;
     addOwnerGroups := None; deleteOwnerGroups := None;
     location := Some "GLENDALE TRAILER PARK";
     newLocation := None;
     description := Some {| description_body := "WESTWOOD";
                            description_sections := Some ["section 1"] |};
     note := None; amendment := false; extension := false;
     nonResidential := false |}.

Definition generated (new_id : Z) : GeneratedValues :=
  {| gen_id := new_id; gen_doc_reg_number := "00500001";
     gen_doc_pkey := new_id; gen_doc_id := "80048756";
     gen_draft_number := "100001"; gen_draft_id := new_id |}.

Definition draft : MhrDraft := {| draft_pk := 11; draft_mhr_number := "000900" |}.

End NewRegistrationExample.

Module InterestExample.

Definition common (group_num numerator denominator : Z) : MhrOwnerGroup :=
  {| group_id := group_num; group_sequence_number := Some group_num;
     group_registration_id := 1; group_change_registration_id := 1;
     group_tenancy_type := MhrTenancyTypes.COMMON;
     group_status_type := MhrOwnerStatusTypes.ACTIVE;
     group_interest := "UNDIVIDED";
     group_interest_numerator := PInt numerator;
     group_interest_denominator := denominator;
     group_modified := true; group_owners := [] |}.

Definition with_groups (groups : list MhrOwnerGroup) : MhrRegistration :=
  set_owner_groups
    (CautionExample.registration 1 0 MhrRegistrationTypes.MHREG [] []) groups.

(** Two tenants in common holding 1/2 and 1/3. *)
Definition half_and_third : MhrRegistration := with_groups [common 1 1 2; common 2 1 3].

(** Two tenants in common holding 1/2 and 5/10. *)
Definition half_and_five_tenths : MhrRegistration :=
  with_groups [common 1 1 2; common 2 5 10].

(** The binary64 value 1.5: [3 * 2^51 * 2^-52]. *)
Definition one_and_a_half : float64 := S754_finite false 6755399441055744 (-52).

End InterestExample.

Module PermitExample.
Import CautionExample ExemptionExample.

(** Thirty days, in microseconds. *)
Definition thirty_days : Z := 30 * 24 * 3600 * 1000000.

(** Collaborators for the scenarios; the owner group count is the
    number of groups on record. *)
Definition collaborators : Collaborators :=
  {| STAFF_ROLE := "staff";
     compute_permit_expiry := fun now => now + thirty_days;
     setup_permit_extension_location := fun _ registration _ => registration;
     format_mhr_number := fun mhr_number => mhr_number;
     get_owner_group_count := group_count_on_record |}.

(** A chain with a transport permit that expires at 500 and a later
    caution. *)
Definition base : MhrRegistration := ExemptionExample.base.

Definition amendment_payload : RegistrationJson :=
  {| registrationType := None;
     documentId := None; documentType := None; transferDocumentType := None;
     clientReferenceId := Some "EX-TP001234";
     submittingParty := Some "BOB PATERSON HOMES INC.";
     ownerGroups := None; addOwnerGroups := None; deleteOwnerGroups := None;
     location := None;
     newLocation := Some "1117 GLENDALE AVENUE";
     description := None; note := None;
     amendment := true; extension := false; nonResidential := false |}.

End PermitExample.

Module TransferExample.
Import NewRegistrationExample.

Definition person (name : string) (certificate : option string) (died : option Z) : OwnerJson :=
  {| partyType := None; individualName := Some name; organizationName := None;
     deathCertificateNumber := certificate; deathDateTime := died |}.

Definition sole_group (group_num : Z) (owner : OwnerJson) : GroupJson :=
  {| groupId := Some group_num; owners := [owner];
     type := MhrTenancyTypes.SOLE; interest := None;
     interestNumerator := None; interestDenominator := None |}.

Definition new_payload : RegistrationJson :=
  {| registrationType := Some MhrRegistrationTypes.MHREG;
     documentId := None; documentType := None; transferDocumentType := None;
     clientReferenceId := None;
     submittingParty := Some "BOB PATERSON HOMES INC.";
     ownerGroups := Some [sole_group 1 (person "JANE SMITH" None None)];
     addOwnerGroups := None; deleteOwnerGroups := None;
     location := Some "GLENDALE TRAILER PARK"; newLocation := None;
     description := None; note := None;
     amendment := false; extension := false; nonResidential := false |}.

Definition transfer_payload (reg_type : option MhrRegistrationTypes.t)
    (delete add : GroupJson) : RegistrationJson :=
  {| registrationType := reg_type;
     documentId := None; documentType := None; transferDocumentType := None;
     clientReferenceId := None;
     submittingParty := Some "BOB PATERSON HOMES INC.";
     ownerGroups := None;
     addOwnerGroups := Some [add]; deleteOwnerGroups := Some [delete];
     location := None; newLocation := None;
     description := None; note := None;
     amendment := false; extension := false; nonResidential := false |}.

Definition account : option string := Some "PS12345".
Definition user : option string := Some "userid".

Definition get (built : result MhrRegistration) : MhrRegistration :=
  match built with
  | Ok registration => registration
  | Err _ => CautionExample.registration 0 0 MhrRegistrationTypes.MHREG [] []
  end.

(** The base registration: one sole owner, group 1. *)
Definition base : MhrRegistration :=
  get (let? '(registration, _) :=
         create_new_from_json (generated 1) 0 new_payload draft account user in
       Ok registration).

(** JANE SMITH has died; her home goes to JAMES SMITH. *)
Definition delete_jane : GroupJson :=
  sole_group 1 (person "JANE SMITH" (Some "C-0001") (Some 5)).
Definition first_transfer : RegistrationJson :=
  transfer_payload (Some MhrRegistrationTypes.TRAND)
    delete_jane (sole_group 2 (person "JAMES SMITH" None None)).

(** JAMES SMITH sells to JOHN CONNOLLY. *)
Definition second_transfer : RegistrationJson :=
  transfer_payload None
    (sole_group 2 (person "JAMES SMITH" None None))
    (sole_group 3 (person "JOHN CONNOLLY" None None)).

(** The same collaborators, the owner group count being the number of
    ACTIVE groups on record. *)
Definition counting_active_groups : Collaborators :=
  {| STAFF_ROLE := STAFF_ROLE (Collaborators := PermitExample.collaborators);
     compute_permit_expiry := compute_permit_expiry (Collaborators := PermitExample.collaborators);
     setup_permit_extension_location :=
       setup_permit_extension_location (Collaborators := PermitExample.collaborators);
     format_mhr_number := format_mhr_number (Collaborators := PermitExample.collaborators);
     get_owner_group_count := active_group_count_on_record |}.

Definition after_first : MhrRegistration :=
  get (@transfer_applied PermitExample.collaborators
         (generated 2) 10 base first_transfer account user).

Definition after_second : MhrRegistration :=
  get (@transfer_applied PermitExample.collaborators
         (generated 3) 20 after_first second_transfer account user).


End TransferExample.

Module LookupExample.
Import CautionExample.

Definition reg_101 : MhrDocument :=
  {| doc_pk := 41; doc_document_id := "80048756";
     doc_document_type := MhrDocumentTypes.REG_101;
     doc_document_registration_number := "00500001";
     doc_registration_id := 1 |}.

(** The base registration of MHR number 000900, of account PS12345. *)
Definition root : MhrRegistration :=
  set_documents (registration 1 0 MhrRegistrationTypes.MHREG [] []) [reg_101].

(** The rows on record: the later caution was entered first. *)
Definition store : Store :=
  {| mhr_registrations := [later; root; earlier];
     extra_registrations := [("000900", "PS99999")] |}.

End LookupExample.

Module PaymentExample.
Import NewRegistrationExample.

Definition pay_ref : PayRef :=
  {| ccPayment := false; invoiceId := Some 9001;
     receipt := "/api/v1/payment-requests/9001/receipts" |}.

(** Services that take the payment and then answer the commit with
    [commit]. *)
Definition services (commit : option exn) : Services :=
  {| create_draft := Ok draft;
     find_draft := None;
     create_payment := fun _ => Ok pay_ref;
     cancel_payment := fun _ => None;
     commit_outcome := fun _ => commit;
     is_reg_staff_account := fun _ => false;
     is_exre_transfer := fun _ _ => false;
     next_values := generated 1;
     clock := 0;
     save_new_cc_draft := fun _ _ => None;
     save_change_cc_draft := fun current_reg _ => Ok current_reg |}.

Definition connection_lost : exn := StoreFailure "connection lost".

(** The token of the user who files the registration. *)
Definition user_token : token :=
  [("username", Some "test-user"); ("given_name", Some "Jane");
   ("family_name", Some "Smith")].

(** The registration [create_new_from_json] builds from the payload of
    the new-registration scenario. *)
Definition built : MhrRegistration * RegistrationJson :=
  match create_new_from_json (generated 1) 0
          (set_registrationType payload MhrRegistrationTypes.MHREG)
          draft (Some "PS12345") (Some "test-user") with
  | Ok built => built
  | Err _ => (CautionExample.registration 0 0 MhrRegistrationTypes.MHREG [] [], payload)
  end.

End PaymentExample.

Module ProjectionExample.

Definition group_json (g : MhrOwnerGroup) : jvalue :=
  JObject [("groupId", JInt (group_id g));
           ("owners", JList ((fun o => JStr (default "" (party_business_name o)
                                               +:+ default "" (party_individual_name o)))
                               <$> group_owners g))].

Definition note_json (with_remarks : bool) (n : MhrNote) : jvalue :=
  JObject ([("documentType", JDocumentType (note_document_type n))]
           ++ (if with_remarks then [("remarks", JStr (note_remarks n))] else [])).

Definition is_active_group (g : MhrOwnerGroup) : bool :=
  bool_decide (group_status_type g = MhrOwnerStatusTypes.ACTIVE).

(** Modelled from the spec: the helpers of the projection engine.  The
    own view gives the submitting party, location, description and owner
    groups of the registration itself; the current view folds the chain:
    the most recent change registration that carries a location or a
    description replaces the earlier one, the owner groups are the
    ACTIVE groups of the base registration and of the chain, and the
    notes are those of the chain, with remarks for staff only.  The
    payment reference is attached when the registration has one.  None
    of them reads the clock. *)
Definition helpers : JsonHelpers :=
  {| document_json := fun _ doc =>
       [("documentType", JDocumentType (doc_document_type doc));
        ("documentId", JStr (doc_document_id doc));
        ("documentRegistrationNumber", JStr (doc_document_registration_number doc))];
     format_ts := fun _ ts => if 0 <=? ts then "AD" else "BC";
     get_document_description := fun _ doc_type => default JNull doc_type;
     STATUS_FROZEN := "FROZEN";
     set_submitting_json := fun _ self reg_json =>
       dict_set reg_json "submittingParty"
         (JList ((fun p => JStr (default "" (party_business_name p)))
                   <$> List.filter (fun p => bool_decide (party_type p = MhrPartyTypes.SUBMITTING))
                         (parties self)));
     set_location_json := fun _ self reg_json current =>
       dict_set reg_json "location"
         (JList ((fun l => jstr_or_empty (location_json l))
                   <$> (if current
                        then default (locations self)
                               (last (List.filter (fun ls => negb (bool_decide (ls = [])))
                                        (locations <$> change_registrations self)))
                        else locations self)));
     set_description_json := fun _ self reg_json current =>
       dict_set reg_json "description"
         (JList ((fun d => jstr_or_empty (description_json d))
                   <$> (if current
                        then default (descriptions self)
                               (last (List.filter (fun ds => negb (bool_decide (ds = [])))
                                        (descriptions <$> change_registrations self)))
                        else descriptions self)));
     set_group_json := fun _ self reg_json current =>
       dict_set reg_json "ownerGroups"
         (JList (group_json
                   <$> (if current
                        then List.filter is_active_group
                               (owner_groups self
                                ++ concat (owner_groups <$> change_registrations self))
                        else owner_groups self)));
     get_notes_json := fun _ self _ staff =>
       JList (note_json staff <$> concat (notes <$> change_registrations self));
     get_non_staff_notes_json := fun _ self _ =>
       JList (note_json false <$> concat (notes <$> change_registrations self));
     update_reg_status := fun _ reg_json _ => reg_json;
     set_current_misc_json := fun _ self reg_json _ => reg_json;
     set_payment_json := fun _ self reg_json =>
       match pay_invoice_id self with
       | Some invoice => dict_set reg_json "payment" (JInt invoice)
       | None => reg_json
       end;
     saved_json := fun _ _ => [] |}.


End ProjectionExample.

Module ContinuedCautionExample.
Import CautionExample.

(** A continued caution: ACTIVE, with no expiry date. *)
Definition continued : MhrNote :=
  {| note_registration_id := 1; note_document_id := 0;
     note_document_type := MhrDocumentTypes.CAUC; note_destroyed := "N";
     note_status_type := MhrNoteStatusTypes.ACTIVE; note_remarks := "";
     note_change_registration_id := 0; note_expiry_date := None |}.

Definition continued_reg : MhrRegistration :=
  registration 4 30 MhrRegistrationTypes.REG_NOTE [continued] [].

(** A base registration with a closed caution and a continued one. *)
Definition base : MhrRegistration :=
  registration 1 0 MhrRegistrationTypes.MHREG [] [earlier_closed; continued_reg].

End ContinuedCautionExample.

Module AmbiguousExample.
Import CautionExample.

(** The rows of a store that holds two base registrations for MHR
    number 000900: a registration and a converted one. *)
Definition converted : MhrRegistration :=
  registration 9 5 MhrRegistrationTypes.MHREG_CONVERSION [] [].

Definition store : Store :=
  {| mhr_registrations := [LookupExample.root; converted];
     extra_registrations := [] |}.

End AmbiguousExample.

Module PayAndSaveExample.
Import NewRegistrationExample.

(** Services that answer a payment request with [pay_ref], a refund
    with [refund] and the [n]-th commit with [commits n]. *)
Definition services (pay_ref : PayRef) (refund : option exn)
    (commits : nat -> option exn) (values : GeneratedValues) (now : Z) : Services :=
  {| create_draft := Ok draft;
     find_draft := None;
     create_payment := fun _ => Ok pay_ref;
     cancel_payment := fun _ => refund;
     commit_outcome := commits;
     is_reg_staff_account := fun _ => false;
     is_exre_transfer := fun _ _ => false;
     next_values := values;
     clock := now;
     save_new_cc_draft := fun _ _ => None;
     save_change_cc_draft := fun current_reg _ => Ok current_reg |}.

(** The token of the user who files the transfer. *)
Definition user_token : token :=
  [("username", Some "userid"); ("firstname", Some "James");
   ("lastname", Some "Smith")].

(** The first commit goes through, the second one fails. *)
Definition second_commit_fails (n : nat) : option exn :=
  match n with
  | 1%nat => Some PaymentExample.connection_lost
  | _ => None
  end.

(** The payment reference of a credit card payment. *)
Definition card_ref : PayRef :=
  {| ccPayment := true; invoiceId := Some 9002;
     receipt := "/api/v1/payment-requests/9002/receipts" |}.

(** A transfer payload that adds a group and names none to delete. *)
Definition add_only : RegistrationJson :=
  {| registrationType := None;
     documentId := None; documentType := None; transferDocumentType := None;
     clientReferenceId := None;
     submittingParty := Some "BOB PATERSON HOMES INC.";
     ownerGroups := None;
     addOwnerGroups :=
       Some [TransferExample.sole_group 2 (TransferExample.person "JAMES SMITH" None None)];
     deleteOwnerGroups := None;
     location := None; newLocation := None;
     description := None; note := None;
     amendment := false; extension := false; nonResidential := false |}.

(** What [create_transfer_from_json] builds from a payload for the base
    registration of the transfer scenario. *)
Definition built (json_data : RegistrationJson) : MhrRegistration * RegistrationJson :=
  match @create_transfer_from_json PermitExample.collaborators
          (generated 2) 10 None TransferExample.base
          (match registrationType json_data with
           | Some _ => json_data
           | None => set_registrationType json_data MhrRegistrationTypes.TRANS
           end) TransferExample.account TransferExample.user with
  | Ok built => built
  | Err _ => (TransferExample.base, json_data)
  end.

End PayAndSaveExample.

Module StaffPaymentExample.

(** The parameter names of [resources/utils.py]; the values in the
    examples are in lower case already. *)
Definition helpers (staff_account account : option string) : RequestHelpers :=
  {| get_staff_account_id := fun _ => staff_account;
     get_account_id := fun _ => account;
     CERTIFIED_PARAM := "certified";
     ROUTING_SLIP_PARAM := "routingSlipNumber";
     BCOL_NUMBER_PARAM := "bcolAccountNumber";
     DAT_NUMBER_PARAM := "datNumber";
     PRIORITY_PARAM := "priority";
     lower := fun s => s |}.

(** A staff request paid with a routing slip. *)
Definition with_routing_slip : Request :=
  {| args := [("routingSlipNumber", ArgStr "123456789"); ("certified", ArgStr "true")] |}.

End StaffPaymentExample.

Module TokenExample.

(** A token with the names under both pairs of claims, [firstname]
    being null. *)
Definition both : token :=
  [("given_name", Some "Jane"); ("firstname", None);
   ("family_name", Some "Smith"); ("lastname", Some "Jones")].

(** A token whose only name claim is a null [lastname]. *)
Definition null_lastname : token := [("username", Some "jsmith"); ("lastname", None)].

End TokenExample.

Module UnitNoteExample.

(** The payload of a continued caution as [create_note_from_json] hands
    it to [create_change_from_json]. *)
Definition payload : RegistrationJson :=
  {| registrationType := Some MhrRegistrationTypes.REG_NOTE;
     documentId := Some "80048709"; documentType := None; transferDocumentType := None;
     clientReferenceId := Some "EX-TP001234";
     submittingParty := Some "BOB PATERSON HOMES INC.";
     ownerGroups := None; addOwnerGroups := None; deleteOwnerGroups := None;
     location := None; newLocation := None;
     description := None;
     note := Some {| note_documentType := MhrDocumentTypes.CAUC;
                     remarks := Some "CONTINUED" |};
     amendment := false; extension := false; nonResidential := false |}.

End UnitNoteExample.

Module NullInvoiceExample.

(** A payment reference whose invoice id is null. *)
Definition pay_ref : PayRef :=
  {| ccPayment := false; invoiceId := None;
     receipt := "/api/v1/payment-requests/receipts" |}.

End NullInvoiceExample.

(** * Part VII. Properties *)

(** ** Attribute assignment *)



Lemma change_registrations_set_change_registrations r v :
  change_registrations (set_change_registrations r v) = v.
Proof. by destruct r. Qed.


Lemma notes_set_notes r v : notes (set_notes r v) = v.
Proof. by destruct r. Qed.

Lemma id_set_notes r v : id (set_notes r v) = id r.
Proof. by destruct r. Qed.

Lemma owner_groups_set_owner_groups r v : owner_groups (set_owner_groups r v) = v.
Proof. by destruct r. Qed.

Lemma id_set_owner_groups r v : id (set_owner_groups r v) = id r.
Proof. by destruct r. Qed.

Lemma set_owner_groups_twice r v w :
  set_owner_groups (set_owner_groups r v) w = set_owner_groups r w.
Proof. by destruct r. Qed.

Lemma set_owner_groups_same r : set_owner_groups r (owner_groups r) = r.
Proof. by destruct r. Qed.

Lemma owner_groups_set_change_registrations r v :
  owner_groups (set_change_registrations r v) = owner_groups r.
Proof. by destruct r. Qed.

Lemma change_registrations_set_owner_groups r v :
  change_registrations (set_owner_groups r v) = change_registrations r.
Proof. by destruct r. Qed.

(** ** Active cautions: [set_caution] *)

Lemma set_caution_loop_skip pre rest now b :
  Forall no_caution pre ->
  set_caution_loop (pre ++ rest) now b = set_caution_loop rest now b.
Proof.
  induction 1 as [|reg pre Hreg _ IH]; [done|].
  simpl. rewrite Hreg. exact IH.
Qed.

Lemma set_caution_loop_break reg expiry rest now b :
  expiring_caution reg = Some expiry ->
  set_caution_loop (reg :: rest) now b = bool_decide (now < expiry).
Proof.
  unfold expiring_caution. simpl.
  destruct (active_caution_head reg) as [n|]; [|discriminate].
  simpl. intros ->. reflexivity.
Qed.

(** The first registration in list order whose first note is an ACTIVE
    caution with an expiry date decides alone: nothing after it is
    looked at. *)
Lemma set_caution_first_expiring_decides pre reg expiry rest now b :
  Forall no_caution pre ->
  expiring_caution reg = Some expiry ->
  set_caution_loop (pre ++ reg :: rest) now b = bool_decide (now < expiry).
Proof.
  intros Hpre Hreg. rewrite set_caution_loop_skip by done.
  by apply set_caution_loop_break.
Qed.

Lemma expiring_caution_head reg n others expiry :
  notes reg = n :: others ->
  note_document_type n ∈
    [MhrDocumentTypes.CAU; MhrDocumentTypes.CAUC; MhrDocumentTypes.CAUE] ->
  note_status_type n = MhrNoteStatusTypes.ACTIVE ->
  note_expiry_date n = Some expiry ->
  expiring_caution reg = Some expiry.
Proof.
  intros Hnotes Htype Hactive Hexpiry.
  unfold expiring_caution, active_caution_head, is_caution, one_of.
  rewrite Hnotes, (bool_decide_eq_true_2 _ Htype), (bool_decide_eq_true_2 _ Hactive).
  exact Hexpiry.
Qed.

(** C1, where the code departs from it. When the first caution the loop
    meets in chain order is ACTIVE and carries an expiry date that has
    passed, the check answers false whatever follows on the chain: a
    later ACTIVE caution that has not expired is never looked at. *)
Theorem set_caution_expired_masks_later
    (self : MhrRegistration) (pre rest : list MhrRegistration)
    (earlier : MhrRegistration) (n : MhrNote) (others : list MhrNote)
    (expiry now : Z) :
  change_registrations self = pre ++ earlier :: rest ->
  Forall no_caution pre ->
  notes earlier = n :: others ->
  note_document_type n ∈
    [MhrDocumentTypes.CAU; MhrDocumentTypes.CAUC; MhrDocumentTypes.CAUE] ->
  note_status_type n = MhrNoteStatusTypes.ACTIVE ->
  note_expiry_date n = Some expiry ->
  expiry <= now ->
  set_caution self now = false.
Proof.
  intros Hchain Hpre Hnotes Htype Hactive Hexpiry Hpassed.
  unfold set_caution. rewrite Hchain.
  rewrite (set_caution_first_expiring_decides _ _ expiry)
    by (done || by eapply expiring_caution_head).
  apply bool_decide_eq_false. lia.
Qed.

(** When the earlier, expired caution is no longer ACTIVE (its status is
    EXPIRED or CANCELLED) the later one is reached and decides. *)
Lemma set_caution_later_unexpired self pre reg expiry rest now :
  change_registrations self = pre ++ reg :: rest ->
  Forall no_caution pre ->
  expiring_caution reg = Some expiry ->
  now < expiry ->
  set_caution self now = true.
Proof.
  intros Hchain Hpre Hreg Hexp. unfold set_caution. rewrite Hchain.
  rewrite (set_caution_first_expiring_decides _ _ expiry) by done.
  by apply bool_decide_eq_true.
Qed.

(** C1 (the half that holds). With only the expired caution on the chain
    the check answers false. *)
Example set_caution_expired_only :
  set_caution CautionExample.expired_only 200 = false.
Proof. reflexivity. Qed.

(** The chain with both cautions at time 200: the later caution is
    ACTIVE and runs until 300, and the check answers false. *)
Lemma set_caution_expired_masks_later_witness :
  (note_status_type <$> notes CautionExample.later = [MhrNoteStatusTypes.ACTIVE]
   /\ expiring_caution CautionExample.later = Some 300
   /\ 200 < 300)
  /\ set_caution CautionExample.two_cautions 200 = false.
Proof.
  split; [repeat split; lia|].
  apply (set_caution_expired_masks_later CautionExample.two_cautions
           [] [CautionExample.later] CautionExample.earlier
           (CautionExample.caution 100) [] 100 200).
  - reflexivity.
  - constructor.
  - reflexivity.
  - apply (bool_decide_unpack _); reflexivity.
  - reflexivity.
  - reflexivity.
  - lia.
Defined.

(** The same chain once the earlier caution carries the status EXPIRED:
    the later caution is reached. *)
Example set_caution_closed_then_later :
  set_caution CautionExample.two_cautions_closed 200 = true.
Proof. reflexivity. Qed.

(** ** Exemption: [save_exemption] *)



(** A registration without an ACTIVE permit note in front is left as it
    is. *)
Lemma close_permit_note_other new_reg_id reg :
  (forall note others, notes reg = note :: others ->
     is_permit_note (note_document_type note) = false
     \/ note_status_type note <> MhrNoteStatusTypes.ACTIVE) ->
  close_permit_note new_reg_id reg = reg.
Proof.
  intros H. unfold close_permit_note.
  destruct (notes reg) as [|note others] eqn:E; [done|].
  destruct (H note others eq_refl) as [-> | Hst]; [done|].
  rewrite bool_decide_eq_false_2 by done. by rewrite andb_false_r.
Qed.



(** The caution that follows the permit on that chain is not touched. *)
Example save_exemption_keeps_caution :
  change_registrations (save_exemption ExemptionExample.base 7) !! 1%nat
  = Some CautionExample.later.
Proof. reflexivity. Qed.

(** ** New registrations: owner groups and interests *)

Lemma create_new_groups_loop_lookup self_id groups sequence k group_json :
  groups !! k = Some group_json ->
  create_new_groups_loop self_id groups sequence !! k
  = Some (set_group_ids (new_group_of self_id k group_json)
            (sequence + Z.of_nat k + 1) (Some (sequence + Z.of_nat k + 1))).
Proof.
  revert sequence k.
  induction groups as [|g rest IH]; intros sequence k Hk; [done|].
  destruct k as [|k].
  - injection Hk as ->. unfold new_group_of. simpl.
    f_equal. f_equal; [|f_equal]; lia.
  - simpl in Hk. simpl create_new_groups_loop. rewrite lookup_cons_ne_0 by done.
    simpl Init.Nat.pred. rewrite (IH _ _ Hk). unfold new_group_of. cbn [set_group_ids].
    f_equal. f_equal; [|f_equal]; lia.
Qed.

Lemma create_new_groups_loop_length self_id groups sequence :
  length (create_new_groups_loop self_id groups sequence) = length groups.
Proof.
  revert sequence. induction groups as [|g rest IH]; intros sequence; [done|].
  simpl. by rewrite IH.
Qed.

(** [create_new_groups] numbers the groups of the payload 1..N and keeps
    each interest as the payload states it. *)
Lemma create_new_groups_spec self json_data groups :
  ownerGroups json_data = Some groups ->
  exists self',
    create_new_groups self json_data = Ok self'
    /\ self' = set_owner_groups self (create_new_groups_loop (id self) groups 0)
    /\ length (owner_groups self') = length groups
    /\ forall k group_json,
         groups !! k = Some group_json ->
         owner_groups self' !! k = Some (new_group_of (id self) k group_json).
Proof.
  intros Hgroups. eexists. unfold create_new_groups. rewrite Hgroups. simpl.
  split; [reflexivity|]. split; [reflexivity|].
  rewrite owner_groups_set_owner_groups. split.
  - apply create_new_groups_loop_length.
  - intros k group_json Hk.
    rewrite (create_new_groups_loop_lookup _ _ _ _ _ Hk).
    unfold new_group_of. simpl. done.
Qed.

(** C3, as the code has it. A payload with owner groups and a location
    yields an ACTIVE registration of type MHREG with one document of the
    new-registration type REG_101 and one ACTIVE owner group per group
    of the payload, numbered from 1 in payload order, each with the
    interest numerator and denominator the payload gives: nothing is
    rescaled to a common denominator. *)
Theorem create_new_from_json_groups
    (reg_vals : GeneratedValues) (now : Z) (json_data : RegistrationJson)
    (draft : MhrDraft) (account user : option string)
    (groups : list GroupJson) (location_json : string) :
  ownerGroups json_data = Some groups ->
  location json_data = Some location_json ->
  exists registration json_data',
    create_new_from_json reg_vals now json_data draft account user
      = Ok (registration, json_data')
    /\ status_type registration = MhrRegistrationStatusTypes.ACTIVE
    /\ registration_type registration = MhrRegistrationTypes.MHREG
    /\ doc_document_type <$> documents registration = [MhrDocumentTypes.REG_101]
    /\ length (locations registration) = 1%nat
    /\ length (descriptions registration) = 1%nat
    /\ length (owner_groups registration) = length groups
    /\ forall k group_json,
         groups !! k = Some group_json ->
         exists group,
           owner_groups registration !! k = Some group
           /\ group_id group = Z.of_nat k + 1
           /\ group_status_type group = MhrOwnerStatusTypes.ACTIVE
           /\ group_tenancy_type group = type group_json
           /\ group_interest_numerator group
              = PInt (default 0 (interestNumerator group_json))
           /\ group_interest_denominator group
              = default 0 (interestDenominator group_json).
Proof.
  intros Hgroups Hlocation.
  unfold create_new_from_json, create_new_groups, location_item.
  assert (Hg : ownerGroups (set_documentId json_data (resolve_doc_id reg_vals json_data))
               = Some groups) by (by destruct json_data).
  assert (Hl : location (set_documentId json_data (resolve_doc_id reg_vals json_data))
               = Some location_json) by (by destruct json_data).
  simpl. rewrite Hg, Hl. simpl.
  do 2 eexists. split; [reflexivity|]. simpl.
  repeat split; try reflexivity.
  - apply create_new_groups_loop_length.
  - intros k group_json Hk. eexists. split.
    + apply create_new_groups_loop_lookup, Hk.
    + simpl. repeat split; lia.
Qed.

Lemma create_new_from_json_groups_witness :
  let json_data := NewRegistrationExample.payload in
  exists registration json_data',
    create_new_from_json (NewRegistrationExample.generated 1) 0 json_data
      NewRegistrationExample.draft (Some "PS12345") (Some "test-user")
      = Ok (registration, json_data')
    /\ status_type registration = MhrRegistrationStatusTypes.ACTIVE
    /\ registration_type registration = MhrRegistrationTypes.MHREG
    /\ doc_document_type <$> documents registration = [MhrDocumentTypes.REG_101]
    /\ length (locations registration) = 1%nat
    /\ length (descriptions registration) = 1%nat
    /\ length (owner_groups registration) = length NewRegistrationExample.groups
    /\ forall k group_json,
         NewRegistrationExample.groups !! k = Some group_json ->
         exists group,
           owner_groups registration !! k = Some group
           /\ group_id group = Z.of_nat k + 1
           /\ group_status_type group = MhrOwnerStatusTypes.ACTIVE
           /\ group_tenancy_type group = type group_json
           /\ group_interest_numerator group
              = PInt (default 0 (interestNumerator group_json))
           /\ group_interest_denominator group
              = default 0 (interestDenominator group_json).
Proof.
  apply (create_new_from_json_groups (NewRegistrationExample.generated 1) 0
           NewRegistrationExample.payload NewRegistrationExample.draft
           (Some "PS12345") (Some "test-user")
           NewRegistrationExample.groups "GLENDALE TRAILER PARK");
    reflexivity.
Defined.

(** The interests the scenario ends with: 1/2 and 5/10, as filed. *)
Example create_new_from_json_interests :
  exists registration json_data',
    create_new_from_json (NewRegistrationExample.generated 1) 0
      NewRegistrationExample.payload NewRegistrationExample.draft
      (Some "PS12345") (Some "test-user") = Ok (registration, json_data')
    /\ (fun g => (group_interest_numerator g, group_interest_denominator g))
         <$> owner_groups registration
       = [(PInt 1, 2); (PInt 5, 10)].
Proof. do 2 eexists. split; reflexivity. Qed.

(** C3 as stated does not hold: the registration built from the payload
    of the scenario does not have the shared denominator 10. *)
Lemma create_new_from_json_not_normalized :
  ~ exists registration json_data',
      create_new_from_json (NewRegistrationExample.generated 1) 0
        NewRegistrationExample.payload NewRegistrationExample.draft
        (Some "PS12345") (Some "test-user") = Ok (registration, json_data')
      /\ length (owner_groups registration) = 2%nat
      /\ Forall (fun g =>
                   group_status_type g = MhrOwnerStatusTypes.ACTIVE
                   /\ group_interest_denominator g = 10
                   /\ py_float (group_interest_numerator g) = f64_of_Z 5)
           (owner_groups registration)
      /\ doc_document_type <$> documents registration = [MhrDocumentTypes.REG_101]
      /\ status_type registration = MhrRegistrationStatusTypes.ACTIVE.
Proof.
  intros (registration & json_data' & Hbuilt & _ & Hgroups & _).
  vm_compute in Hbuilt. injection Hbuilt as <- _.
  apply Forall_cons_1 in Hgroups as [(_ & Hden & _) _].
  discriminate Hden.
Qed.

(** ** Transport permits: the expiry of an amendment *)

Section PermitExpiry.
Context `{Collaborators}.

Lemma amendment_expiry_app pre post computed :
  amendment_expiry (pre ++ post) computed
  = amendment_expiry post (amendment_expiry pre computed).
Proof. apply foldl_app. Qed.

Lemma amendment_expiry_none chain expiry :
  Forall (fun reg => reusable_expiry reg = None) chain ->
  amendment_expiry chain expiry = expiry.
Proof.
  intros Hchain. revert expiry.
  induction Hchain as [|reg chain Hreg _ IH]; intros expiry; [done|].
  unfold amendment_expiry in *. simpl. rewrite Hreg. apply IH.
Qed.

(** The loop leaves the expiry of the last registration, in chain
    order, that carries a reusable permit note. *)
Lemma amendment_expiry_last pre reg post computed expiry :
  reusable_expiry reg = Some expiry ->
  Forall (fun reg => reusable_expiry reg = None) post ->
  amendment_expiry (pre ++ reg :: post) computed = Some expiry.
Proof.
  intros Hreg Hpost. rewrite amendment_expiry_app.
  change (reg :: post) with ([reg] ++ post). rewrite amendment_expiry_app.
  rewrite amendment_expiry_none by done.
  unfold amendment_expiry. simpl. by rewrite Hreg.
Qed.

Lemma reusable_expiry_permit reg n others expiry :
  notes reg = n :: others ->
  note_status_type n = MhrNoteStatusTypes.ACTIVE ->
  note_expiry_date n = Some expiry ->
  note_document_type n ∈
    [MhrDocumentTypes.REG_103; MhrDocumentTypes.REG_103E; MhrDocumentTypes.AMEND_PERMIT] ->
  reusable_expiry reg = Some expiry.
Proof.
  intros Hnotes Hactive Hexpiry Htype. unfold reusable_expiry.
  rewrite Hnotes, Hactive, Hexpiry. unfold is_permit_note, one_of.
  by rewrite (bool_decide_eq_true_2 _ Htype).
Qed.

(** What [create_permit_from_json] builds for an amendment, whatever the
    rest of the payload: a registration of type AMENDMENT with one note,
    ACTIVE and of type AMEND_PERMIT, whose expiry is what the loop over
    the chain leaves of the computed one. *)
Lemma create_permit_from_json_amendment
    reg_vals now draft base_reg json_data account user :
  amendment json_data = true ->
  exists registration json_data' permit_note,
    create_permit_from_json reg_vals now draft base_reg json_data account user
      = Ok (registration, json_data')
    /\ registration_type registration = MhrRegistrationTypes.AMENDMENT
    /\ notes registration = [permit_note]
    /\ note_document_type permit_note = MhrDocumentTypes.AMEND_PERMIT
    /\ note_status_type permit_note = MhrNoteStatusTypes.ACTIVE
    /\ note_expiry_date permit_note
       = amendment_expiry (change_registrations base_reg)
           (Some (compute_permit_expiry now)).
Proof.
  intros Hamend. destruct json_data. simpl in Hamend. subst.
  unfold create_permit_from_json, create_change_from_json. simpl.
  do 3 eexists. split; [reflexivity|]. done.
Qed.

(** C4. When the chain holds an ACTIVE permit, extension or amendment
    note with expiry [E], and no later registration of the chain holds
    another, the note of a permit amendment expires at [E], not at the
    freshly computed expiry. *)
Theorem create_permit_amendment_reuses_expiry
    (reg_vals : GeneratedValues) (now : Z) (draft : option MhrDraft)
    (base_reg : MhrRegistration) (json_data : RegistrationJson)
    (account user : option string)
    (pre post : list MhrRegistration) (reg : MhrRegistration)
    (n : MhrNote) (others : list MhrNote) (E : Z) :
  amendment json_data = true ->
  change_registrations base_reg = pre ++ reg :: post ->
  notes reg = n :: others ->
  note_status_type n = MhrNoteStatusTypes.ACTIVE ->
  note_expiry_date n = Some E ->
  note_document_type n ∈
    [MhrDocumentTypes.REG_103; MhrDocumentTypes.REG_103E; MhrDocumentTypes.AMEND_PERMIT] ->
  Forall (fun later => reusable_expiry later = None) post ->
  exists registration json_data' permit_note,
    create_permit_from_json reg_vals now draft base_reg json_data account user
      = Ok (registration, json_data')
    /\ notes registration = [permit_note]
    /\ note_document_type permit_note = MhrDocumentTypes.AMEND_PERMIT
    /\ note_status_type permit_note = MhrNoteStatusTypes.ACTIVE
    /\ note_expiry_date permit_note = Some E.
Proof.
  intros Hamend Hchain Hnotes Hactive Hexpiry Htype Hpost.
  destruct (create_permit_from_json_amendment
              reg_vals now draft base_reg json_data account user Hamend)
    as (registration & json_data' & permit_note & Hbuilt & _ & Hn & Ht & Hs & He).
  exists registration, json_data', permit_note.
  repeat split; try done.
  rewrite He, Hchain.
  apply amendment_expiry_last; [|done].
  by eapply reusable_expiry_permit.
Qed.

(** Without such a note on the chain the amendment gets the computed
    expiry. *)
Lemma create_permit_amendment_computed_expiry
    reg_vals now draft base_reg json_data account user :
  amendment json_data = true ->
  Forall (fun reg => reusable_expiry reg = None) (change_registrations base_reg) ->
  exists registration json_data' permit_note,
    create_permit_from_json reg_vals now draft base_reg json_data account user
      = Ok (registration, json_data')
    /\ notes registration = [permit_note]
    /\ note_expiry_date permit_note = Some (compute_permit_expiry now).
Proof.
  intros Hamend Hchain.
  destruct (create_permit_from_json_amendment
              reg_vals now draft base_reg json_data account user Hamend)
    as (registration & json_data' & permit_note & Hbuilt & _ & Hn & _ & _ & He).
  exists registration, json_data', permit_note. repeat split; try done.
  by rewrite He, amendment_expiry_none.
Qed.

End PermitExpiry.

Lemma create_permit_amendment_reuses_expiry_witness :
  exists registration json_data' permit_note,
    @create_permit_from_json PermitExample.collaborators
      (NewRegistrationExample.generated 4) 400 None PermitExample.base
      PermitExample.amendment_payload (Some "PS12345") (Some "userid")
      = Ok (registration, json_data')
    /\ notes registration = [permit_note]
    /\ note_document_type permit_note = MhrDocumentTypes.AMEND_PERMIT
    /\ note_status_type permit_note = MhrNoteStatusTypes.ACTIVE
    /\ note_expiry_date permit_note = Some 500.
Proof.
  apply (@create_permit_amendment_reuses_expiry PermitExample.collaborators
           (NewRegistrationExample.generated 4) 400 None PermitExample.base
           PermitExample.amendment_payload (Some "PS12345") (Some "userid")
           [] [CautionExample.later] ExemptionExample.permit_reg
           (ExemptionExample.permit 500) [] 500).
  - reflexivity.
  - reflexivity.
  - reflexivity.
  - reflexivity.
  - reflexivity.
  - apply (bool_decide_unpack _); reflexivity.
  - repeat constructor.
Defined.

(** ** Supersession of owner groups *)

Section Supersession.
Variable new_reg_id : Z.
Variable reg_type : option MhrRegistrationTypes.t.

Lemma removed_by_cons d deletes existing :
  removed_by (d :: deletes) new_reg_id reg_type existing
  = removed_by deletes new_reg_id reg_type (remove_group d existing new_reg_id reg_type).
Proof. reflexivity. Qed.

Lemma removed_by_app ds1 ds2 existing :
  removed_by (ds1 ++ ds2) new_reg_id reg_type existing
  = removed_by ds2 new_reg_id reg_type (removed_by ds1 new_reg_id reg_type existing).
Proof. apply foldl_app. Qed.

(** The owner groups of the base registration after the loop. *)
Lemma remove_groups_owner_groups deletes self :
  owner_groups (foldl (remove_groups_step new_reg_id reg_type) self deletes)
  = removed_by deletes new_reg_id reg_type <$> owner_groups self.
Proof.
  revert self. induction deletes as [|d deletes IH]; intros self.
  - simpl. symmetry. apply list_fmap_id.
  - simpl. rewrite IH. unfold remove_groups_step, remove_from.
    rewrite owner_groups_set_change_registrations, owner_groups_set_owner_groups.
    rewrite <- list_fmap_compose. by apply list_fmap_ext.
Qed.

(** The change registrations after the loop: each with its own owner
    groups updated. *)
Lemma remove_groups_change_registrations deletes self :
  change_registrations (foldl (remove_groups_step new_reg_id reg_type) self deletes)
  = (fun reg => set_owner_groups reg
                  (removed_by deletes new_reg_id reg_type <$> owner_groups reg))
      <$> change_registrations self.
Proof.
  revert self. induction deletes as [|d deletes IH]; intros self.
  - simpl. rewrite <- (list_fmap_id (change_registrations self)) at 1.
    apply list_fmap_ext. intros i reg _.
    change (removed_by [] new_reg_id reg_type <$> owner_groups reg)
      with (Datatypes.id <$> owner_groups reg).
    by rewrite list_fmap_id, set_owner_groups_same.
  - simpl. rewrite IH. unfold remove_groups_step.
    rewrite change_registrations_set_change_registrations.
    unfold remove_from at 2. rewrite change_registrations_set_owner_groups.
    rewrite <- list_fmap_compose. apply list_fmap_ext. intros i reg _. simpl.
    unfold remove_from.
    rewrite owner_groups_set_owner_groups, set_owner_groups_twice.
    by rewrite <- list_fmap_compose.
Qed.

(** [update_deceased] writes the two death fields only. *)
Lemma update_deceased_same_person owners_json owner :
  same_person owner (update_deceased owners_json owner)
  /\ party_status_type (update_deceased owners_json owner) = party_status_type owner
  /\ party_change_registration_id (update_deceased owners_json owner)
     = party_change_registration_id owner.
Proof.
  unfold update_deceased, same_person.
  destruct (List.find _ _); destruct owner; simpl; done.
Qed.

(** It stamps what the first matching payload owner gives. *)
Lemma update_deceased_stamped owners_json owner owner_json :
  List.find (owner_json_matches owner) owners_json = Some owner_json ->
  stamped owner_json (update_deceased owners_json owner).
Proof.
  intros Hfind. unfold update_deceased, stamped. rewrite Hfind.
  destruct owner; simpl. split; intros ? ->; done.
Qed.

Lemma owner_json_matches_same_person owner owner' owner_json :
  same_person owner owner' ->
  owner_json_matches owner' owner_json = owner_json_matches owner owner_json.
Proof.
  intros (Hind & Hbus & _). unfold owner_json_matches. by rewrite Hind, Hbus.
Qed.

Lemma find_matches_same_person owner owner' owners_json :
  same_person owner owner' ->
  List.find (owner_json_matches owner') owners_json
  = List.find (owner_json_matches owner) owners_json.
Proof.
  intros Hsame. induction owners_json as [|oj rest IH]; [done|].
  simpl. by rewrite (owner_json_matches_same_person _ _ _ Hsame), IH.
Qed.

Lemma same_person_trans a b c : same_person a b -> same_person b c -> same_person a c.
Proof. unfold same_person. intros (-> & -> & -> & ->) (-> & -> & -> & ->). done. Qed.

(** [remove_owner], on an owner [owner1] that stands for [owner]. *)
Lemma remove_owner_superseded d owner owner1 :
  same_person owner owner1 ->
  owner_superseded new_reg_id reg_type d owner
    (remove_owner d new_reg_id reg_type owner1).
Proof.
  intros Hsame. unfold remove_owner, owner_superseded.
  assert (Hrem : same_person owner (set_party_removed owner1 new_reg_id)).
  { destruct owner1. exact Hsame. }
  destruct (is_transfer_due_to_death reg_type) eqn:Hdeath.
  - destruct (update_deceased_same_person (owners d) (set_party_removed owner1 new_reg_id))
      as (Hsame' & Hst & Hch).
    split; [by eapply same_person_trans|].
    split; [rewrite Hst; by destruct owner1|].
    split; [rewrite Hch; by destruct owner1|].
    intros _ owner_json Hfind. apply update_deceased_stamped.
    by rewrite (find_matches_same_person _ _ _ Hrem).
  - split; [done|]. split; [by destruct owner1|]. split; [by destruct owner1|].
    discriminate.
Qed.

Lemma stands_for_refl existing : stands_for existing existing.
Proof.
  split; [done|]. apply Forall_Forall2_diag, Forall_forall. intros owner _.
  by repeat split.
Qed.

Lemma remove_group_stands_for d existing existing1 :
  stands_for existing existing1 ->
  stands_for existing (remove_group d existing1 new_reg_id reg_type).
Proof.
  intros [Hid Howners]. unfold remove_group. case_bool_decide; [|done].
  split; [by destruct existing1|].
  replace (group_owners (set_group_removed existing1 new_reg_id
             (remove_owner d new_reg_id reg_type <$> group_owners existing1)))
    with (remove_owner d new_reg_id reg_type <$> group_owners existing1)
    by (by destruct existing1).
  apply Forall2_fmap_r. eapply Forall2_impl; [exact Howners|].
  intros owner owner1 Hsame. by apply remove_owner_superseded.
Qed.

Lemma removed_by_stands_for deletes existing existing1 :
  stands_for existing existing1 ->
  stands_for existing (removed_by deletes new_reg_id reg_type existing1).
Proof.
  revert existing1. induction deletes as [|d deletes IH]; intros existing1 Hst; [done|].
  rewrite removed_by_cons. by apply IH, remove_group_stands_for.
Qed.

(** Instructions that name other groups leave a group as it is. *)
Lemma removed_by_others deletes existing :
  Forall (fun d => groupId d <> Some (group_id existing)) deletes ->
  removed_by deletes new_reg_id reg_type existing = existing.
Proof.
  induction 1 as [|d deletes Hd _ IH]; [done|].
  rewrite removed_by_cons. unfold remove_group at 1.
  rewrite bool_decide_eq_false_2 by congruence. exact IH.
Qed.

(** The instruction that names the group supersedes it. *)
Lemma remove_group_superseded d existing existing1 :
  groupId d = Some (group_id existing) ->
  stands_for existing existing1 ->
  superseded new_reg_id reg_type d existing
    (remove_group d existing1 new_reg_id reg_type).
Proof.
  intros Hd [Hid Howners]. unfold remove_group.
  rewrite bool_decide_eq_true_2 by congruence.
  unfold superseded.
  split; [by destruct existing1|]. split; [by destruct existing1|].
  split; [by destruct existing1|].
  replace (group_owners (set_group_removed existing1 new_reg_id
             (remove_owner d new_reg_id reg_type <$> group_owners existing1)))
    with (remove_owner d new_reg_id reg_type <$> group_owners existing1)
    by (by destruct existing1).
  apply Forall2_fmap_r. eapply Forall2_impl; [exact Howners|].
  intros owner owner1 Hsame. by apply remove_owner_superseded.
Qed.

Lemma group_id_remove_group d existing :
  group_id (remove_group d existing new_reg_id reg_type) = group_id existing.
Proof. unfold remove_group. case_bool_decide; [|done]. by destruct existing. Qed.

(** The effect of the whole list on a group it names, [d] being the last
    instruction that names it. *)
Lemma removed_by_superseded ds1 d ds2 existing :
  groupId d = Some (group_id existing) ->
  Forall (fun later => groupId later <> Some (group_id existing)) ds2 ->
  superseded new_reg_id reg_type d existing
    (removed_by (ds1 ++ d :: ds2) new_reg_id reg_type existing).
Proof.
  intros Hd Hlater. rewrite removed_by_app, removed_by_cons.
  pose proof (removed_by_stands_for ds1 existing existing (stands_for_refl _)) as Hst.
  rewrite removed_by_others.
  - by apply remove_group_superseded.
  - rewrite group_id_remove_group. destruct Hst as [-> _]. exact Hlater.
Qed.

End Supersession.

(** Among the instructions that name group [g] there is a last one. *)
Lemma last_instruction_naming (g : Z) (deletes : list GroupJson) (d : GroupJson) :
  d ∈ deletes ->
  groupId d = Some g ->
  exists ds1 d_last ds2,
    deletes = ds1 ++ d_last :: ds2
    /\ groupId d_last = Some g
    /\ Forall (fun later => groupId later <> Some g) ds2.
Proof.
  intros Hin Hd.
  assert (Hex : Exists (fun d' => groupId d' = Some g) deletes)
    by (apply Exists_exists; eauto).
  clear d Hin Hd. induction deletes as [|d0 rest IH]; [by apply Exists_nil in Hex|].
  destruct (decide (Exists (fun d' => groupId d' = Some g) rest)) as [Hrest|Hnone].
  - destruct (IH Hrest) as (ds1 & d_last & ds2 & -> & Hlast & Hlater).
    by exists (d0 :: ds1), d_last, ds2.
  - apply Exists_cons in Hex as [Hd0|Hrest]; [|done].
    exists [], d0, rest. repeat split; [done|].
    apply Forall_forall. intros x Hx Hgx. apply Hnone, Exists_exists. eauto.
Qed.

(** C5. For a delete instruction [d] of the payload that carries group
    number [g], [remove_groups] leaves every owner group numbered [g],
    on the base registration and on every change registration of the
    chain, with status PREVIOUS and the id of the new registration as
    [change_registration_id], and every owner of such a group PREVIOUS
    with that id; when the registration type is a death-transfer variant
    the owners also carry the death certificate number and death
    timestamp that the payload owner of the same name gives, taken from
    the last instruction that names [g] ([d] itself when no later one
    does). *)
Theorem remove_groups_supersedes
    (self : MhrRegistration) (json_data : RegistrationJson) (new_reg_id : Z)
    (deletes : list GroupJson) (d : GroupJson) (g : Z) :
  deleteOwnerGroups json_data = Some deletes ->
  d ∈ deletes ->
  groupId d = Some g ->
  exists self' ds1 d_last ds2,
    remove_groups self json_data new_reg_id = Ok self'
    /\ deletes = ds1 ++ d_last :: ds2
    /\ groupId d_last = Some g
    /\ Forall (fun later => groupId later <> Some g) ds2
    /\ groups_superseded g new_reg_id (registrationType json_data) d_last self self'
    /\ Forall2 (groups_superseded g new_reg_id (registrationType json_data) d_last)
         (change_registrations self) (change_registrations self').
Proof.
  intros Hdeletes Hin Hd.
  destruct (last_instruction_naming g deletes d Hin Hd)
    as (ds1 & d_last & ds2 & -> & Hlast & Hlater).
  eexists. exists ds1, d_last, ds2.
  unfold remove_groups. rewrite Hdeletes. simpl.
  split; [reflexivity|]. split; [done|]. split; [done|]. split; [done|].
  assert (Hgroup : forall existing,
             group_id existing = g ->
             superseded new_reg_id (registrationType json_data) d_last existing
               (removed_by (ds1 ++ d_last :: ds2) new_reg_id
                  (registrationType json_data) existing)).
  { intros existing <-. by apply removed_by_superseded. }
  split.
  - unfold groups_superseded. rewrite remove_groups_owner_groups.
    apply Forall2_fmap_r, Forall_Forall2_diag, Forall_forall.
    intros existing _ Hg. by apply Hgroup.
  - rewrite remove_groups_change_registrations.
    apply Forall2_fmap_r, Forall_Forall2_diag, Forall_forall.
    intros reg _. unfold groups_superseded. simpl.
    rewrite owner_groups_set_owner_groups.
    apply Forall2_fmap_r, Forall_Forall2_diag, Forall_forall.
    intros existing _ Hg. by apply Hgroup.
Qed.

(** A group with another number is not touched. *)
Lemma remove_groups_other_groups self json_data new_reg_id deletes self' :
  deleteOwnerGroups json_data = Some deletes ->
  remove_groups self json_data new_reg_id = Ok self' ->
  Forall2 (fun existing existing' =>
             Forall (fun d => groupId d <> Some (group_id existing)) deletes ->
             existing' = existing)
    (owner_groups self) (owner_groups self').
Proof.
  intros Hdeletes. unfold remove_groups. rewrite Hdeletes. simpl.
  intros [= <-]. rewrite remove_groups_owner_groups.
  apply Forall2_fmap_r, Forall_Forall2_diag, Forall_forall.
  intros existing _ Hothers. by apply removed_by_others.
Qed.

(** Without [deleteOwnerGroups] in the payload the loop cannot start. *)
Lemma remove_groups_no_delete_list self json_data new_reg_id :
  deleteOwnerGroups json_data = None ->
  remove_groups self json_data new_reg_id = Err TypeError.
Proof. intros Hnone. unfold remove_groups. by rewrite Hnone. Qed.

Example transfer_example_base :
  (fun g => (group_id g, group_status_type g)) <$> owner_groups TransferExample.base
  = [(1, MhrOwnerStatusTypes.ACTIVE)].
Proof. reflexivity. Qed.

(** After the first transfer group 1 is PREVIOUS, closed by registration
    2, and JANE SMITH carries the death metadata of the payload; the new
    registration holds group 2. *)
Example transfer_example_after_first :
  (fun g => (group_id g, group_status_type g, group_change_registration_id g,
             (fun o => (party_status_type o, party_death_cert_number o, party_death_ts o))
               <$> group_owners g))
    <$> owner_groups TransferExample.after_first
  = [(1, MhrOwnerStatusTypes.PREVIOUS, 2,
      [(MhrOwnerStatusTypes.PREVIOUS, Some "C-0001", Some 5)])]
  /\ (fun reg => (id reg, (fun g => (group_id g, group_status_type g)) <$> owner_groups reg))
       <$> change_registrations TransferExample.after_first
     = [(2, [(2, MhrOwnerStatusTypes.ACTIVE)])].
Proof. split; reflexivity. Qed.

Lemma remove_groups_supersedes_witness :
  let self := TransferExample.base in
  let json_data := TransferExample.first_transfer in
  let d := TransferExample.delete_jane in
  exists self' ds1 d_last ds2,
    remove_groups self json_data 2 = Ok self'
    /\ [d] = ds1 ++ d_last :: ds2
    /\ groupId d_last = Some 1
    /\ Forall (fun later => groupId later <> Some 1) ds2
    /\ groups_superseded 1 2 (registrationType json_data) d_last self self'
    /\ Forall2 (groups_superseded 1 2 (registrationType json_data) d_last)
         (change_registrations self) (change_registrations self').
Proof.
  apply (remove_groups_supersedes TransferExample.base TransferExample.first_transfer 2
           [TransferExample.delete_jane] TransferExample.delete_jane 1).
  - reflexivity.
  - apply list_elem_of_here.
  - reflexivity.
Defined.

(** ** Transfers and group numbers *)





(** The second transfer is built when two groups are on record, group
    1 superseded and group 2 ACTIVE.  Numbered from the count of the
    groups on record, the group it adds is group 3. *)
Example transfer_example_after_second :
  (fun reg => (id reg, (fun g => (group_id g, group_status_type g)) <$> owner_groups reg))
    <$> change_registrations TransferExample.after_second
  = [(2, [(2, MhrOwnerStatusTypes.PREVIOUS)]); (3, [(3, MhrOwnerStatusTypes.ACTIVE)])].
Proof. reflexivity. Qed.

(** The first transfer is built when the one group on record is ACTIVE:
    counting all groups and counting the ACTIVE ones give the same
    registration. *)
Example transfer_example_counts_agree :
  @transfer_applied TransferExample.counting_active_groups
    (NewRegistrationExample.generated 2) 10 TransferExample.base
    TransferExample.first_transfer TransferExample.account TransferExample.user
  = Ok TransferExample.after_first.
Proof. reflexivity. Qed.


(** ** Lookup by MHR number: the contract *)

Section LookupContract.
Context `{Collaborators}.
Variable db : Store.

Lemma find_by_mhr_number_not_found mhr_num account staff :
  roots_of db (format_mhr_number mhr_num) = [] ->
  find_by_mhr_number db mhr_num account staff None
  = Err (NotFound (format_mhr_number mhr_num)).
Proof.
  unfold roots_of, find_by_mhr_number. simpl. intros ->.
  by destruct (negb _).
Qed.

Lemma find_by_mhr_number_found mhr_num account staff root :
  format_mhr_number mhr_num <> "" ->
  roots_of db (format_mhr_number mhr_num) = [root] ->
  find_by_mhr_number db mhr_num account staff None
  = if negb staff && truthy_str account && bool_decide (account_id root <> account)
    then match MhrExtraRegistration_find_by_mhr_number db
                 (format_mhr_number mhr_num) (default "" account) with
         | Some _ => Ok (with_doc_id root)
         | None => Err (Unauthorized (default "" account) (format_mhr_number mhr_num))
         end
    else Ok (with_doc_id root).
Proof.
  unfold roots_of, find_by_mhr_number. simpl. intros Hne ->.
  rewrite (proj2 (String.eqb_neq _ _) Hne). simpl.
  destruct (negb staff && truthy_str account && _); [|done].
  by destruct (MhrExtraRegistration_find_by_mhr_number _ _ _).
Qed.

(** C7, with the guard the code has. A lookup by MHR number fails with
    the not-found error when no base registration is on record for the
    number.  When exactly one is, it fails with the authorization error,
    which is not the not-found error, if the caller is not staff, gives
    an account id that is not empty and differs from the account of the
    base registration, and holds no extra-registration grant;
    in every other case (staff, no account id given, the same account,
    or a grant) it returns the base registration, [find_all_by_mhr_number]
    with the chain attached in [registration_ts] order. *)
Theorem find_by_mhr_number_contract
    (mhr_num : string) (account : option string) (staff : bool) :
  let formatted_mhr := format_mhr_number mhr_num in
  let granted :=
    MhrExtraRegistration_find_by_mhr_number db formatted_mhr (default "" account) in
  (roots_of db formatted_mhr = [] ->
     find_by_mhr_number db mhr_num account staff None = Err (NotFound formatted_mhr)
     /\ find_all_by_mhr_number db mhr_num account staff = Err (NotFound formatted_mhr))
  /\ (forall root,
        formatted_mhr <> "" ->
        roots_of db formatted_mhr = [root] ->
        (staff = false ->
         truthy_str account = true ->
         account_id root <> account ->
         granted = None ->
         let denied := Unauthorized (default "" account) formatted_mhr in
         find_by_mhr_number db mhr_num account staff None = Err denied
         /\ find_all_by_mhr_number db mhr_num account staff = Err denied
         /\ denied <> NotFound formatted_mhr)
        /\ (staff = true \/ truthy_str account = false
            \/ account_id root = account \/ is_Some granted ->
            find_by_mhr_number db mhr_num account staff None = Ok (with_doc_id root)
            /\ find_all_by_mhr_number db mhr_num account staff
               = Ok (set_change_registrations (with_doc_id root)
                       (chain_of db formatted_mhr)))).
Proof.
  intros formatted_mhr granted. split; [|intros root Hne Hroot; split].
  - intros Hnone. unfold find_all_by_mhr_number.
    by rewrite (find_by_mhr_number_not_found _ _ _ Hnone).
  - intros -> Haccount Hdiffers Hnogrant denied.
    unfold find_all_by_mhr_number.
    rewrite (find_by_mhr_number_found _ _ _ _ Hne Hroot).
    rewrite Haccount, (bool_decide_eq_true_2 _ Hdiffers). simpl.
    fold formatted_mhr. fold granted. by rewrite Hnogrant.
  - intros Hallowed. unfold find_all_by_mhr_number.
    rewrite (find_by_mhr_number_found _ _ _ _ Hne Hroot).
    fold formatted_mhr. fold granted.
    assert (Hok : (if negb staff && truthy_str account
                      && bool_decide (account_id root <> account)
                   then match granted with
                        | Some _ => Ok (with_doc_id root)
                        | None => Err (Unauthorized (default "" account) formatted_mhr)
                        end
                   else Ok (with_doc_id root)) = Ok (with_doc_id root)).
    { destruct Hallowed as [-> | [-> | [Hsame | [grant Hgrant]]]].
      - done.
      - by rewrite andb_false_r.
      - rewrite (bool_decide_eq_false_2 _) by (by intros ?).
        by rewrite andb_false_r.
      - rewrite Hgrant. by destruct (_ && _). }
    rewrite Hok. done.
Qed.

End LookupContract.

Example find_all_by_mhr_number_loads_chain :
  @find_all_by_mhr_number PermitExample.collaborators LookupExample.store
    "000900" (Some "PS12345") false
  = Ok (set_change_registrations (with_doc_id LookupExample.root)
          [CautionExample.earlier; CautionExample.later]).
Proof. reflexivity. Qed.

Lemma find_by_mhr_number_contract_witness :
  let H := PermitExample.collaborators in
  let db := LookupExample.store in
  (find_by_mhr_number db "000777" (Some "PS12345") false None = Err (NotFound "000777")
   /\ find_all_by_mhr_number db "000777" (Some "PS12345") false = Err (NotFound "000777"))
  /\ (find_by_mhr_number db "000900" (Some "PS00001") false None
        = Err (Unauthorized "PS00001" "000900")
      /\ find_all_by_mhr_number db "000900" (Some "PS00001") false
        = Err (Unauthorized "PS00001" "000900")
      /\ Unauthorized "PS00001" "000900" <> NotFound "000900")
  /\ (find_by_mhr_number db "000900" (Some "PS99999") false None
        = Ok (with_doc_id LookupExample.root)
      /\ find_all_by_mhr_number db "000900" (Some "PS99999") false
        = Ok (set_change_registrations (with_doc_id LookupExample.root)
                (chain_of db "000900"))).
Proof.
  intros H db. split; [|split].
  - apply (proj1 (@find_by_mhr_number_contract H db "000777" (Some "PS12345") false)).
    reflexivity.
  - apply (proj1 (proj2 (@find_by_mhr_number_contract H db "000900" (Some "PS00001") false)
                    LookupExample.root ltac:(discriminate) eq_refl));
      [reflexivity | reflexivity | discriminate | reflexivity].
  - apply (proj2 (proj2 (@find_by_mhr_number_contract H db "000900" (Some "PS99999") false)
                    LookupExample.root ltac:(discriminate) eq_refl)).
    right. right. right. by eexists.
Defined.

(** C7 as stated does not hold: a caller who is not staff and gives an
    empty account id, which differs from the account of the base
    registration and has no grant, gets the base registration, not the
    authorization error. *)
Lemma find_by_mhr_number_empty_account :
  let H := PermitExample.collaborators in
  let db := LookupExample.store in
  roots_of db "000900" = [LookupExample.root]
  /\ account_id LookupExample.root <> Some ""
  /\ MhrExtraRegistration_find_by_mhr_number db "000900" "" = None
  /\ find_by_mhr_number db "000900" (Some "") false None
     = Ok (with_doc_id LookupExample.root)
  /\ ~ exists denied,
         find_by_mhr_number db "000900" (Some "") false None = Err denied.
Proof.
  intros H db. repeat split; try reflexivity; try discriminate.
  intros [denied Hdenied]. discriminate Hdenied.
Qed.

(** ** A store failure after payment *)

Section StoreFailure.
Context `{Collaborators} `{Services}.

(** [MhrRegistration.save] hands a failed commit on as it is and leaves
    the payment alone: its events are the add and the commit. *)
Lemma save_propagates self trace e :
  commit_outcome (commits_so_far trace) = Some e ->
  save self trace = (trace ++ [SessionAdd (id self); SessionCommit], Err e).
Proof.
  intros Hcommit. unfold save, bind, emit, session_commit.
  assert (Hcount : commits_so_far (trace ++ [SessionAdd (id self)]) = commits_so_far trace).
  { unfold commits_so_far. by rewrite List.filter_app, length_app, Nat.add_0_r. }
  rewrite Hcount, Hcommit. by rewrite <- app_assoc.
Qed.

(** The handler refunds with the invoice it is given, when there is an
    account, and raises the error as a [DatabaseException]. *)
Lemma refund_and_raise_run {A} account invoice db_exception trace :
  (forall e', cancel_payment invoice = Some e' -> exists msg, e' = SBCPaymentException msg) ->
  @refund_and_raise _ A account (Some invoice) db_exception trace
  = (trace ++ (if truthy_str account then [PaymentCancelled invoice] else []),
     Err (DatabaseException db_exception)).
Proof.
  intros Hcancel. unfold refund_and_raise, bind, try_except, cancel, emit, raise, ret.
  destruct (truthy_str account); simpl.
  - destruct (cancel_payment invoice) as [e'|] eqn:E; [|done].
    by destruct (Hcancel e' eq_refl) as [msg ->].
  - by rewrite app_nil_r.
Qed.

(** C8. The token of the user gives a name to affirm the registration
    ([get_affirmby] returns), the payment has been taken ([pay_ref], not
    a credit card payment) and the commit that persists the new
    registration fails with [e].  The model class only hands the error
    on: the events of [save] are the add and the commit, and its result
    is [e].  The refund is issued by the pay-and-save function that
    called it, with the invoice id of the payment reference obtained
    before the save (and only for a caller with an account), and the
    error reaches its own caller as a [DatabaseException]. *)
Theorem store_failure_after_payment
    (token_info : token) (name : string)
    (request_json : RegistrationJson) (account user_group : option string)
    (trans_type : string)
    (draft : MhrDraft) (pay_ref : PayRef) (invoice : Z)
    (registration : MhrRegistration) (json_data' : RegistrationJson) (e : exn) :
  get_affirmby token_info = Ok name ->
  create_draft = Ok draft ->
  create_payment (is_reg_staff_account account) = Ok pay_ref ->
  ccPayment pay_ref = false ->
  invoiceId pay_ref = Some invoice ->
  create_new_from_json next_values clock
    (set_registrationType request_json MhrRegistrationTypes.MHREG)
    draft account (token_get token_info "username" None)
  = Ok (registration, json_data') ->
  commit_outcome 0 = Some e ->
  (forall e', cancel_payment invoice = Some e' -> exists msg, e' = SBCPaymentException msg) ->
  let paid :=
    [DraftSaved (draft_mhr_number draft);
     PaymentRequested (is_reg_staff_account account) trans_type (draft_mhr_number draft)] in
  let filed := set_payment registration (Some invoice) (Some (receipt pay_ref)) in
  save filed paid = (paid ++ [SessionAdd (id filed); SessionCommit], Err e)
  /\ pay_and_save_registration token_info request_json account user_group trans_type []
     = (paid ++ [SessionAdd (id filed); SessionCommit]
          ++ (if truthy_str account then [PaymentCancelled invoice] else []),
        Err (DatabaseException e)).
Proof.
  intros Hname Hdraft Hpay Hcc Hinvoice Hbuilt Hcommit Hcancel paid filed.
  assert (Hsave : save filed paid
                  = (paid ++ [SessionAdd (id filed); SessionCommit], Err e))
    by (by apply save_propagates).
  split; [exact Hsave|].
  unfold pay_and_save_registration, pay, bind, lift, emit, try_except.
  rewrite Hname, Hdraft. simpl. rewrite Hpay, Hcc, Hbuilt, Hinvoice. simpl.
  fold filed. change [DraftSaved _; PaymentRequested _ _ _] with paid.
  unfold bind in Hsave. unfold save, bind in Hsave |- *. rewrite Hsave.
  rewrite (refund_and_raise_run _ _ _ _ Hcancel). by rewrite <- app_assoc.
Qed.

(** The same for a transfer: the commit that persists the transfer
    registration fails. *)
Lemma store_failure_after_payment_transfer
    token_info name current_reg request_json account user_group trans_type
    pay_ref invoice registration json_data' e :
  get_affirmby token_info = Ok name ->
  create_payment (is_reg_staff_account account) = Ok pay_ref ->
  ccPayment pay_ref = false ->
  invoiceId pay_ref = Some invoice ->
  create_transfer_from_json next_values clock find_draft current_reg
    (match registrationType request_json with
     | Some _ => request_json
     | None => set_registrationType request_json MhrRegistrationTypes.TRANS
     end) account (token_get token_info "username" None)
  = Ok (registration, json_data') ->
  commit_outcome 0 = Some e ->
  (forall e', cancel_payment invoice = Some e' -> exists msg, e' = SBCPaymentException msg) ->
  let paid :=
    [PaymentRequested (is_reg_staff_account account) trans_type (mhr_number current_reg)] in
  let filed := set_payment registration (Some invoice) (Some (receipt pay_ref)) in
  pay_and_save_transfer token_info current_reg request_json account user_group
    trans_type []
  = (paid ++ [SessionAdd (id filed); SessionCommit]
       ++ (if truthy_str account then [PaymentCancelled invoice] else []),
     Err (DatabaseException e)).
Proof.
  intros Hname Hpay Hcc Hinvoice Hbuilt Hcommit Hcancel paid filed.
  assert (Hsave : save filed paid
                  = (paid ++ [SessionAdd (id filed); SessionCommit], Err e))
    by (by apply save_propagates).
  unfold pay_and_save_transfer, pay, bind, lift, emit, try_except.
  rewrite Hname. simpl. rewrite Hpay, Hcc, Hbuilt, Hinvoice. simpl.
  fold filed. change [PaymentRequested _ _ _] with paid.
  unfold save, bind in Hsave |- *. rewrite Hsave.
  rewrite (refund_and_raise_run _ _ _ _ Hcancel). by rewrite <- app_assoc.
Qed.

(** A builder that fails after the payment is handled the same way. *)
Lemma builder_failure_after_payment
    token_info name request_json account user_group trans_type
    draft pay_ref invoice e :
  get_affirmby token_info = Ok name ->
  create_draft = Ok draft ->
  create_payment (is_reg_staff_account account) = Ok pay_ref ->
  ccPayment pay_ref = false ->
  invoiceId pay_ref = Some invoice ->
  create_new_from_json next_values clock
    (set_registrationType request_json MhrRegistrationTypes.MHREG)
    draft account (token_get token_info "username" None) = Err e ->
  (forall e', cancel_payment invoice = Some e' -> exists msg, e' = SBCPaymentException msg) ->
  pay_and_save_registration token_info request_json account user_group trans_type []
  = ([DraftSaved (draft_mhr_number draft);
      PaymentRequested (is_reg_staff_account account) trans_type (draft_mhr_number draft)]
       ++ (if truthy_str account then [PaymentCancelled invoice] else []),
     Err (DatabaseException e)).
Proof.
  intros Hname Hdraft Hpay Hcc Hinvoice Hbuilt Hcancel.
  unfold pay_and_save_registration, pay, bind, lift, emit, try_except.
  rewrite Hname, Hdraft. simpl. rewrite Hpay, Hcc, Hbuilt, Hinvoice.
  by rewrite (refund_and_raise_run _ _ _ _ Hcancel).
Qed.

End StoreFailure.

Lemma store_failure_after_payment_witness :
  let S := PaymentExample.services (Some PaymentExample.connection_lost) in
  let paid := [DraftSaved "000900"; PaymentRequested false "MHREG" "000900"] in
  let filed :=
    set_payment (fst PaymentExample.built) (Some 9001)
      (Some "/api/v1/payment-requests/9001/receipts") in
  save filed paid
  = (paid ++ [SessionAdd 1; SessionCommit], Err PaymentExample.connection_lost)
  /\ pay_and_save_registration PaymentExample.user_token
       NewRegistrationExample.payload (Some "PS12345") (Some "ppr_staff") "MHREG" []
     = (paid ++ [SessionAdd 1; SessionCommit] ++ [PaymentCancelled 9001],
        Err (DatabaseException PaymentExample.connection_lost)).
Proof.
  intros S.
  apply (@store_failure_after_payment S
           PaymentExample.user_token "Jane Smith"
           NewRegistrationExample.payload (Some "PS12345") (Some "ppr_staff") "MHREG"
           NewRegistrationExample.draft PaymentExample.pay_ref 9001
           (fst PaymentExample.built) (snd PaymentExample.built)
           PaymentExample.connection_lost).
  - reflexivity.
  - reflexivity.
  - reflexivity.
  - reflexivity.
  - reflexivity.
  - reflexivity.
  - reflexivity.
  - intros e' Hcancel. discriminate Hcancel.
Defined.

(** When the commit succeeds the registration is returned with the
    invoice and the receipt of the payment, and nothing is refunded. *)
Example pay_and_save_registration_saved :
  let S := PaymentExample.services None in
  pay_and_save_registration PaymentExample.user_token
    NewRegistrationExample.payload (Some "PS12345") (Some "ppr_staff") "MHREG" []
  = ([DraftSaved "000900"; PaymentRequested false "MHREG" "000900";
      SessionAdd 1; SessionCommit],
     Ok (Registered
           (set_payment (fst PaymentExample.built) (Some 9001)
              (Some "/api/v1/payment-requests/9001/receipts")))).
Proof. reflexivity. Qed.

(** ** Repeating a projection *)

Section Repeating.
Context `{JsonHelpers}.


End Repeating.





(** ** Rescaling to a common denominator *)

(** A group the second loop of [adjust_group_interest] rescales gets a
    [float] numerator, the quotient [common_denominator / den] times the
    old numerator. *)
Lemma adjust_group_rescales common_denominator group :
  py_gt0 (group_interest_numerator group) = true ->
  0 < group_interest_denominator group ->
  group_interest_denominator group <> common_denominator ->
  adjust_group true common_denominator group
  = set_group_interest group
      (PFloat (py_fmul (py_truediv common_denominator (group_interest_denominator group))
                 (group_interest_numerator group)))
      common_denominator.
Proof.
  intros Hnum Hden Hne. unfold adjust_group. simpl. rewrite Hnum.
  rewrite (proj2 (Z.ltb_lt _ _) Hden). simpl.
  by rewrite (proj2 (Z.eqb_neq _ _) Hne).
Qed.

(** A group that already has the common denominator is left alone. *)
Lemma adjust_group_same new group :
  adjust_group new (group_interest_denominator group) group = group.
Proof.
  unfold adjust_group. rewrite Z.eqb_refl. simpl.
  by repeat match goal with |- context [if ?b then _ else _] => destruct b end.
Qed.

Example one_and_a_half_doubled :
  f64_mul InterestExample.one_and_a_half (f64_of_Z 2) = f64_of_Z 3.
Proof. reflexivity. Qed.

Example adjust_group_interest_half_and_third :
  (fun g => (group_interest_numerator g, group_interest_denominator g))
    <$> owner_groups (adjust_group_interest InterestExample.half_and_third true)
  = [(PFloat InterestExample.one_and_a_half, 3); (PInt 1, 3)].
Proof. reflexivity. Qed.

(** Were the rescaling run on the interests 1/2 and 5/10, the first
    group would get the [float] 5.0 over 10. *)
Example adjust_group_interest_half_and_five_tenths :
  (fun g => (group_interest_numerator g, group_interest_denominator g))
    <$> owner_groups (adjust_group_interest InterestExample.half_and_five_tenths true)
  = [(PFloat (f64_of_Z 5), 10); (PInt 5, 10)].
Proof. reflexivity. Qed.

(** C10. For some registration whose groups all hold integer interests
    (two ACTIVE groups of tenants in common with 1/2 and 1/3),
    [adjust_group_interest] stores a numerator that is not an integer:
    the first group ends with 1.5 over the common denominator 3. *)
Theorem adjust_group_interest_fractional :
  exists (self : MhrRegistration) (group : MhrOwnerGroup),
    Forall (fun g => py_is_integer (group_interest_numerator g) = true)
      (owner_groups self)
    /\ group ∈ owner_groups (adjust_group_interest self true)
    /\ group_interest_denominator group = 3
    /\ group_interest_numerator group = PFloat InterestExample.one_and_a_half
    /\ py_is_integer (group_interest_numerator group) = false.
Proof.
  exists InterestExample.half_and_third.
  exists (set_group_interest (InterestExample.common 1 1 2)
            (PFloat InterestExample.one_and_a_half) 3).
  split; [by repeat constructor|].
  split; [|done].
  apply list_elem_of_here.
Qed.

(** * Part VIII. Further properties of the code *)

(** ** The caution flag over time *)

Lemma set_caution_loop_earlier chain now1 now2 has_caution :
  now1 <= now2 ->
  set_caution_loop chain now2 has_caution = true ->
  set_caution_loop chain now1 has_caution = true.
Proof.
  intros Hle. revert has_caution.
  induction chain as [|reg chain IH]; intros has_caution; [done|].
  simpl. destruct (active_caution_head reg) as [n|]; [|apply IH].
  destruct (note_expiry_date n) as [expiry|].
  - intros Hlt%bool_decide_eq_true. apply bool_decide_eq_true. lia.
  - destruct (bool_decide _); apply IH.
Qed.

(** X1. On an unchanged registration the caution flag can only be lost
    as time passes: when [set_caution] answers true at one clock reading
    it answers true at every earlier one (so once it answers false it
    answers false from then on). *)
Theorem set_caution_only_lost (self : MhrRegistration) (now1 now2 : Z) :
  now1 <= now2 ->
  set_caution self now2 = true ->
  set_caution self now1 = true.
Proof.
  intros Hle. unfold set_caution. by apply set_caution_loop_earlier.
Qed.

Lemma set_caution_only_lost_witness :
  (100 <= 200 /\ set_caution CautionExample.two_cautions_closed 200 = true)
  /\ set_caution CautionExample.two_cautions_closed 100 = true.
Proof.
  split; [split; [lia | reflexivity]|].
  apply (set_caution_only_lost CautionExample.two_cautions_closed 100 200);
    [lia | reflexivity].
Defined.

Lemma set_caution_loop_open chain now has_caution :
  Forall (fun reg => expiring_caution reg = None) chain ->
  set_caution_loop chain now has_caution = has_caution || existsb open_caution chain.
Proof.
  intros Hchain. revert has_caution.
  induction Hchain as [|reg chain Hreg _ IH]; intros has_caution.
  - simpl. by rewrite orb_false_r.
  - simpl. unfold expiring_caution in Hreg. unfold open_caution at 1.
    destruct (active_caution_head reg) as [n|]; simpl in *; [|apply IH].
    rewrite Hreg. simpl. destruct (bool_decide _); rewrite IH; simpl.
    + by rewrite orb_true_r.
    + done.
Qed.

(** X2. When no change registration starts with an ACTIVE caution that
    carries an expiry date, the clock is not consulted: [set_caution]
    answers true exactly when some change registration starts with an
    ACTIVE continued caution (CAUC) that has no expiry date. An ACTIVE
    CAU or CAUE note without expiry date never raises the flag. *)
Theorem set_caution_without_expiry (self : MhrRegistration) (now : Z) :
  Forall (fun reg => expiring_caution reg = None) (change_registrations self) ->
  set_caution self now = existsb open_caution (change_registrations self).
Proof.
  intros Hchain. unfold set_caution. by rewrite set_caution_loop_open.
Qed.

Lemma set_caution_without_expiry_witness :
  set_caution ContinuedCautionExample.base 1000 = true.
Proof.
  rewrite (set_caution_without_expiry ContinuedCautionExample.base 1000).
  - reflexivity.
  - repeat constructor.
Defined.

(** ** Exemption: what is left alone *)



Lemma close_permit_note_twice a b reg :
  close_permit_note b (close_permit_note a reg) = close_permit_note a reg.
Proof.
  unfold close_permit_note at 2.
  destruct (notes reg) as [|note others] eqn:Hnotes.
  - unfold close_permit_note. by rewrite Hnotes.
  - destruct (is_permit_note _ && _) eqn:Hopen.
    + unfold close_permit_note. rewrite notes_set_notes. simpl.
      by rewrite andb_false_r, Hnotes, Hopen.
    + unfold close_permit_note. by rewrite Hnotes, Hopen.
Qed.

(** X4. An exemption is applied once: running [save_exemption] again,
    for another registration id, changes nothing. The permit notes the
    first run has cancelled keep the id of the first exemption. *)
Theorem save_exemption_once (self : MhrRegistration) (first second : Z) :
  save_exemption (save_exemption self first) second = save_exemption self first.
Proof.
  unfold save_exemption. destruct self. simpl. f_equal.
  rewrite <- list_fmap_compose. apply list_fmap_ext.
  intros i reg _. apply close_permit_note_twice.
Qed.

(** ** Supersession: what is kept *)

Lemma kept_refl existing : kept existing existing.
Proof. unfold kept. repeat split; try done. by left. Qed.

Lemma remove_group_kept d new_reg_id reg_type existing existing1 :
  kept existing existing1 ->
  kept existing (remove_group d existing1 new_reg_id reg_type).
Proof.
  intros Hkept. unfold remove_group. case_bool_decide; [|done].
  destruct Hkept as (? & ? & ? & ? & ? & ? & ? & ? & _).
  destruct existing1. unfold kept. simpl in *. rewrite length_fmap.
  repeat split; try done. by right.
Qed.

Lemma removed_by_kept deletes new_reg_id reg_type existing existing1 :
  kept existing existing1 ->
  kept existing (removed_by deletes new_reg_id reg_type existing1).
Proof.
  revert existing1. induction deletes as [|d deletes IH]; intros existing1 Hkept; [done|].
  unfold removed_by. simpl. apply IH. by apply remove_group_kept.
Qed.

(** The loop of [remove_groups] writes owner groups only. *)
Lemma remove_groups_attributes new_reg_id reg_type deletes self groups chain :
  set_change_registrations
    (set_owner_groups (foldl (remove_groups_step new_reg_id reg_type) self deletes) groups)
    chain
  = set_change_registrations (set_owner_groups self groups) chain.
Proof.
  revert self. induction deletes as [|d deletes IH]; intros self; [done|].
  simpl. rewrite IH. unfold remove_groups_step, remove_from. by destruct self.
Qed.

(** X5. [remove_groups] never adds, drops, reorders or renumbers an
    owner group or an owner, and never makes a group ACTIVE: on the base
    registration and on every change registration each owner group
    keeps its number, registration, tenancy, interest and number of
    owners, and its status is the same or PREVIOUS. Nothing but owner
    groups is written. *)
Theorem remove_groups_keeps_shape
    (self : MhrRegistration) (json_data : RegistrationJson) (new_reg_id : Z)
    (self' : MhrRegistration) :
  remove_groups self json_data new_reg_id = Ok self' ->
  Forall2 kept (owner_groups self) (owner_groups self')
  /\ Forall2 (fun reg reg' =>
                Forall2 kept (owner_groups reg) (owner_groups reg')
                /\ set_owner_groups reg' (owner_groups reg) = reg)
       (change_registrations self) (change_registrations self')
  /\ set_change_registrations (set_owner_groups self' (owner_groups self))
       (change_registrations self) = self.
Proof.
  unfold remove_groups.
  destruct (deleteOwnerGroups json_data) as [deletes|]; [|discriminate].
  simpl. intros [= <-]. split; [|split].
  - rewrite remove_groups_owner_groups.
    apply Forall2_fmap_r, Forall_Forall2_diag, Forall_forall.
    intros existing _. apply removed_by_kept, kept_refl.
  - rewrite remove_groups_change_registrations.
    apply Forall2_fmap_r, Forall_Forall2_diag, Forall_forall.
    intros reg _. simpl. rewrite owner_groups_set_owner_groups. split.
    + apply Forall2_fmap_r, Forall_Forall2_diag, Forall_forall.
      intros existing _. apply removed_by_kept, kept_refl.
    + by rewrite set_owner_groups_twice, set_owner_groups_same.
  - rewrite remove_groups_attributes. by destruct self.
Qed.

Lemma remove_groups_keeps_shape_witness :
  let self := TransferExample.after_first in
  exists self',
    remove_groups self TransferExample.second_transfer 3 = Ok self'
    /\ Forall2 kept (owner_groups self) (owner_groups self')
    /\ Forall2 (fun reg reg' =>
                  Forall2 kept (owner_groups reg) (owner_groups reg')
                  /\ set_owner_groups reg' (owner_groups reg) = reg)
         (change_registrations self) (change_registrations self')
    /\ set_change_registrations (set_owner_groups self' (owner_groups self))
         (change_registrations self) = self.
Proof.
  intros self. eexists. split; [reflexivity|].
  apply (remove_groups_keeps_shape self TransferExample.second_transfer 3).
  reflexivity.
Defined.

(** X6. [remove_groups] leaves alone every owner group whose number no
    delete instruction of the payload names, on the base registration
    and on every change registration: such a group is the same record
    before and after. *)
Theorem remove_groups_frame
    (self : MhrRegistration) (json_data : RegistrationJson) (new_reg_id : Z)
    (deletes : list GroupJson) (g : Z) :
  deleteOwnerGroups json_data = Some deletes ->
  Forall (fun d => groupId d <> Some g) deletes ->
  exists self',
    remove_groups self json_data new_reg_id = Ok self'
    /\ Forall2 (fun existing existing' => group_id existing = g -> existing' = existing)
         (owner_groups self) (owner_groups self')
    /\ Forall2 (fun reg reg' =>
                  Forall2 (fun existing existing' =>
                             group_id existing = g -> existing' = existing)
                    (owner_groups reg) (owner_groups reg'))
         (change_registrations self) (change_registrations self').
Proof.
  intros Hdeletes Hothers. eexists. unfold remove_groups. rewrite Hdeletes. simpl.
  split; [reflexivity|].
  assert (Hgroup : forall existing,
             group_id existing = g ->
             removed_by deletes new_reg_id (registrationType json_data) existing
             = existing).
  { intros existing <-. by apply removed_by_others. }
  split.
  - rewrite remove_groups_owner_groups.
    apply Forall2_fmap_r, Forall_Forall2_diag, Forall_forall.
    intros existing _ Hg. by apply Hgroup.
  - rewrite remove_groups_change_registrations.
    apply Forall2_fmap_r, Forall_Forall2_diag, Forall_forall.
    intros reg _. simpl. rewrite owner_groups_set_owner_groups.
    apply Forall2_fmap_r, Forall_Forall2_diag, Forall_forall.
    intros existing _ Hg. by apply Hgroup.
Qed.

Lemma remove_groups_frame_witness :
  let self := TransferExample.after_first in
  exists self',
    remove_groups self TransferExample.second_transfer 3 = Ok self'
    /\ Forall2 (fun existing existing' => group_id existing = 1 -> existing' = existing)
         (owner_groups self) (owner_groups self')
    /\ Forall2 (fun reg reg' =>
                  Forall2 (fun existing existing' =>
                             group_id existing = 1 -> existing' = existing)
                    (owner_groups reg) (owner_groups reg'))
         (change_registrations self) (change_registrations self').
Proof.
  apply (remove_groups_frame TransferExample.after_first TransferExample.second_transfer 3
           [TransferExample.sole_group 2 (TransferExample.person "JAMES SMITH" None None)] 1).
  - reflexivity.
  - constructor; [discriminate | constructor].
Defined.

(** ** The transition builders: outcome and errors *)

Section BuilderOutcome.
Context `{Collaborators}.
Variable reg_vals : GeneratedValues.
Variable now : Z.

(** X7. [create_change_from_json] fails with [KeyError] exactly when
    the registration type of the payload is missing or is no key of
    [REG_TO_DOC_TYPE]. Otherwise it returns an ACTIVE registration of
    that type for the MHR number of the base registration, with the
    generated id and no owner groups, notes or locations; its one
    document is attached to the base registration (not to the new one),
    and the payload it returns carries the document id of the
    registration: the one of the payload when it is not empty, else the
    generated one. The type of the document is the entry of the table,
    unless the payload overrides it: for REG_STAFF_ADMIN, which is also
    the type of a unit note (REG_NOTE), by its [documentType] and, when
    it has none, by the document type of its note; for TRANS by its
    [transferDocumentType]. *)
Theorem create_change_from_json_outcome
    (draft : option MhrDraft) (base_reg : MhrRegistration)
    (json_data : RegistrationJson) (account user : option string) :
  match registrationType json_data ≫= REG_TO_DOC_TYPE with
  | None =>
      create_change_from_json reg_vals now draft base_reg json_data account user
      = Err (KeyError "registrationType")
  | Some table_type =>
      exists registration json_data' doc,
        create_change_from_json reg_vals now draft base_reg json_data account user
        = Ok (registration, json_data')
        /\ Some (registration_type registration) = registrationType json_data
        /\ status_type registration = MhrRegistrationStatusTypes.ACTIVE
        /\ id registration = gen_id reg_vals
        /\ mhr_number registration = mhr_number base_reg
        /\ account_id registration = account
        /\ (owner_groups registration = [] /\ notes registration = []
            /\ locations registration = [])
        /\ documents registration = [doc]
        /\ doc_registration_id doc = id base_reg
        /\ doc_id registration = DocumentId (resolve_doc_id reg_vals json_data)
        /\ documentId json_data' = Some (resolve_doc_id reg_vals json_data)
        /\ doc_document_type doc
           = default table_type
               (match registrationType json_data with
                | Some MhrRegistrationTypes.REG_STAFF_ADMIN =>
                    match documentType json_data with
                    | Some t => Some t
                    | None => note_documentType <$> note json_data
                    end
                | Some MhrRegistrationTypes.TRANS => transferDocumentType json_data
                | _ => None
                end)
  end.
Proof.
  destruct json_data as [rt di dt tdt cr sp og ag dg lo nl de no am ex nr].
  unfold create_change_from_json. simpl.
  destruct rt as [reg_type|]; simpl; [|done].
  unfold reg_to_doc_type. simpl.
  destruct (REG_TO_DOC_TYPE reg_type) as [doc_type|] eqn:Htable; simpl; [|done].
  do 3 eexists. split; [reflexivity|]. simpl.
  repeat split; try done.
  destruct reg_type; try discriminate Htable; simpl; by destruct dt, no, tdt.
Qed.

Lemma registration_type_add_new_groups registration json_data existing_count :
  registration_type (add_new_groups registration json_data existing_count)
  = registration_type registration.
Proof. unfold add_new_groups. destruct (truthy_list _); by destruct registration. Qed.

Lemma documents_add_new_groups registration json_data existing_count :
  documents (add_new_groups registration json_data existing_count)
  = documents registration.
Proof. unfold add_new_groups. destruct (truthy_list _); by destruct registration. Qed.

(** X8. A transfer payload without registration type is filed as a
    TRANS registration: [create_transfer_from_json] succeeds, writes
    TRANS into the payload it returns, and gives the registration one
    document whose type is the [transferDocumentType] of the payload
    when there is one and TRAN otherwise. When the base registration
    has no owner groups no group is added, whatever [addOwnerGroups]
    holds. *)
Theorem create_transfer_from_json_default
    (draft : option MhrDraft) (base_reg : MhrRegistration)
    (json_data : RegistrationJson) (account user : option string) :
  registrationType json_data = None ->
  exists registration json_data',
    create_transfer_from_json reg_vals now draft base_reg json_data account user
    = Ok (registration, json_data')
    /\ registration_type registration = MhrRegistrationTypes.TRANS
    /\ registrationType json_data' = Some MhrRegistrationTypes.TRANS
    /\ doc_document_type <$> documents registration
       = [default MhrDocumentTypes.TRAN (transferDocumentType json_data)]
    /\ (owner_groups base_reg = [] -> owner_groups registration = []).
Proof.
  destruct json_data as [rt di dt tdt cr sp og ag dg lo nl de no am ex nr].
  simpl. intros ->.
  unfold create_transfer_from_json, create_change_from_json. simpl.
  destruct (owner_groups base_reg) as [|group groups]; do 2 eexists;
    (split; [reflexivity|]).
  - simpl. repeat split; try done. by destruct tdt, dt, no.
  - rewrite registration_type_add_new_groups, documents_add_new_groups. simpl.
    repeat split; try done. by destruct tdt, dt, no.
Qed.

(** What [create_permit_from_json] builds, for every payload. *)
Lemma create_permit_from_json_builds
    (draft : option MhrDraft) (base_reg : MhrRegistration)
    (json_data : RegistrationJson) (account user : option string) :
  exists registration json_data' permit_note,
    create_permit_from_json reg_vals now draft base_reg json_data account user
    = Ok (registration, json_data')
    /\ notes registration = [permit_note]
    /\ note_status_type permit_note = MhrNoteStatusTypes.ACTIVE
    /\ note_destroyed permit_note = "N"
    /\ note_registration_id permit_note = id base_reg
    /\ note_change_registration_id permit_note = gen_id reg_vals
    /\ note_document_type permit_note
       = (if amendment json_data then MhrDocumentTypes.AMEND_PERMIT
          else if extension json_data then MhrDocumentTypes.REG_103E
          else MhrDocumentTypes.REG_103)
    /\ (amendment json_data = false ->
        note_expiry_date permit_note = Some (compute_permit_expiry now))
    /\ note_remarks permit_note
       = (if negb (amendment json_data) && extension json_data
             && bool_decide (account = Some STAFF_ROLE)
             && truthy_str (note json_data ≫= remarks)
          then default "" (note json_data ≫= remarks) else "").
Proof.
  destruct json_data as [rt di dt tdt cr sp og ag dg lo nl de no am ex nr].
  unfold create_permit_from_json, create_change_from_json. simpl.
  destruct am, ex; simpl;
    try (destruct no as [n|]; simpl;
         [destruct (bool_decide (account = Some STAFF_ROLE)); simpl;
          [destruct (truthy_str (remarks n)); simpl|]|]);
    do 3 eexists; (split; [reflexivity|]);
    (split; [rewrite ?notes_set_notes; reflexivity|]);
    simpl; repeat split; try done; by rewrite ?andb_false_r.
Qed.

(** X9. A registration [create_permit_from_json] returns has exactly
    one note. The note is ACTIVE, not destroyed and attached to the base
    registration; its document type is AMEND_PERMIT for an amendment,
    else REG_103E for an extension, else REG_103 (the amendment flag has
    precedence over the extension flag). Unless the payload is an
    amendment the expiry is the freshly computed one, whatever permits
    the chain holds, and the remarks of the payload are kept only for an
    extension filed under the staff account. *)
Theorem create_permit_from_json_note
    (draft : option MhrDraft) (base_reg : MhrRegistration)
    (json_data : RegistrationJson) (account user : option string)
    (registration : MhrRegistration) (json_data' : RegistrationJson) :
  create_permit_from_json reg_vals now draft base_reg json_data account user
  = Ok (registration, json_data') ->
  exists permit_note,
    notes registration = [permit_note]
    /\ note_status_type permit_note = MhrNoteStatusTypes.ACTIVE
    /\ note_destroyed permit_note = "N"
    /\ note_registration_id permit_note = id base_reg
    /\ note_change_registration_id permit_note = gen_id reg_vals
    /\ note_document_type permit_note
       = (if amendment json_data then MhrDocumentTypes.AMEND_PERMIT
          else if extension json_data then MhrDocumentTypes.REG_103E
          else MhrDocumentTypes.REG_103)
    /\ (amendment json_data = false ->
        note_expiry_date permit_note = Some (compute_permit_expiry now))
    /\ note_remarks permit_note
       = (if negb (amendment json_data) && extension json_data
             && bool_decide (account = Some STAFF_ROLE)
             && truthy_str (note json_data ≫= remarks)
          then default "" (note json_data ≫= remarks) else "").
Proof.
  intros Hbuilt.
  destruct (create_permit_from_json_builds draft base_reg json_data account user)
    as (registration0 & json_data0 & permit_note & Hbuilt0 & Hnote).
  rewrite Hbuilt in Hbuilt0. injection Hbuilt0 as <- <-.
  by exists permit_note.
Qed.

(** X10. [create_new_from_json] reads the owner groups of the payload
    before its location. A payload without [ownerGroups] fails with
    [TypeError], whatever else it holds, and a payload without
    [location] never gives a registration: the builder fails, with the
    [TypeError] of the owner groups or with [KeyError] for the
    location. *)
Theorem create_new_from_json_errors
    (json_data : RegistrationJson) (draft : MhrDraft) (account user : option string) :
  (ownerGroups json_data = None ->
   create_new_from_json reg_vals now json_data draft account user = Err TypeError)
  /\ (location json_data = None ->
      exists e,
        create_new_from_json reg_vals now json_data draft account user = Err e
        /\ (e = TypeError \/ e = KeyError "location")).
Proof.
  destruct json_data as [rt di dt tdt cr sp og ag dg lo nl de no am ex nr].
  unfold create_new_from_json, create_new_groups, location_item. simpl.
  split.
  - by intros ->.
  - intros ->. destruct og as [groups|]; simpl; eexists; (split; [reflexivity|]);
      (by right) || (by left).
Qed.

End BuilderOutcome.

(** A unit note is filed: the registration has the type REG_NOTE and
    its document the type of the note. *)
Example create_change_from_json_unit_note :
  (let? built :=
     create_change_from_json (NewRegistrationExample.generated 4) 30 None
       TransferExample.base UnitNoteExample.payload
       TransferExample.account TransferExample.user in
   Ok (registration_type (fst built), doc_document_type <$> documents (fst built)))
  = Ok (MhrRegistrationTypes.REG_NOTE, [MhrDocumentTypes.CAUC]).
Proof. reflexivity. Qed.

Lemma create_new_from_json_errors_witness :
  create_new_from_json (NewRegistrationExample.generated 1) 0
    PayAndSaveExample.add_only NewRegistrationExample.draft
    TransferExample.account TransferExample.user
  = Err TypeError.
Proof.
  apply (create_new_from_json_errors (NewRegistrationExample.generated 1) 0
           PayAndSaveExample.add_only NewRegistrationExample.draft
           TransferExample.account TransferExample.user).
  reflexivity.
Defined.

Lemma create_transfer_from_json_default_witness :
  exists registration json_data',
    @create_transfer_from_json PermitExample.collaborators
      (NewRegistrationExample.generated 2) 10 None
      TransferExample.base PayAndSaveExample.add_only
      TransferExample.account TransferExample.user
    = Ok (registration, json_data')
    /\ registration_type registration = MhrRegistrationTypes.TRANS
    /\ registrationType json_data' = Some MhrRegistrationTypes.TRANS
    /\ doc_document_type <$> documents registration = [MhrDocumentTypes.TRAN]
    /\ (owner_groups TransferExample.base = [] -> owner_groups registration = []).
Proof.
  apply (@create_transfer_from_json_default PermitExample.collaborators
           (NewRegistrationExample.generated 2) 10 None
           TransferExample.base PayAndSaveExample.add_only
           TransferExample.account TransferExample.user).
  reflexivity.
Defined.

Lemma create_permit_from_json_note_witness :
  let built :=
    match @create_permit_from_json PermitExample.collaborators
            (NewRegistrationExample.generated 4) 400 None PermitExample.base
            PayAndSaveExample.add_only (Some "PS12345") (Some "userid") with
    | Ok built => built
    | Err _ => (PermitExample.base, PayAndSaveExample.add_only)
    end in
  exists permit_note,
    notes (fst built) = [permit_note]
    /\ note_status_type permit_note = MhrNoteStatusTypes.ACTIVE
    /\ note_destroyed permit_note = "N"
    /\ note_registration_id permit_note = 1
    /\ note_change_registration_id permit_note = 4
    /\ note_document_type permit_note = MhrDocumentTypes.REG_103
    /\ (false = false ->
        note_expiry_date permit_note = Some (400 + PermitExample.thirty_days))
    /\ note_remarks permit_note = "".
Proof.
  intros built.
  apply (@create_permit_from_json_note PermitExample.collaborators
           (NewRegistrationExample.generated 4) 400 None PermitExample.base
           PayAndSaveExample.add_only (Some "PS12345") (Some "userid")
           (fst built) (snd built)).
  reflexivity.
Defined.

(** ** Rescaling: the common denominator *)

Lemma common_denominator_fold tc_count common_denominator groups :
  foldl common_denominator_step (tc_count, common_denominator) groups
  = (tc_count + Z.of_nat (length (List.filter is_active_common groups)),
     common_denominator_from common_denominator groups).
Proof.
  revert tc_count common_denominator.
  induction groups as [|group groups IH]; intros tc_count common_denominator.
  - simpl. f_equal. lia.
  - simpl. unfold common_denominator_from. simpl.
    destruct (is_active_common group); rewrite IH; unfold common_denominator_from.
    + f_equal. simpl. lia.
    + done.
Qed.

Lemma common_denominator_from_cons common_denominator group groups :
  common_denominator_from common_denominator (group :: groups)
  = common_denominator_from
      (if is_active_common group then
         if common_denominator =? 0 then group_interest_denominator group
         else if common_denominator <? group_interest_denominator group
              then group_interest_denominator group
              else common_denominator
       else common_denominator) groups.
Proof. reflexivity. Qed.

(** The common denominator is not below a positive start, nor below the
    positive denominator of a group of ACTIVE tenants in common. *)
Lemma common_denominator_from_bound groups : forall common_denominator,
  (0 < common_denominator ->
   common_denominator <= common_denominator_from common_denominator groups)
  /\ Forall (fun group =>
               is_active_common group = true ->
               0 < group_interest_denominator group ->
               group_interest_denominator group
               <= common_denominator_from common_denominator groups) groups.
Proof.
  induction groups as [|group groups IH]; intros common_denominator; [by split|].
  rewrite common_denominator_from_cons.
  set (next := if is_active_common group then _ else _).
  destruct (IH next) as [Hstart Hrest]. split; [|constructor; [|exact Hrest]].
  - intros Hpos. subst next.
    destruct (is_active_common group); [|by apply Hstart].
    destruct (Z.eqb_spec common_denominator 0); [lia|].
    destruct (Z.ltb_spec common_denominator (group_interest_denominator group));
      etrans; [| apply Hstart | | apply Hstart]; lia.
  - intros Hactive Hden. subst next. rewrite Hactive in Hstart |- *.
    destruct (Z.eqb_spec common_denominator 0); [by apply Hstart|].
    destruct (Z.ltb_spec common_denominator (group_interest_denominator group));
      [by apply Hstart|].
    etrans; [|apply Hstart]; lia.
Qed.

(** It is the start or the denominator of one of those groups. *)
Lemma common_denominator_from_elem groups : forall common_denominator,
  common_denominator_from common_denominator groups = common_denominator
  \/ common_denominator_from common_denominator groups
     ∈ group_interest_denominator <$> List.filter is_active_common groups.
Proof.
  induction groups as [|group groups IH]; intros common_denominator; [by left|].
  rewrite common_denominator_from_cons. simpl.
  destruct (is_active_common group); [|apply IH].
  set (next := if common_denominator =? 0 then _ else _).
  destruct (IH next) as [-> | Hin].
  - subst next. destruct (common_denominator =? 0); [right; left|].
    destruct (common_denominator <? _); [right; left | by left].
  - right. simpl. by right.
Qed.

Lemma is_active_common_adjust_group new common_denominator group :
  is_active_common (adjust_group new common_denominator group) = is_active_common group.
Proof.
  unfold adjust_group.
  repeat match goal with |- context [if ?b then _ else _] => destruct b end;
    try done; by destruct group.
Qed.

Lemma adjust_group_rescalable new common_denominator group :
  (rescalable new group = true
   /\ group_interest_denominator (adjust_group new common_denominator group)
      = common_denominator)
  \/ (rescalable new group = false
      /\ adjust_group new common_denominator group = group).
Proof.
  unfold adjust_group, rescalable.
  destruct (new || _); simpl; [|by right].
  destruct (py_gt0 _); simpl; [|by right].
  destruct (Z.ltb_spec 0 (group_interest_denominator group)); simpl; [|by right].
  left. split; [done|].
  destruct (Z.eqb_spec (group_interest_denominator group) common_denominator); simpl;
    [done | by destruct group].
Qed.

Lemma adjust_group_twice new common_denominator group :
  adjust_group new common_denominator (adjust_group new common_denominator group)
  = adjust_group new common_denominator group.
Proof.
  unfold adjust_group at 2.
  destruct (new || _) eqn:Hlooked; [|unfold adjust_group; by rewrite Hlooked].
  destruct (py_gt0 _ && _) eqn:Hpositive;
    [|unfold adjust_group; by rewrite Hlooked, Hpositive].
  destruct (negb _) eqn:Hother;
    [|unfold adjust_group; by rewrite Hlooked, Hpositive, Hother].
  unfold adjust_group.
  replace (group_interest_denominator (set_group_interest group _ common_denominator))
    with common_denominator by (by destruct group).
  rewrite Z.eqb_refl. simpl.
  by repeat match goal with |- context [if ?b then _ else _] => destruct b end.
Qed.

(** Rescaling the groups to the common denominator does not move the
    common denominator. *)
Lemma common_denominator_from_adjusted new final groups :
  Forall (fun group =>
            is_active_common group = true ->
            0 < group_interest_denominator group ->
            group_interest_denominator group <= final) groups ->
  forall start start',
    start' = start \/ (start' = final /\ 0 < final) ->
    let after := common_denominator_from start groups in
    let after' := common_denominator_from start' (adjust_group new final <$> groups) in
    after' = after \/ (after' = final /\ 0 < final).
Proof.
  induction 1 as [|group groups Hgroup _ IH]; intros start start' Hstart; [done|].
  cbv zeta. rewrite fmap_cons, !common_denominator_from_cons, is_active_common_adjust_group.
  apply IH.
  destruct (is_active_common group) eqn:Hactive; [|done].
  specialize (Hgroup eq_refl).
  destruct (adjust_group_rescalable new final group) as [[Hres ->] | [_ ->]].
  - unfold rescalable in Hres. apply andb_prop in Hres as [_ Hden%Z.ltb_lt].
    specialize (Hgroup Hden).
    destruct Hstart as [-> | [-> Hpos]].
    + destruct (Z.eqb_spec start 0); [right; lia|].
      destruct (Z.ltb_spec start final),
               (Z.ltb_spec start (group_interest_denominator group)); lia.
    + right. rewrite Z.ltb_irrefl.
      destruct (Z.eqb_spec final 0); lia.
  - destruct Hstart as [-> | [-> Hpos]]; [by left|].
    right.
    destruct (Z.eqb_spec final 0); [lia|].
    destruct (Z.ltb_spec final (group_interest_denominator group)); [|done].
    destruct (Z.ltb_spec 0 (group_interest_denominator group)); lia.
Qed.

Lemma filter_active_common_adjusted new final groups :
  List.filter is_active_common (adjust_group new final <$> groups)
  = adjust_group new final <$> List.filter is_active_common groups.
Proof.
  induction groups as [|group groups IH]; [done|].
  rewrite fmap_cons. cbn [List.filter]. rewrite is_active_common_adjust_group.
  destruct (is_active_common group); [rewrite fmap_cons|]; by rewrite IH.
Qed.

(** [adjust_group_interest] with its first loop evaluated. *)
Lemma adjust_group_interest_unfold self new :
  adjust_group_interest self new
  = if 0 <? Z.of_nat (length (List.filter is_active_common (owner_groups self)))
    then set_owner_groups self
           (adjust_group new (common_denominator_from 0 (owner_groups self))
              <$> owner_groups self)
    else self.
Proof.
  unfold adjust_group_interest. by rewrite common_denominator_fold, Z.add_0_l.
Qed.

(** X11. [adjust_group_interest] is idempotent: rescaling a registration
    that has been rescaled (with the same [new]) changes nothing, since
    the common denominator of the rescaled groups is the one they have
    been given. *)
Theorem adjust_group_interest_idempotent (self : MhrRegistration) (new : bool) :
  adjust_group_interest (adjust_group_interest self new) new
  = adjust_group_interest self new.
Proof.
  rewrite (adjust_group_interest_unfold self).
  set (final := common_denominator_from 0 (owner_groups self)).
  destruct (0 <? _) eqn:Hsome.
  - rewrite adjust_group_interest_unfold, owner_groups_set_owner_groups.
    rewrite filter_active_common_adjusted, length_fmap, Hsome.
    assert (Hfinal : common_denominator_from 0 (adjust_group new final <$> owner_groups self)
                     = final).
    { destruct (common_denominator_from_adjusted new final (owner_groups self)
                  (proj2 (common_denominator_from_bound (owner_groups self) 0))
                  0 0 (or_introl eq_refl)) as [Hsame | [Hsame _]]; exact Hsame. }
    rewrite Hfinal, set_owner_groups_twice. f_equal.
    rewrite <- list_fmap_compose. apply list_fmap_ext.
    intros i group _. apply adjust_group_twice.
  - by rewrite adjust_group_interest_unfold, Hsome.
Qed.

(** X12. When some group of ACTIVE tenants in common has a positive
    denominator, [adjust_group_interest] gives every group it looks at
    and finds with a positive numerator and denominator (with [new] set:
    every such group, whatever its tenancy and status) one and the same
    denominator: the largest denominator of the groups of ACTIVE tenants
    in common, not their least common multiple. Every other group is
    left as it is. *)
Theorem adjust_group_interest_largest (self : MhrRegistration) (new : bool) :
  Exists (fun group => is_active_common group = true
                       /\ 0 < group_interest_denominator group) (owner_groups self) ->
  exists largest,
    largest ∈ group_interest_denominator <$> List.filter is_active_common (owner_groups self)
    /\ Forall (fun group => is_active_common group = true ->
                            group_interest_denominator group <= largest)
         (owner_groups self)
    /\ Forall2 (fun group group' =>
                  if rescalable new group
                  then group_interest_denominator group' = largest
                  else group' = group)
         (owner_groups self) (owner_groups (adjust_group_interest self new)).
Proof.
  intros Hsome. exists (common_denominator_from 0 (owner_groups self)).
  set (final := common_denominator_from 0 (owner_groups self)).
  destruct (common_denominator_from_bound (owner_groups self) 0) as [_ Hbound].
  fold final in Hbound.
  assert (Hpos : 0 < final).
  { apply Exists_exists in Hsome as (group & Hin & Hactive & Hden).
    rewrite Forall_forall in Hbound. specialize (Hbound group Hin Hactive Hden). lia. }
  split; [|split].
  - destruct (common_denominator_from_elem (owner_groups self) 0) as [Hzero | Hin];
      [fold final in Hzero; lia | exact Hin].
  - eapply Forall_impl; [exact Hbound|]. simpl. intros group Hgroup Hactive.
    destruct (Z.ltb_spec 0 (group_interest_denominator group)); [by apply Hgroup | lia].
  - rewrite adjust_group_interest_unfold. fold final.
    assert (Hcount : (0 <? Z.of_nat (length (List.filter is_active_common (owner_groups self))))
                     = true).
    { apply Z.ltb_lt. apply Exists_exists in Hsome as (group & Hin & Hactive & _).
      assert (Hin' : group ∈ List.filter is_active_common (owner_groups self)).
      { apply list_elem_of_In, List.filter_In. split; [by apply list_elem_of_In | done]. }
      destruct (List.filter is_active_common (owner_groups self)); [inversion Hin'|].
      simpl. lia. }
    rewrite Hcount, owner_groups_set_owner_groups.
    apply Forall2_fmap_r, Forall_Forall2_diag, Forall_forall. intros group _.
    by destruct (adjust_group_rescalable new final group) as [[-> ?] | [-> ?]].
Qed.

Lemma adjust_group_interest_largest_witness :
  exists largest,
    largest ∈ group_interest_denominator
                <$> List.filter is_active_common (owner_groups InterestExample.half_and_third)
    /\ Forall (fun group => is_active_common group = true ->
                            group_interest_denominator group <= largest)
         (owner_groups InterestExample.half_and_third)
    /\ Forall2 (fun group group' =>
                  if rescalable true group
                  then group_interest_denominator group' = largest
                  else group' = group)
         (owner_groups InterestExample.half_and_third)
         (owner_groups (adjust_group_interest InterestExample.half_and_third true)).
Proof.
  apply (adjust_group_interest_largest InterestExample.half_and_third true).
  apply Exists_cons_hd. split; [reflexivity | reflexivity].
Defined.

(** ** Lookups *)

Section LookupProperties.
Context `{Collaborators}.
Variable db : Store.

(** X13. [find_original_by_mhr_number] and [find_by_mhr_number] are the
    same lookup when the latter is called without a registration type
    or with MHREG: the same registration or the same error for every
    store, number, account and staff flag. *)
Theorem find_original_by_mhr_number_same
    (mhr_num : string) (account : option string) (staff : bool) :
  find_original_by_mhr_number db mhr_num account staff
  = find_by_mhr_number db mhr_num account staff None
  /\ find_original_by_mhr_number db mhr_num account staff
     = find_by_mhr_number db mhr_num account staff (Some MhrRegistrationTypes.MHREG).
Proof.
  assert (Hrows : forall rows,
             List.filter
               (fun row =>
                  String.eqb (mhr_number row) (format_mhr_number mhr_num)
                  && one_of (registration_type row) [REG_TYPE; CONV_TYPE]) rows
             = List.filter (selects (format_mhr_number mhr_num) REG_TYPE) rows).
  { intros rows. apply List.filter_ext. intros row. unfold selects.
    by rewrite (bool_decide_eq_true_2 (REG_TYPE = MhrRegistrationTypes.MHREG)). }
  unfold find_original_by_mhr_number, find_by_mhr_number. simpl.
  by rewrite Hrows.
Qed.

(** X14. When the query of [find_by_mhr_number] matches more than one
    row (two base registrations on record for the number, say),
    [one_or_none] raises and the lookup fails with a
    [DatabaseException], not with the not-found error and whatever the
    account and the staff flag are; [find_all_by_mhr_number] fails the
    same way. *)
Theorem find_by_mhr_number_ambiguous
    (mhr_num : string) (account : option string) (staff : bool)
    (reg_type : option MhrRegistrationTypes.t)
    (row1 row2 : MhrRegistration) (rows : list MhrRegistration) :
  format_mhr_number mhr_num <> "" ->
  List.filter (selects (format_mhr_number mhr_num) (default REG_TYPE reg_type))
    (mhr_registrations db) = row1 :: row2 :: rows ->
  find_by_mhr_number db mhr_num account staff reg_type
  = Err (DatabaseException MultipleResultsFound)
  /\ (reg_type = None ->
      find_all_by_mhr_number db mhr_num account staff
      = Err (DatabaseException MultipleResultsFound)).
Proof.
  intros Hne Hrows.
  assert (Hfind : find_by_mhr_number db mhr_num account staff reg_type
                  = Err (DatabaseException MultipleResultsFound)).
  { unfold find_by_mhr_number. simpl.
    by rewrite (proj2 (String.eqb_neq _ _) Hne), Hrows. }
  split; [exact Hfind|]. intros ->.
  unfold find_all_by_mhr_number. by rewrite Hfind.
Qed.

#[local] Instance not_later_total : Total not_later.
Proof. intros a b. unfold not_later. lia. Qed.

#[local] Instance not_later_trans : Transitive not_later.
Proof. intros a b c. unfold not_later. lia. Qed.

(** X15. The chain [find_all_by_mhr_number] attaches to the base
    registration is in registration order (no member is later than one
    that follows it) and holds exactly the rows on record for the
    formatted MHR number whose type is neither MHREG nor
    MHREG_CONVERSION, each as often as it is on record. *)
Theorem find_all_by_mhr_number_chain
    (mhr_num : string) (account : option string) (staff : bool)
    (base_reg : MhrRegistration) :
  find_all_by_mhr_number db mhr_num account staff = Ok base_reg ->
  StronglySorted not_later (change_registrations base_reg)
  /\ change_registrations base_reg
     ≡ₚ List.filter (is_change_of (format_mhr_number mhr_num)) (mhr_registrations db)
  /\ Forall (fun reg =>
               mhr_number reg = format_mhr_number mhr_num
               /\ registration_type reg <> MhrRegistrationTypes.MHREG
               /\ registration_type reg <> MhrRegistrationTypes.MHREG_CONVERSION)
       (change_registrations base_reg).
Proof.
  unfold find_all_by_mhr_number.
  destruct (find_by_mhr_number db mhr_num account staff None) as [root|]; [|discriminate].
  simpl. intros [= <-]. rewrite change_registrations_set_change_registrations.
  unfold order_by_registration_ts. split; [|split].
  - apply StronglySorted_merge_sort; apply _.
  - apply merge_sort_Permutation.
  - rewrite merge_sort_Permutation. apply Forall_forall. intros reg Hin.
    apply list_elem_of_In, List.filter_In in Hin as [_ Hchange].
    unfold is_change_of in Hchange.
    apply andb_prop in Hchange as [Hnum Htype]. split; [by apply String.eqb_eq|].
    unfold one_of in Htype. apply negb_true_iff, bool_decide_eq_false in Htype.
    split; intros Heq; apply Htype; rewrite Heq;
      [apply list_elem_of_here | apply list_elem_of_further, list_elem_of_here].
Qed.

End LookupProperties.

Lemma find_by_mhr_number_ambiguous_witness :
  let H := PermitExample.collaborators in
  find_by_mhr_number AmbiguousExample.store "000900" (Some "PS12345") false None
  = Err (DatabaseException MultipleResultsFound)
  /\ (@None MhrRegistrationTypes.t = None ->
      find_all_by_mhr_number AmbiguousExample.store "000900" (Some "PS12345") false
      = Err (DatabaseException MultipleResultsFound)).
Proof.
  intros H.
  apply (@find_by_mhr_number_ambiguous H AmbiguousExample.store "000900"
           (Some "PS12345") false None LookupExample.root AmbiguousExample.converted []).
  - discriminate.
  - reflexivity.
Defined.

Lemma find_all_by_mhr_number_chain_witness :
  let H := PermitExample.collaborators in
  let base_reg :=
    set_change_registrations (with_doc_id LookupExample.root)
      [CautionExample.earlier; CautionExample.later] in
  StronglySorted not_later (change_registrations base_reg)
  /\ change_registrations base_reg
     ≡ₚ List.filter (is_change_of "000900") (mhr_registrations LookupExample.store)
  /\ Forall (fun reg =>
               mhr_number reg = "000900"
               /\ registration_type reg <> MhrRegistrationTypes.MHREG
               /\ registration_type reg <> MhrRegistrationTypes.MHREG_CONVERSION)
       (change_registrations base_reg).
Proof.
  intros H base_reg.
  apply (@find_all_by_mhr_number_chain H LookupExample.store "000900"
           (Some "PS12345") false base_reg).
  reflexivity.
Defined.

(** ** Party types and document types *)


(** X17. [REG_TO_DOC_TYPE] gives different registration types different
    document types (REG_NOTE being the type REG_STAFF_ADMIN under
    another name, not a key of its own), and [is_transfer] holds exactly
    for the registrations whose type it maps to one of the transfer
    documents TRAN, DEAT, AFFE, LETA and WILL. *)
Theorem reg_to_doc_type_transfers :
  (forall t1 t2 d,
     REG_TO_DOC_TYPE t1 = Some d -> REG_TO_DOC_TYPE t2 = Some d -> t1 = t2)
  /\ (forall self,
        is_transfer self = true
        <-> exists d,
              REG_TO_DOC_TYPE (registration_type self) = Some d
              /\ d ∈ [MhrDocumentTypes.TRAN; MhrDocumentTypes.DEAT; MhrDocumentTypes.AFFE;
                      MhrDocumentTypes.LETA; MhrDocumentTypes.WILL]).
Proof.
  split.
  - intros t1 t2 d H1 H2. destruct t1; simpl in H1; try discriminate;
      injection H1 as <-; destruct t2; simpl in H2; by try discriminate.
  - intros self.
    assert (Htable : is_transfer self
                     = match REG_TO_DOC_TYPE (registration_type self) with
                       | Some d =>
                           one_of d [MhrDocumentTypes.TRAN; MhrDocumentTypes.DEAT;
                                     MhrDocumentTypes.AFFE; MhrDocumentTypes.LETA;
                                     MhrDocumentTypes.WILL]
                       | None => false
                       end).
    { unfold is_transfer. by destruct (registration_type self). }
    rewrite Htable. destruct (REG_TO_DOC_TYPE _) as [d|]; split.
    + intros Hin%bool_decide_eq_true. by exists d.
    + intros (d' & [= <-] & Hin). by apply bool_decide_eq_true.
    + done.
    + by intros (d' & Hd & _).
Qed.

(** ** Paying and saving: what a failure leaves behind

    In each statement the token of the user gives a name to affirm the
    registration, [get_affirmby token_info = Ok name]: the call of
    [get_affirmby] is the first thing a pay-and-save function does. *)

Section PayAndSaveFailures.
Context `{Collaborators} `{Services}.

(** X18. [pay_and_save_transfer] is not atomic. For a user whose token
    gives the affirming name: when the transfer registration has been
    committed and the commit of [save_transfer], which supersedes the
    owner groups of the base registration, fails, the payment is
    refunded (for a caller with an account) and the error comes back as
    a [DatabaseException]; the first commit is not taken back. *)
Theorem transfer_refunded_after_commit
    (token_info : token) (name : string)
    (current_reg : MhrRegistration) (request_json : RegistrationJson)
    (account user_group : option string) (trans_type : string)
    (pay_ref : PayRef) (invoice : Z)
    (registration : MhrRegistration) (json_data' : RegistrationJson)
    (deletes : list GroupJson) (e : exn) :
  get_affirmby token_info = Ok name ->
  create_payment (is_reg_staff_account account) = Ok pay_ref ->
  ccPayment pay_ref = false ->
  invoiceId pay_ref = Some invoice ->
  create_transfer_from_json next_values clock find_draft current_reg
    (match registrationType request_json with
     | Some _ => request_json
     | None => set_registrationType request_json MhrRegistrationTypes.TRANS
     end) account (token_get token_info "username" None)
  = Ok (registration, json_data') ->
  0 < id current_reg ->
  owner_groups current_reg <> [] ->
  deleteOwnerGroups json_data' = Some deletes ->
  commit_outcome 0 = None ->
  commit_outcome 1 = Some e ->
  (forall e', cancel_payment invoice = Some e' -> exists msg, e' = SBCPaymentException msg) ->
  let paid :=
    [PaymentRequested (is_reg_staff_account account) trans_type (mhr_number current_reg)] in
  let filed := set_payment registration (Some invoice) (Some (receipt pay_ref)) in
  pay_and_save_transfer token_info current_reg request_json account user_group
    trans_type []
  = (paid ++ [SessionAdd (id filed); SessionCommit; SessionCommit]
       ++ (if truthy_str account then [PaymentCancelled invoice] else []),
     Err (DatabaseException e)).
Proof.
  intros Hname Hpay Hcc Hinvoice Hbuilt Hid Hgroups Hdeletes Hfirst Hsecond Hcancel paid filed.
  unfold pay_and_save_transfer, pay, bind, lift, emit, try_except.
  rewrite Hname. simpl. rewrite Hpay, Hcc, Hbuilt, Hinvoice. simpl.
  fold filed. unfold save, bind, emit, session_commit, commits_so_far. simpl.
  rewrite Hfirst. simpl.
  rewrite (proj2 (Z.ltb_lt _ _) Hid), (bool_decide_eq_true_2 _ Hgroups). simpl.
  unfold save_transfer_commit, bind, lift, save_transfer, remove_groups, session_commit,
    commits_so_far.
  rewrite Hdeletes. simpl. rewrite Hsecond.
  by rewrite (refund_and_raise_run _ _ _ _ Hcancel).
Qed.

(** X19. A transfer payload without [deleteOwnerGroups], filed by a user
    whose token gives the affirming name against a base registration
    that has owner groups, is paid for and its registration is committed
    before [remove_groups] raises the [TypeError]: the payment is then
    refunded (for a caller with an account), the caller gets a
    [DatabaseException] that carries the [TypeError], and the committed
    registration stays. *)
Theorem transfer_without_delete_groups
    (token_info : token) (name : string)
    (current_reg : MhrRegistration) (request_json : RegistrationJson)
    (account user_group : option string) (trans_type : string)
    (pay_ref : PayRef) (invoice : Z)
    (registration : MhrRegistration) (json_data' : RegistrationJson) :
  get_affirmby token_info = Ok name ->
  create_payment (is_reg_staff_account account) = Ok pay_ref ->
  ccPayment pay_ref = false ->
  invoiceId pay_ref = Some invoice ->
  create_transfer_from_json next_values clock find_draft current_reg
    (match registrationType request_json with
     | Some _ => request_json
     | None => set_registrationType request_json MhrRegistrationTypes.TRANS
     end) account (token_get token_info "username" None)
  = Ok (registration, json_data') ->
  0 < id current_reg ->
  owner_groups current_reg <> [] ->
  deleteOwnerGroups json_data' = None ->
  commit_outcome 0 = None ->
  (forall e', cancel_payment invoice = Some e' -> exists msg, e' = SBCPaymentException msg) ->
  let paid :=
    [PaymentRequested (is_reg_staff_account account) trans_type (mhr_number current_reg)] in
  let filed := set_payment registration (Some invoice) (Some (receipt pay_ref)) in
  pay_and_save_transfer token_info current_reg request_json account user_group
    trans_type []
  = (paid ++ [SessionAdd (id filed); SessionCommit]
       ++ (if truthy_str account then [PaymentCancelled invoice] else []),
     Err (DatabaseException TypeError)).
Proof.
  intros Hname Hpay Hcc Hinvoice Hbuilt Hid Hgroups Hdeletes Hfirst Hcancel paid filed.
  unfold pay_and_save_transfer, pay, bind, lift, emit, try_except.
  rewrite Hname. simpl. rewrite Hpay, Hcc, Hbuilt, Hinvoice. simpl.
  fold filed. unfold save, bind, emit, session_commit, commits_so_far. simpl.
  rewrite Hfirst. simpl.
  rewrite (proj2 (Z.ltb_lt _ _) Hid), (bool_decide_eq_true_2 _ Hgroups). simpl.
  unfold save_transfer_commit, bind, lift, save_transfer, remove_groups.
  rewrite Hdeletes. simpl.
  by rewrite (refund_and_raise_run _ _ _ _ Hcancel).
Qed.

(** X20. The handler of the pay-and-save functions swallows a failure of
    the refund only when it is an [SBCPaymentException]. For a user
    whose token gives the affirming name: when the store fails and
    [cancel_payment] then raises any other exception, the caller of
    [pay_and_save_registration] gets that exception: the store error is
    not reported and no [DatabaseException] is raised. *)
Theorem refund_failure_masks_store_error
    (token_info : token) (name : string)
    (request_json : RegistrationJson) (account user_group : option string)
    (trans_type : string)
    (draft : MhrDraft) (pay_ref : PayRef) (invoice : Z)
    (registration : MhrRegistration) (json_data' : RegistrationJson) (e e' : exn) :
  get_affirmby token_info = Ok name ->
  create_draft = Ok draft ->
  create_payment (is_reg_staff_account account) = Ok pay_ref ->
  ccPayment pay_ref = false ->
  invoiceId pay_ref = Some invoice ->
  create_new_from_json next_values clock
    (set_registrationType request_json MhrRegistrationTypes.MHREG)
    draft account (token_get token_info "username" None)
  = Ok (registration, json_data') ->
  commit_outcome 0 = Some e ->
  truthy_str account = true ->
  cancel_payment invoice = Some e' ->
  (forall msg, e' <> SBCPaymentException msg) ->
  let paid :=
    [DraftSaved (draft_mhr_number draft);
     PaymentRequested (is_reg_staff_account account) trans_type (draft_mhr_number draft)] in
  let filed := set_payment registration (Some invoice) (Some (receipt pay_ref)) in
  pay_and_save_registration token_info request_json account user_group trans_type []
  = (paid ++ [SessionAdd (id filed); SessionCommit; PaymentCancelled invoice], Err e').
Proof.
  intros Hname Hdraft Hpay Hcc Hinvoice Hbuilt Hcommit Haccount Hcancel Hother paid filed.
  unfold pay_and_save_registration, pay, bind, lift, emit, try_except.
  rewrite Hname, Hdraft. simpl. rewrite Hpay, Hcc, Hbuilt, Hinvoice. simpl.
  fold filed. unfold save, bind, emit, session_commit, commits_so_far. simpl.
  rewrite Hcommit.
  unfold refund_and_raise, bind, try_except, cancel, emit, raise, ret.
  rewrite Haccount. simpl. rewrite Hcancel.
  destruct e'; try done. by destruct (Hother msg).
Qed.

(** X21. When the token of the user gives the affirming name and the
    payment service answers with a credit card payment reference, the
    pay-and-save functions hand over to the credit card draft helper
    and stop: no builder is run (the owner groups and the
    location of the payload are not looked at), and they add nothing to
    the session, commit nothing and refund nothing themselves.  The
    helper gets the payload with the payment reference, the account,
    the user name of the token and the user group, an empty string
    standing for a missing name or group.  The call is outside the
    [try]: an exception of the helper reaches the caller as it is, and
    the payment is not cancelled. *)
Theorem credit_card_payment_keeps_draft
    (token_info : token) (name : string)
    (current_reg : MhrRegistration) (request_json : RegistrationJson)
    (account user_group : option string) (trans_type : string)
    (draft : MhrDraft) (pay_ref : PayRef) :
  get_affirmby token_info = Ok name ->
  create_draft = Ok draft ->
  create_payment (is_reg_staff_account account) = Ok pay_ref ->
  ccPayment pay_ref = true ->
  let username := token_get token_info "username" None in
  pay_and_save_registration token_info request_json account user_group trans_type []
  = ([DraftSaved (draft_mhr_number draft);
      PaymentRequested (is_reg_staff_account account) trans_type (draft_mhr_number draft);
      CcDraftSaved],
     match save_new_cc_draft
             (setup_cc_draft
                (set_registrationType request_json MhrRegistrationTypes.MHREG)
                pay_ref account username user_group) draft with
     | None => Ok CcPending
     | Some e => Err e
     end)
  /\ pay_and_save_transfer token_info current_reg request_json account user_group
       trans_type []
     = ([PaymentRequested (is_reg_staff_account account) trans_type (mhr_number current_reg);
         CcDraftSaved],
        match save_change_cc_draft current_reg
                (setup_cc_draft
                   (match registrationType request_json with
                    | Some _ => request_json
                    | None =>
                        set_registrationType request_json MhrRegistrationTypes.TRANS
                    end) pay_ref account username user_group) with
        | Ok current_reg' => Ok (CcPending, current_reg')
        | Err e => Err e
        end).
Proof.
  intros Hname Hdraft Hpay Hcc username. split.
  - unfold pay_and_save_registration, pay, bind, lift, emit, ret, raise.
    rewrite Hname, Hdraft. simpl. rewrite Hpay, Hcc. simpl.
    by destruct (save_new_cc_draft _ _).
  - unfold pay_and_save_transfer, pay, bind, lift, emit, ret.
    rewrite Hname. simpl. rewrite Hpay, Hcc. simpl.
    by destruct (save_change_cc_draft _ _).
Qed.

End PayAndSaveFailures.

Lemma transfer_refunded_after_commit_witness :
  let C := PermitExample.collaborators in
  let S := PayAndSaveExample.services PaymentExample.pay_ref None
             PayAndSaveExample.second_commit_fails (NewRegistrationExample.generated 2) 10 in
  pay_and_save_transfer PayAndSaveExample.user_token
    TransferExample.base TransferExample.first_transfer
    (Some "PS12345") (Some "ppr_staff") "TRANS" []
  = ([PaymentRequested false "TRANS" "000900"; SessionAdd 2; SessionCommit; SessionCommit;
      PaymentCancelled 9001],
     Err (DatabaseException PaymentExample.connection_lost)).
Proof.
  intros C S.
  apply (@transfer_refunded_after_commit C S
           PayAndSaveExample.user_token "James Smith"
           TransferExample.base TransferExample.first_transfer
           (Some "PS12345") (Some "ppr_staff") "TRANS" PaymentExample.pay_ref 9001
           (fst (PayAndSaveExample.built TransferExample.first_transfer))
           (snd (PayAndSaveExample.built TransferExample.first_transfer))
           [TransferExample.delete_jane] PaymentExample.connection_lost).
  - reflexivity.
  - reflexivity.
  - reflexivity.
  - reflexivity.
  - reflexivity.
  - reflexivity.
  - intros Hnone. vm_compute in Hnone. discriminate Hnone.
  - reflexivity.
  - reflexivity.
  - reflexivity.
  - intros e' Hcancel. discriminate Hcancel.
Defined.

Lemma transfer_without_delete_groups_witness :
  let C := PermitExample.collaborators in
  let S := PayAndSaveExample.services PaymentExample.pay_ref None
             (fun _ => None) (NewRegistrationExample.generated 2) 10 in
  pay_and_save_transfer PayAndSaveExample.user_token
    TransferExample.base PayAndSaveExample.add_only
    (Some "PS12345") (Some "ppr_staff") "TRANS" []
  = ([PaymentRequested false "TRANS" "000900"; SessionAdd 2; SessionCommit;
      PaymentCancelled 9001],
     Err (DatabaseException TypeError)).
Proof.
  intros C S.
  apply (@transfer_without_delete_groups C S
           PayAndSaveExample.user_token "James Smith"
           TransferExample.base PayAndSaveExample.add_only
           (Some "PS12345") (Some "ppr_staff") "TRANS" PaymentExample.pay_ref 9001
           (fst (PayAndSaveExample.built PayAndSaveExample.add_only))
           (snd (PayAndSaveExample.built PayAndSaveExample.add_only))).
  - reflexivity.
  - reflexivity.
  - reflexivity.
  - reflexivity.
  - reflexivity.
  - reflexivity.
  - intros Hnone. vm_compute in Hnone. discriminate Hnone.
  - reflexivity.
  - reflexivity.
  - intros e' Hcancel. discriminate Hcancel.
Defined.

Lemma refund_failure_masks_store_error_witness :
  let S := PayAndSaveExample.services PaymentExample.pay_ref (Some TypeError)
             (fun _ => Some PaymentExample.connection_lost)
             (NewRegistrationExample.generated 1) 0 in
  pay_and_save_registration PaymentExample.user_token
    NewRegistrationExample.payload (Some "PS12345") (Some "ppr_staff") "MHREG" []
  = ([DraftSaved "000900"; PaymentRequested false "MHREG" "000900";
      SessionAdd 1; SessionCommit; PaymentCancelled 9001],
     Err TypeError).
Proof.
  intros S.
  apply (@refund_failure_masks_store_error S
           PaymentExample.user_token "Jane Smith"
           NewRegistrationExample.payload (Some "PS12345") (Some "ppr_staff") "MHREG"
           NewRegistrationExample.draft PaymentExample.pay_ref 9001
           (fst PaymentExample.built) (snd PaymentExample.built)
           PaymentExample.connection_lost TypeError).
  - reflexivity.
  - reflexivity.
  - reflexivity.
  - reflexivity.
  - reflexivity.
  - reflexivity.
  - reflexivity.
  - reflexivity.
  - reflexivity.
  - intros msg Hsbc. discriminate Hsbc.
Defined.

Lemma credit_card_payment_keeps_draft_witness :
  let C := PermitExample.collaborators in
  let S := PayAndSaveExample.services PayAndSaveExample.card_ref None
             (fun _ => None) (NewRegistrationExample.generated 2) 10 in
  pay_and_save_registration PayAndSaveExample.user_token
    PayAndSaveExample.add_only (Some "PS12345") None "MHREG" []
  = ([DraftSaved "000900"; PaymentRequested false "MHREG" "000900"; CcDraftSaved],
     Ok CcPending)
  /\ pay_and_save_transfer PayAndSaveExample.user_token
       TransferExample.base PayAndSaveExample.add_only
       (Some "PS12345") None "MHREG" []
     = ([PaymentRequested false "MHREG" "000900"; CcDraftSaved],
        Ok (CcPending, TransferExample.base)).
Proof.
  intros C S.
  apply (@credit_card_payment_keeps_draft C S
           PayAndSaveExample.user_token "James Smith"
           TransferExample.base PayAndSaveExample.add_only
           (Some "PS12345") None "MHREG"
           NewRegistrationExample.draft PayAndSaveExample.card_ref);
    reflexivity.
Defined.

(** ** The affirming name *)

(** X22. In [get_affirmby] the claims [given_name] and [family_name]
    have precedence: when both are strings that are not empty the
    result is the given name, a blank and the family name, whatever
    [firstname] and [lastname] hold (null included). *)
Theorem get_affirmby_names (t : token) (given family : string) :
  token_get t "given_name" None = Some given ->
  given <> "" ->
  token_get t "family_name" None = Some family ->
  family <> "" ->
  get_affirmby t = Ok ((given +:+ " ") +:+ family).
Proof.
  intros Hgiven Hg Hfamily Hf. unfold get_affirmby.
  rewrite Hgiven, Hfamily. simpl.
  by rewrite (proj2 (String.eqb_neq _ _) Hg), (proj2 (String.eqb_neq _ _) Hf).
Qed.

Lemma get_affirmby_names_witness :
  get_affirmby TokenExample.both = Ok "Jane Smith".
Proof.
  apply (get_affirmby_names TokenExample.both "Jane" "Smith");
    reflexivity || discriminate.
Defined.

(** X23. [get_affirmby] fails in one way only, with [TypeError], and
    exactly when a fallback claim is consulted and is null: [given_name]
    is missing, null or empty and [firstname] is present with the value
    null, or the same for [family_name] and [lastname]. A claim that is
    absent altogether does not make it fail. *)
Theorem get_affirmby_type_error (t : token) (e : exn) :
  get_affirmby t = Err e
  <-> e = TypeError
      /\ ((truthy_str (token_get t "given_name" None) = false
           /\ token_get t "firstname" (Some "") = None)
          \/ (truthy_str (token_get t "family_name" None) = false
              /\ token_get t "lastname" (Some "") = None)).
Proof.
  assert (Hchosen : forall primary fallback : option string,
             (if negb (truthy_str primary) then fallback else primary) = None
             <-> truthy_str primary = false /\ fallback = None).
  { intros primary fallback. destruct (truthy_str primary) eqn:Htruthy; simpl.
    - destruct primary; [|discriminate Htruthy]. split; [done | by intros [? _]].
    - split; [done | by intros [_ ?]]. }
  unfold get_affirmby.
  rewrite <- (Hchosen (token_get t "given_name" None)),
          <- (Hchosen (token_get t "family_name" None)).
  destruct (if negb (truthy_str (token_get t "given_name" None)) then _ else _),
           (if negb (truthy_str (token_get t "family_name" None)) then _ else _);
    simpl; split;
    try (intros Herr; discriminate Herr);
    try (intros Herr; injection Herr as <-; split; [done|]; (by left) || (by right));
    intros [-> [Hnone | Hnone]]; by try discriminate Hnone.
Qed.

Lemma append_empty (s1 s2 : string) : s1 +:+ s2 = "" -> s1 = "" /\ s2 = "".
Proof. by destruct s1. Qed.

(** X24. The name [get_affirmby] returns is never empty: it always holds
    the blank between the two names, and for a token without any of the
    four claims it is that blank alone. *)
Theorem get_affirmby_not_empty (t : token) (name : string) :
  get_affirmby t = Ok name ->
  name <> ""
  /\ (token_get t "given_name" None = None ->
      token_get t "firstname" (Some "") = Some "" ->
      token_get t "family_name" None = None ->
      token_get t "lastname" (Some "") = Some "" ->
      name = " ").
Proof.
  unfold get_affirmby.
  set (firstname := if negb _ then _ else _).
  set (lastname := if negb (truthy_str (token_get t "family_name" None)) then _ else _).
  intros Hname. split.
  - destruct firstname as [first|], lastname as [last|]; simpl in Hname; try done.
    injection Hname as <-. intros Hempty.
    apply append_empty in Hempty as [Hempty _].
    by apply append_empty in Hempty as [_ Hblank].
  - intros Hg Hf Hfa Hl. subst firstname lastname.
    rewrite Hg, Hfa in Hname. simpl in Hname. rewrite Hf, Hl in Hname.
    by injection Hname as <-.
Qed.

Lemma get_affirmby_not_empty_witness :
  get_affirmby [] = Ok " "
  /\ " " <> ""
  /\ (token_get [] "given_name" None = None ->
      token_get [] "firstname" (Some "") = Some "" ->
      token_get [] "family_name" None = None ->
      token_get [] "lastname" (Some "") = Some "" ->
      " " = " ").
Proof.
  split; [reflexivity|].
  apply (get_affirmby_not_empty [] " "). reflexivity.
Defined.

(** ** Staff payments: who pays *)

Lemma dict_get_set (d : dict) (key : string) (v : jvalue) (key' : string) :
  dict_get (dict_set d key v) key'
  = if String.eqb key key' then Some v else dict_get d key'.
Proof.
  induction d as [|[k w] rest IH]; simpl; [done|].
  destruct (String.eqb_spec k key) as [-> | Hk]; simpl.
  - by destruct (String.eqb key key').
  - rewrite IH. destruct (String.eqb_spec k key') as [-> | Hk']; [|done].
    by rewrite (proj2 (String.eqb_neq _ _) (not_eq_sym Hk)).
Qed.

Lemma dict_has_set (d : dict) (key : string) (v : jvalue) (key' : string) :
  dict_has (dict_set d key v) key' = String.eqb key key' || dict_has d key'.
Proof. unfold dict_has. rewrite dict_get_set. by destruct (String.eqb key key'). Qed.

Section StaffPaymentProperties.
Context `{Collaborators} `{RequestHelpers}.

#[local] Arguments String.eqb : simpl never.

(** The lookups of two written keys in the dictionary the function
    returns, the keys it writes being different from one another. *)
Lemma build_staff_payment_lookups req trans_type quantity transaction_id :
  NoDup payment_info_keys ->
  let payment_info := build_staff_payment req trans_type quantity transaction_id in
  let by_slip_or_bcol :=
    bool_decide (is_Some (args_get (args req) ROUTING_SLIP_PARAM))
    || bool_decide (is_Some (args_get (args req) BCOL_NUMBER_PARAM)) in
  dict_get payment_info "waiveFees"
  = Some (JBool (negb (own_account req) && negb by_slip_or_bcol))
  /\ dict_get payment_info "accountId"
     = Some (if own_account req
             then JStr (default "" (get_account_id req))
             else jstr_or_null (get_staff_account_id req)).
Proof.
  intros Hkeys. unfold payment_info_keys in Hkeys.
  repeat match type of Hkeys with
         | NoDup (_ :: _) => apply NoDup_cons in Hkeys as [? Hkeys]
         end.
  repeat match goal with
         | Hnot : _ ∉ _ :: _ |- _ => apply not_elem_of_cons in Hnot as [? Hnot]
         end.
  assert (Heqb : forall a b : string, a <> b -> String.eqb a b = false)
    by (intros a b; apply String.eqb_neq).
  unfold build_staff_payment, own_account.
  destruct (truthy_str transaction_id);
    destruct (truthy_str (get_account_id req)
              && negb (bool_decide (get_account_id req = Some STAFF_ROLE)));
    destruct (flag_set (args_get (args req) CERTIFIED_PARAM));
    destruct (args_get (args req) ROUTING_SLIP_PARAM) as [slip|];
    destruct (args_get (args req) BCOL_NUMBER_PARAM) as [bcol|];
    destruct (args_get (args req) DAT_NUMBER_PARAM) as [dat|];
    destruct (flag_set (args_get (args req) PRIORITY_PARAM));
    cbv zeta; unfold dict_has;
    repeat (rewrite ?dict_get_set; simpl; rewrite ?String.eqb_refl;
            repeat (rewrite Heqb by congruence); simpl);
    done.
Qed.

(** X25. [build_staff_payment] waives the fees exactly when the request
    names no account of its own (none, an empty one or the staff role)
    and gives neither a routing slip number nor a BCOL account number;
    the other parameters (certified, DAT number, priority, transaction
    id) have no influence on it. The names of the query parameters are
    taken to differ from one another and from the fixed keys. *)
Theorem build_staff_payment_waive_fees
    (req : Request) (trans_type : string) (quantity : Z) (transaction_id : option string) :
  NoDup payment_info_keys ->
  dict_get (build_staff_payment req trans_type quantity transaction_id) "waiveFees"
  = Some (JBool (negb (own_account req)
                 && negb (bool_decide (is_Some (args_get (args req) ROUTING_SLIP_PARAM)))
                 && negb (bool_decide (is_Some (args_get (args req) BCOL_NUMBER_PARAM))))).
Proof.
  intros Hkeys.
  rewrite (proj1 (build_staff_payment_lookups req trans_type quantity transaction_id Hkeys)).
  by rewrite negb_orb, andb_assoc.
Qed.

(** X26. The account [build_staff_payment] bills is the account of the
    request when it names one that is not the staff role, and the staff
    account id otherwise; a routing slip or a BCOL number does not
    change it. *)
Theorem build_staff_payment_account
    (req : Request) (trans_type : string) (quantity : Z) (transaction_id : option string) :
  NoDup payment_info_keys ->
  dict_get (build_staff_payment req trans_type quantity transaction_id) "accountId"
  = Some (if own_account req
          then JStr (default "" (get_account_id req))
          else jstr_or_null (get_staff_account_id req)).
Proof.
  intros Hkeys.
  exact (proj2 (build_staff_payment_lookups req trans_type quantity transaction_id Hkeys)).
Qed.

End StaffPaymentProperties.

Lemma build_staff_payment_waive_fees_witness :
  let C := PermitExample.collaborators in
  let R := StaffPaymentExample.helpers (Some "staff-account") None in
  dict_get (build_staff_payment StaffPaymentExample.with_routing_slip "MHREG" 1 (Some "000900"))
    "waiveFees"
  = Some (JBool false).
Proof.
  intros C R.
  apply (@build_staff_payment_waive_fees C R StaffPaymentExample.with_routing_slip
           "MHREG" 1 (Some "000900")).
  apply (bool_decide_unpack _). reflexivity.
Defined.

Lemma build_staff_payment_account_witness :
  let C := PermitExample.collaborators in
  let R := StaffPaymentExample.helpers (Some "staff-account") (Some "PS12345") in
  dict_get (build_staff_payment StaffPaymentExample.with_routing_slip "MHREG" 1 (Some "000900"))
    "accountId"
  = Some (JStr "PS12345").
Proof.
  intros C R.
  apply (@build_staff_payment_account C R StaffPaymentExample.with_routing_slip
           "MHREG" 1 (Some "000900")).
  apply (bool_decide_unpack _). reflexivity.
Defined.

(** ** Paying and saving: the registration that is filed *)

Section PayAndSaveFiled.
Context `{Collaborators} `{Services}.

(** X27. When the token of the user gives the affirming name, the
    payment is taken and the commit goes through,
    [pay_and_save_registration] returns the registration
    [create_new_from_json] has built with the invoice id and the receipt
    path of the payment reference attached; it is added to the session
    and committed once, and nothing is refunded. *)
Theorem pay_and_save_registration_files
    (token_info : token) (name : string)
    (request_json : RegistrationJson) (account user_group : option string)
    (trans_type : string)
    (draft : MhrDraft) (pay_ref : PayRef) (invoice : Z)
    (registration : MhrRegistration) (json_data' : RegistrationJson) :
  get_affirmby token_info = Ok name ->
  create_draft = Ok draft ->
  create_payment (is_reg_staff_account account) = Ok pay_ref ->
  ccPayment pay_ref = false ->
  invoiceId pay_ref = Some invoice ->
  create_new_from_json next_values clock
    (set_registrationType request_json MhrRegistrationTypes.MHREG)
    draft account (token_get token_info "username" None)
  = Ok (registration, json_data') ->
  commit_outcome 0 = None ->
  let filed := set_payment registration (Some invoice) (Some (receipt pay_ref)) in
  pay_and_save_registration token_info request_json account user_group trans_type []
  = ([DraftSaved (draft_mhr_number draft);
      PaymentRequested (is_reg_staff_account account) trans_type (draft_mhr_number draft);
      SessionAdd (id filed); SessionCommit],
     Ok (Registered filed))
  /\ pay_invoice_id filed = Some invoice
  /\ pay_path filed = Some (receipt pay_ref).
Proof.
  intros Hname Hdraft Hpay Hcc Hinvoice Hbuilt Hcommit filed. split.
  - unfold pay_and_save_registration, pay, bind, lift, emit, try_except.
    rewrite Hname, Hdraft. simpl. rewrite Hpay, Hcc, Hbuilt, Hinvoice. simpl.
    fold filed. unfold save, bind, emit, session_commit, commits_so_far. simpl.
    by rewrite Hcommit.
  - subst filed. by destruct registration.
Qed.

(** X28. When the token of the user gives the affirming name, the
    payment is taken and both commits go through,
    [pay_and_save_transfer], called for a base registration that has
    owner groups, returns the transfer registration with the invoice id
    and the receipt path attached and leaves the base registration as
    [remove_groups] leaves it for the delete instructions of the
    payload and the id of the transfer registration; nothing is
    refunded. *)
Theorem pay_and_save_transfer_files
    (token_info : token) (name : string)
    (current_reg : MhrRegistration) (request_json : RegistrationJson)
    (account user_group : option string) (trans_type : string)
    (pay_ref : PayRef) (invoice : Z)
    (registration : MhrRegistration) (json_data' : RegistrationJson)
    (current_reg' : MhrRegistration) :
  get_affirmby token_info = Ok name ->
  create_payment (is_reg_staff_account account) = Ok pay_ref ->
  ccPayment pay_ref = false ->
  invoiceId pay_ref = Some invoice ->
  create_transfer_from_json next_values clock find_draft current_reg
    (match registrationType request_json with
     | Some _ => request_json
     | None => set_registrationType request_json MhrRegistrationTypes.TRANS
     end) account (token_get token_info "username" None)
  = Ok (registration, json_data') ->
  0 < id current_reg ->
  owner_groups current_reg <> [] ->
  remove_groups current_reg json_data' (id registration) = Ok current_reg' ->
  commit_outcome 0 = None ->
  commit_outcome 1 = None ->
  let filed := set_payment registration (Some invoice) (Some (receipt pay_ref)) in
  pay_and_save_transfer token_info current_reg request_json account user_group
    trans_type []
  = ([PaymentRequested (is_reg_staff_account account) trans_type (mhr_number current_reg);
      SessionAdd (id filed); SessionCommit; SessionCommit],
     Ok (Registered filed, current_reg')).
Proof.
  intros Hname Hpay Hcc Hinvoice Hbuilt Hid Hgroups Hremoved Hfirst Hsecond filed.
  assert (Hfiled : id filed = id registration) by (subst filed; by destruct registration).
  unfold pay_and_save_transfer, pay, bind, lift, emit, try_except.
  rewrite Hname. simpl. rewrite Hpay, Hcc, Hbuilt, Hinvoice. simpl.
  fold filed. unfold save, bind, emit, session_commit, commits_so_far. simpl.
  rewrite Hfirst. simpl.
  rewrite (proj2 (Z.ltb_lt _ _) Hid), (bool_decide_eq_true_2 _ Hgroups). simpl.
  unfold save_transfer_commit, bind, lift, save_transfer, session_commit, commits_so_far.
  rewrite Hfiled, Hremoved. simpl. by rewrite Hsecond.
Qed.

(** X29. A payment reference whose invoice id is null, for a user whose
    token gives the affirming name: the builder has
    run when [int(invoice_id)] raises the [TypeError]; nothing is added
    to the session or committed, no refund is asked for (there is no
    invoice to refund), and the caller gets a [DatabaseException] that
    carries the [TypeError]. *)
Theorem null_invoice_saves_nothing
    (token_info : token) (name : string)
    (request_json : RegistrationJson) (account user_group : option string)
    (trans_type : string)
    (draft : MhrDraft) (pay_ref : PayRef)
    (registration : MhrRegistration) (json_data' : RegistrationJson) :
  get_affirmby token_info = Ok name ->
  create_draft = Ok draft ->
  create_payment (is_reg_staff_account account) = Ok pay_ref ->
  ccPayment pay_ref = false ->
  invoiceId pay_ref = None ->
  create_new_from_json next_values clock
    (set_registrationType request_json MhrRegistrationTypes.MHREG)
    draft account (token_get token_info "username" None)
  = Ok (registration, json_data') ->
  pay_and_save_registration token_info request_json account user_group trans_type []
  = ([DraftSaved (draft_mhr_number draft);
      PaymentRequested (is_reg_staff_account account) trans_type (draft_mhr_number draft)],
     Err (DatabaseException TypeError)).
Proof.
  intros Hname Hdraft Hpay Hcc Hinvoice Hbuilt.
  unfold pay_and_save_registration, pay, bind, lift, emit, try_except.
  rewrite Hname, Hdraft. simpl. rewrite Hpay, Hcc, Hbuilt, Hinvoice. simpl.
  unfold refund_and_raise, bind, raise, ret. simpl.
  by rewrite andb_false_r.
Qed.

End PayAndSaveFiled.

Lemma pay_and_save_registration_files_witness :
  let S := PaymentExample.services None in
  let filed :=
    set_payment (fst PaymentExample.built) (Some 9001)
      (Some "/api/v1/payment-requests/9001/receipts") in
  pay_and_save_registration PaymentExample.user_token
    NewRegistrationExample.payload (Some "PS12345") (Some "ppr_staff") "MHREG" []
  = ([DraftSaved "000900"; PaymentRequested false "MHREG" "000900";
      SessionAdd 1; SessionCommit],
     Ok (Registered filed))
  /\ pay_invoice_id filed = Some 9001
  /\ pay_path filed = Some "/api/v1/payment-requests/9001/receipts".
Proof.
  intros S.
  apply (@pay_and_save_registration_files S
           PaymentExample.user_token "Jane Smith"
           NewRegistrationExample.payload (Some "PS12345") (Some "ppr_staff") "MHREG"
           NewRegistrationExample.draft PaymentExample.pay_ref 9001
           (fst PaymentExample.built) (snd PaymentExample.built));
    reflexivity.
Defined.

Lemma pay_and_save_transfer_files_witness :
  let C := PermitExample.collaborators in
  let S := PayAndSaveExample.services PaymentExample.pay_ref None
             (fun _ => None) (NewRegistrationExample.generated 2) 10 in
  let built := PayAndSaveExample.built TransferExample.first_transfer in
  let filed :=
    set_payment (fst built) (Some 9001) (Some "/api/v1/payment-requests/9001/receipts") in
  exists current_reg',
    remove_groups TransferExample.base (snd built) 2 = Ok current_reg'
    /\ pay_and_save_transfer PayAndSaveExample.user_token
         TransferExample.base TransferExample.first_transfer
         (Some "PS12345") (Some "ppr_staff") "TRANS" []
       = ([PaymentRequested false "TRANS" "000900"; SessionAdd 2; SessionCommit;
           SessionCommit],
          Ok (Registered filed, current_reg')).
Proof.
  intros C S built filed. eexists. split; [reflexivity|].
  apply (@pay_and_save_transfer_files C S
           PayAndSaveExample.user_token "James Smith"
           TransferExample.base TransferExample.first_transfer
           (Some "PS12345") (Some "ppr_staff") "TRANS" PaymentExample.pay_ref 9001
           (fst built) (snd built)).
  - reflexivity.
  - reflexivity.
  - reflexivity.
  - reflexivity.
  - reflexivity.
  - reflexivity.
  - intros Hnone. vm_compute in Hnone. discriminate Hnone.
  - reflexivity.
  - reflexivity.
  - reflexivity.
Defined.

Lemma null_invoice_saves_nothing_witness :
  let S := PayAndSaveExample.services NullInvoiceExample.pay_ref None
             (fun _ => None) (NewRegistrationExample.generated 1) 0 in
  pay_and_save_registration PaymentExample.user_token
    NewRegistrationExample.payload (Some "PS12345") (Some "ppr_staff") "MHREG" []
  = ([DraftSaved "000900"; PaymentRequested false "MHREG" "000900"],
     Err (DatabaseException TypeError)).
Proof.
  intros S.
  apply (@null_invoice_saves_nothing S
           PaymentExample.user_token "Jane Smith"
           NewRegistrationExample.payload (Some "PS12345") (Some "ppr_staff") "MHREG"
           NewRegistrationExample.draft NullInvoiceExample.pay_ref
           (fst PaymentExample.built) (snd PaymentExample.built));
    reflexivity.
Defined.

(** ** Paying and saving: the affirming name comes first *)

Section AffirmingName.
Context `{Collaborators} `{Services}.

(** X30. The pay-and-save functions ask [get_affirmby] for the name
    that affirms the registration before anything else, and outside
    their [try]. When it raises (a name claim of the token is null) they
    raise the same error: no draft is saved, no payment is requested,
    nothing is stored and nothing is refunded. *)
Theorem affirming_name_error_stops_request
    (token_info : token) (current_reg : MhrRegistration)
    (request_json : RegistrationJson) (account user_group : option string)
    (trans_type : string) (e : exn) :
  get_affirmby token_info = Err e ->
  pay_and_save_registration token_info request_json account user_group trans_type []
  = ([], Err e)
  /\ pay_and_save_transfer token_info current_reg request_json account user_group
       trans_type []
     = ([], Err e).
Proof.
  intros Hname. unfold pay_and_save_registration, pay_and_save_transfer, bind, lift.
  by rewrite Hname.
Qed.

End AffirmingName.

Lemma affirming_name_error_stops_request_witness :
  let C := PermitExample.collaborators in
  let S := PaymentExample.services None in
  pay_and_save_registration TokenExample.null_lastname
    NewRegistrationExample.payload (Some "PS12345") (Some "ppr_staff") "MHREG" []
  = ([], Err TypeError)
  /\ pay_and_save_transfer TokenExample.null_lastname
       TransferExample.base NewRegistrationExample.payload
       (Some "PS12345") (Some "ppr_staff") "MHREG" []
     = ([], Err TypeError).
Proof.
  intros C S.
  apply (@affirming_name_error_stops_request C S TokenExample.null_lastname
           TransferExample.base NewRegistrationExample.payload
           (Some "PS12345") (Some "ppr_staff") "MHREG" TypeError).
  reflexivity.
Defined.
